(** * refine-backlog-cli: a shallow embedding of the command-line client

    The development follows [src/index.ts] (the refine flow: context
    detection, the argument loop, the request, the response mapping and
    the markdown formatter) and the variant of it that adds the [enforce]
    subcommand ([runEnforce]).

    JavaScript strings are modelled as [string], one [ascii] per code
    unit, so [String.length] is the [.length] of the source; the strings
    that are measured, sliced or trimmed are those whose code units are
    below 256.  The few literals of the program with characters beyond
    that only occur in printed lines and are kept as written.  Objects
    whose property order matters are association lists; the file system
    and the request headers are finite maps.  What the runtime and the
    network contribute ([JSON.parse], the files, the lines of standard
    input, the answer of the server) is a parameter of the functions
    that use it. *)

From Stdlib Require Import ZArith Ascii String List Lia Bool.
From stdpp Require Import base list strings gmap pretty.

Local Open Scope string_scope.
Local Open Scope list_scope.
Local Open Scope stdpp_scope.
Set Warnings "-register-all".

(** ** String primitives of the runtime *)

Module JsString.

(** [!s] for a string: only the empty string is falsy. *)
Definition falsy (s : string) : bool :=
  match s with "" => true | _ => false end.

Definition truthy (s : string) : bool := negb (falsy s).

(** White space and line terminators stripped by [String.prototype.trim],
    among the code units below 256. *)
Definition is_ws (c : ascii) : bool :=
  let n := nat_of_ascii c in
  ((9 <=? n)%nat && (n <=? 13)%nat) || (n =? 32)%nat || (n =? 160)%nat.

Fixpoint trimStart (s : string) : string :=
  match s with
  | "" => ""
  | String c r => if is_ws c then trimStart r else s
  end.

Fixpoint trimEnd (s : string) : string :=
  match s with
  | "" => ""
  | String c r =>
      let r' := trimEnd r in
      if is_ws c && falsy r' then "" else String c r'
  end.

Definition trim (s : string) : string := trimEnd (trimStart s).

(** [s.slice(0, n)] for [0 <= n]. *)
Fixpoint slice0 (n : nat) (s : string) : string :=
  match n, s with
  | S k, String c r => String c (slice0 k r)
  | _, _ => ""
  end.

(** [s.split('\n')]. *)
Fixpoint split_nl (s : string) : list string :=
  match s with
  | "" => [""]
  | String c r =>
      if Ascii.eqb c "010"%char then "" :: split_nl r
      else match split_nl r with
           | h :: t => String c h :: t
           | [] => [String c ""]
           end
  end.

(** [s.startsWith(p)]. *)
Fixpoint startsWith (p s : string) : bool :=
  match p, s with
  | "", _ => true
  | String a p', String b s' => Ascii.eqb a b && startsWith p' s'
  | _, _ => false
  end.

(** [xs.join(sep)] on an array of strings. *)
Fixpoint join (sep : string) (xs : list string) : string :=
  match xs with
  | [] => ""
  | [x] => x
  | x :: r => x +:+ sep +:+ join sep r
  end.

(** Sum of the lengths of the elements. *)
Definition total_length (xs : list string) : nat :=
  foldr (fun x n => String.length x + n) 0 xs.

Fixpoint replicate_char (n : nat) (c : ascii) : string :=
  match n with
  | 0 => ""
  | S k => String c (replicate_char k c)
  end.

End JsString.

Import JsString.

(** ** JSON values, as far as the manifest extractor inspects them *)

Module Json.

(** A parsed JSON value.  Numbers are the integer-valued ones up to
    2^53 in magnitude, which the runtime holds exactly and prints in
    decimal; an object carries its own properties in enumeration
    order. *)
Inductive json : Type :=
| JNull
| JBool (b : bool)
| JNum (n : Z)
| JStr (s : string)
| JArr (xs : list json)
| JObj (props : list (string * json)).

Fixpoint assoc {A} (k : string) (l : list (string * A)) : option A :=
  match l with
  | [] => None
  | (k', v) :: r => if String.eqb k k' then Some v else assoc k r
  end.

(** [v.k]: the outer [None] is the [TypeError] of reading a property of
    [null]; the inner [None] is [undefined]. *)
Definition get (v : json) (k : string) : option (option json) :=
  match v with
  | JNull => None
  | JObj props => Some (assoc k props)
  | _ => Some None
  end.

(** Truthiness of a value or [undefined]. *)
Definition truthy (v : option json) : bool :=
  match v with
  | None | Some JNull => false
  | Some (JBool b) => b
  | Some (JNum n) => negb (n =? 0)%Z
  | Some (JStr s) => JsString.truthy s
  | Some (JArr _) | Some (JObj _) => true
  end.

Definition has_key {A} (k : string) (l : list (string * A)) : bool :=
  match assoc k l with Some _ => true | None => false end.

(** [`${v}`]: [None] is the [TypeError] raised for an object whose own
    [toString] property is not callable. *)
Fixpoint toString (v : json) : option string :=
  match v with
  | JNull => Some "null"
  | JBool true => Some "true"
  | JBool false => Some "false"
  | JNum n => Some (pretty n)
  | JStr s => Some s
  | JArr xs =>
      (fix elems (l : list json) : option (list string) :=
         match l with
         | [] => Some []
         | x :: r =>
             match (match x with JNull => Some "" | _ => toString x end),
                   elems r with
             | Some a, Some b => Some (a :: b)
             | _, _ => None
             end
         end) xs ≫= fun parts => Some (join "," parts)
  | JObj props =>
      if has_key "toString" props then None else Some "[object Object]"
  end.

Fixpoint indices (from n : nat) : list string :=
  match n with
  | 0 => []
  | S k => pretty from :: indices (S from) k
  end.

(** [Object.keys(v || {})]. *)
Definition keys_or_empty (v : option json) : list string :=
  if truthy v then
    match v with
    | Some (JObj props) => props.*1
    | Some (JArr xs) => indices 0 (length xs)
    | Some (JStr s) => indices 0 (String.length s)
    | _ => []
    end
  else [].

End Json.

(** ** Context detector: [detectProjectContext] *)

Module Context.
Import Json.

Definition MAX_CHARS : nat := 700.

(** What the working directory holds under a relative path: a lookup
    that finds nothing is a path for which [existsSync] is false, and
    [Unreadable] is a path whose [readFileSync] throws. *)
Inductive file_state : Type :=
| Unreadable
| Content (text : string).

Record source : Type := Source {
  file : string;
  extractor : string -> string
}.

Record acc : Type := Acc {
  collected : list string;
  usedSources : list string;
  totalChars : nat
}.

Definition acc0 : acc := Acc [] [] 0.

(** One iteration of the loop body after the budget test. *)
Definition visit (fs : gmap string file_state) (st : acc) (src : source) : acc :=
  match fs !! file src with
  | None => st
  | Some Unreadable => st
  | Some (Content raw) =>
      let content := trim raw in
      if falsy content then st else
      let extracted := trim (extractor src content) in
      if falsy extracted then st else
      let remaining := MAX_CHARS - totalChars st in
      let chunk := slice0 remaining extracted in
      Acc (collected st ++ [chunk])
          (usedSources st ++ [file src])
          (totalChars st + String.length chunk)
  end.

(** The [for ... of sources] loop; the first test is the [break]. *)
Fixpoint loop (fs : gmap string file_state) (st : acc) (srcs : list source) : acc :=
  match srcs with
  | [] => st
  | src :: rest =>
      if (MAX_CHARS <=? totalChars st)%nat then st
      else loop fs (visit fs st src) rest
  end.

(** What the loop keeps true of its three variables. *)
Definition budget_inv (st : acc) : Prop :=
  totalChars st = total_length (collected st)
  /\ totalChars st <= MAX_CHARS
  /\ length (collected st) = length (usedSources st)
  /\ Forall (fun chunk => JsString.truthy chunk = true) (collected st).

Definition truncate300 (c : string) : string := slice0 300 c.

(** The line that names the files a context was built from. *)
Definition diagnostic (used : list string) (combined : string) : string :=
  "Auto-detected project context from: " +:+ join ", " used
  +:+ " (" +:+ pretty (String.length combined) +:+ " chars)".

Section Manifest.
(** [JSON.parse] of the runtime; [None] is its [SyntaxError]. *)
Variable JSON_parse : string -> option json.

(** The body of the [try] block of the manifest extractor; [None] is
    an exception thrown inside it. *)
Definition manifest_summary (c : string) : option string :=
  pkg ← JSON_parse c;
  name ← get pkg "name";
  parts1 ← (if truthy name
            then s ← (name ≫= toString); Some ["name: " +:+ s]
            else Some []);
  description ← get pkg "description";
  parts2 ← (if truthy description
            then s ← (description ≫= toString);
                 Some (parts1 ++ ["description: " +:+ s])
            else Some parts1);
  dependencies ← get pkg "dependencies";
  devDependencies ← get pkg "devDependencies";
  let deps := take 8 (keys_or_empty dependencies ++ keys_or_empty devDependencies) in
  let parts3 := match deps with
                | [] => parts2
                | _ => parts2 ++ ["deps: " +:+ join ", " deps]
                end in
  Some (join " | " parts3).

Definition manifest_extractor (c : string) : string :=
  match manifest_summary c with
  | Some s => s
  | None => ""
  end.

Definition sources : list source :=
  [ Source "AGENTS.md" truncate300;
    Source "CLAUDE.md" truncate300;
    Source "CODEX.md" truncate300;
    Source "GEMINI.md" truncate300;
    Source ".github/copilot-instructions.md" truncate300;
    Source ".windsurfrules" truncate300;
    Source "llms.txt" truncate300;
    Source "README.md" truncate300;
    Source "package.json" manifest_extractor;
    Source "prisma/schema.prisma" truncate300 ].

(** The result and the line written to the diagnostic stream. *)
Definition detectProjectContext (fs : gmap string file_state)
  : option string * list string :=
  let st := loop fs acc0 sources in
  match collected st with
  | [] => (None, [])
  | _ =>
      let combined := join " | " (collected st) in
      (Some combined, [diagnostic (usedSources st) combined])
  end.
End Manifest.

End Context.

(** ** Refine client: [callApi] *)

Module Client.
Import Json.

Definition API_URL : string := "https://refinebacklog.com/api/refine".
Definition VERSION : string := "1.0.2".

Record api_opts : Type := ApiOpts {
  context : option string;
  useUserStories : option bool;
  useGherkin : option bool;
  licenseKey : option string
}.

(** Truthiness of an optional string and of an optional boolean. *)
Definition truthy_str (o : option string) : bool :=
  match o with Some s => JsString.truthy s | None => false end.

Definition truthy_flag (o : option bool) : bool :=
  match o with Some b => b | None => false end.

(** The object literal handed to [JSON.stringify]: spreading a falsy
    value adds no property. *)
Definition request_object (items : list string) (opts : api_opts)
  : list (string * json) :=
  [("items", JArr (JStr <$> items))]
  ++ (match context opts with
      | Some c => if JsString.truthy c then [("context", JStr c)] else []
      | None => []
      end)
  ++ (if truthy_flag (useUserStories opts) then [("useUserStories", JBool true)] else [])
  ++ (if truthy_flag (useGherkin opts) then [("useGherkin", JBool true)] else []).

Definition dquote : ascii := "034"%char.

Definition hex_digit (n : nat) : ascii :=
  match n with
  | 0 => "0" | 1 => "1" | 2 => "2" | 3 => "3" | 4 => "4" | 5 => "5"
  | 6 => "6" | 7 => "7" | 8 => "8" | 9 => "9" | 10 => "a" | 11 => "b"
  | 12 => "c" | 13 => "d" | 14 => "e" | _ => "f"
  end%char.

(** The escape [JSON.stringify] writes for one code unit of a string. *)
Definition escape_char (c : ascii) : string :=
  let n := nat_of_ascii c in
  if (n =? 34)%nat then String "\" (String dquote "")
  else if (n =? 92)%nat then "\\"
  else if (n =? 8)%nat then "\b"
  else if (n =? 12)%nat then "\f"
  else if (n =? 10)%nat then "\n"
  else if (n =? 13)%nat then "\r"
  else if (n =? 9)%nat then "\t"
  else if (n <? 32)%nat
       then "\u00" +:+ String (hex_digit (n / 16)) (String (hex_digit (n mod 16)) "")
  else String c "".

Fixpoint escape (s : string) : string :=
  match s with
  | "" => ""
  | String c r => escape_char c +:+ escape r
  end.

Definition quote (s : string) : string :=
  String dquote (escape s +:+ String dquote "").

(** A string between double quotes, nothing escaped. *)
Definition quote_raw (s : string) : string :=
  String dquote (s +:+ String dquote "").

(** [JSON.stringify] without indentation. *)
Fixpoint stringify (v : json) : string :=
  match v with
  | JNull => "null"
  | JBool true => "true"
  | JBool false => "false"
  | JNum n => pretty n
  | JStr s => quote s
  | JArr xs =>
      "[" +:+ join "," ((fix elems (l : list json) : list string :=
                           match l with
                           | [] => []
                           | x :: r => stringify x :: elems r
                           end) xs) +:+ "]"
  | JObj props =>
      "{" +:+ join "," ((fix members (l : list (string * json)) : list string :=
                           match l with
                           | [] => []
                           | (k, x) :: r => (quote k +:+ ":" +:+ stringify x) :: members r
                           end) props) +:+ "}"
  end.

Definition request_body (items : list string) (opts : api_opts) : string :=
  stringify (JObj (request_object items opts)).

(** [Buffer.byteLength]: the length of the UTF-8 encoding. *)
Fixpoint byteLength (s : string) : nat :=
  match s with
  | "" => 0
  | String c r => (if (nat_of_ascii c <? 128)%nat then 1 else 2) + byteLength r
  end.

Definition request_headers (items : list string) (opts : api_opts)
  : gmap string string :=
  let headers : gmap string string :=
    <["Content-Type" := "application/json"]>
    (<["Content-Length" := pretty (byteLength (request_body items opts))]>
     (<["User-Agent" := "refine-backlog-cli/" +:+ VERSION]> ∅)) in
  match licenseKey opts with
  | Some k => if JsString.truthy k then <["x-license-key" := k]> headers else headers
  | None => headers
  end.

(** How the promise settles. *)
Inductive settled : Type :=
| Resolve (v : json)
| Reject (message : string).

Definition rate_limit_message : string :=
  "Rate limit hit. Upgrade at refinebacklog.com/pricing or pass --key".

Definition too_many_items_message : string :=
  "Too many items for free tier. Upgrade at refinebacklog.com/pricing".

Definition show_status (s : option N) : string :=
  match s with
  | Some n => pretty n
  | None => "undefined"
  end.

Section Response.
(** [JSON.parse] of the runtime; [None] is its [SyntaxError]. *)
Variable JSON_parse : string -> option json.

(** The [end] handler of the response: [statusCode] is [None] when
    the response carries no status. *)
Definition on_end (statusCode : option N) (data : string) : settled :=
  if decide (statusCode = Some 429%N) then
    Reject rate_limit_message
  else if decide (statusCode = Some 402%N) then
    Reject too_many_items_message
  else if match statusCode with
          | None => true
          | Some n => (n =? 0)%N || (400 <=? n)%N
          end then
    Reject ("API error " +:+ show_status statusCode +:+ ": " +:+ data)
  else
    match JSON_parse data with
    | Some v => Resolve v
    | None => Reject ("Invalid JSON response: " +:+ slice0 200 data)
    end.

Record request : Type := Request {
  hostname : string;
  path : string;
  method : string;
  headers : gmap string string;
  body : string
}.

(** What the transport does with a request: an [error] event, or a
    response that ends with a status and the concatenated chunks. *)
Inductive exchange : Type :=
| NetworkError (message : string)
| Response (statusCode : option N) (data : string).

(** [callApi]: the requests written to the network, and how the
    promise settles. *)
Definition callApi (net : request -> exchange)
  (items : list string) (opts : api_opts) : list request * settled :=
  let req := Request "refinebacklog.com" "/api/refine" "POST"
               (request_headers items opts) (request_body items opts) in
  ([req],
   match net req with
   | NetworkError e => Reject e
   | Response statusCode data => on_end statusCode data
   end).
End Response.

End Client.

(** ** Response formatter: [formatMarkdown] *)

Module Markdown.

(** [RefinedItem] as it arrives from the service: the fields the
    formatter tests before use may be missing. *)
Record RefinedItem : Type := Item {
  title : string;
  problemStatement : string;
  acceptanceCriteria : option (list string);
  estimate : string;
  priority : string;
  rationale : option string;
  tags : option (list string);
  userStory : option string
}.

Definition nl : string := String "010"%char "".

Definition truthy_str (o : option string) : bool :=
  match o with Some s => JsString.truthy s | None => false end.

(** [xs?.length] as a condition. *)
Definition nonempty (o : option (list string)) : bool :=
  match o with Some (_ :: _) => true | _ => false end.

Definition text (o : option string) : string := default "" o.
Definition elems (o : option (list string)) : list string := default [] o.

(** The body of the [map] callback, as the sequence of [push]es on
    [lines]. *)
Definition item_lines (item : RefinedItem) : list string :=
  let lines := ["## " +:+ title item] in
  let lines :=
    if truthy_str (userStory item)
    then lines ++ [nl +:+ "> " +:+ text (userStory item)] else lines in
  let lines := lines ++ [nl +:+ "**Problem:** " +:+ problemStatement item] in
  let lines := lines ++ [nl +:+ "**Estimate:** " +:+ estimate item
                         +:+ " | **Priority:** " +:+ priority item] in
  let lines :=
    if truthy_str (rationale item)
    then lines ++ ["**Rationale:** " +:+ text (rationale item)] else lines in
  let lines :=
    if nonempty (acceptanceCriteria item)
    then foldl (fun ls ac => ls ++ ["- " +:+ ac])
               (lines ++ [nl +:+ "**Acceptance Criteria:**"])
               (elems (acceptanceCriteria item))
    else lines in
  let lines :=
    if nonempty (tags item)
    then lines ++ [nl +:+ "**Tags:** " +:+ join ", " (elems (tags item))] else lines in
  lines.

Definition render_item (item : RefinedItem) : string := join nl (item_lines item).

Definition separator : string := nl +:+ nl +:+ "---" +:+ nl +:+ nl.

Definition formatMarkdown (items : list RefinedItem) : string :=
  join separator (render_item <$> items).

(** The optional sections of an item. *)
Definition user_story_section (item : RefinedItem) : list string :=
  if truthy_str (userStory item)
  then [nl +:+ "> " +:+ text (userStory item)] else [].

Definition rationale_section (item : RefinedItem) : list string :=
  if truthy_str (rationale item)
  then ["**Rationale:** " +:+ text (rationale item)] else [].

Definition criteria_section (item : RefinedItem) : list string :=
  if nonempty (acceptanceCriteria item)
  then (nl +:+ "**Acceptance Criteria:**")
       :: ((fun ac => "- " +:+ ac) <$> elems (acceptanceCriteria item))
  else [].

Definition tags_section (item : RefinedItem) : list string :=
  if nonempty (tags item)
  then [nl +:+ "**Tags:** " +:+ join ", " (elems (tags item))] else [].

(** No line of [lines] begins with [p]. *)
Definition no_line_starts (p : string) (lines : list string) : Prop :=
  Forall (fun line => startsWith p line = false) lines.

(** An item with the four optional fields missing, and one with them
    present but empty. *)
Definition bare_item : RefinedItem :=
  Item "Fix login" "Users cannot log in" None "M" "HIGH" None None None.

Definition empty_item : RefinedItem :=
  Item "Fix login" "Users cannot log in" (Some []) "M" "HIGH" (Some "") (Some [])
       (Some "").

Definition full_item : RefinedItem :=
  Item "Add dark mode" "No dark theme" (Some ["Toggle exists"; "Choice persists"])
       "S" "LOW" (Some "Requested often") (Some ["ui"; "theme"])
       (Some "As a user, I want a dark theme").

End Markdown.

(** ** The formatter on a parsed response, whatever its shape *)

Module Untyped.
Import Json.

(** [v?.length] as a condition: an array or a string has its length, an
    object its own [length] property, and another value has none. *)
Definition has_length (v : option json) : bool :=
  match v with
  | None | Some JNull => false
  | Some (JArr xs) => match xs with [] => false | _ => true end
  | Some (JStr s) => JsString.truthy s
  | Some (JObj props) => truthy (assoc "length" props)
  | Some (JBool _) | Some (JNum _) => false
  end.

(** The elements of the value on which [map], [forEach] or [join] is
    called: only an array has these methods, and calling what another
    value has under that name is a [TypeError]. *)
Definition elements (v : option json) : option (list json) :=
  match v with
  | Some (JArr xs) => Some xs
  | _ => None
  end.

(** [result.items || result]. *)
Definition items_or_self (result : json) : option json :=
  items ← get result "items";
  Some (if truthy items then default result items else result).

Section Render.
(** [String(n)] of the runtime for the number [n]. *)
Variable Number_toString : Z -> string.

(** [`${v}`] for a parsed value: [None] is the [TypeError] raised for an
    object whose own [toString] property is not callable. *)
Fixpoint toString (v : json) : option string :=
  match v with
  | JNull => Some "null"
  | JBool true => Some "true"
  | JBool false => Some "false"
  | JNum n => Some (Number_toString n)
  | JStr s => Some s
  | JArr xs =>
      (fix elems (l : list json) : option (list string) :=
         match l with
         | [] => Some []
         | x :: r =>
             match (match x with JNull => Some "" | _ => toString x end),
                   elems r with
             | Some a, Some b => Some (a :: b)
             | _, _ => None
             end
         end) xs ≫= fun parts => Some (join "," parts)
  | JObj props =>
      if has_key "toString" props then None else Some "[object Object]"
  end.

(** [`${v}`] for the value of a property, which may be [undefined]. *)
Definition show (v : option json) : option string :=
  match v with
  | None => Some "undefined"
  | Some x => toString x
  end.

(** [xs.join(sep)]: [null] is joined as the empty string. *)
Definition join_values (sep : string) (xs : list json) : option string :=
  parts ← mapM (fun x => match x with JNull => Some "" | _ => toString x end) xs;
  Some (join sep parts).

(** The body of the [map] callback on one element of the array: the
    sequence of [push]es on [lines], or [None] when it throws. *)
Definition item_lines (item : json) : option (list string) :=
  title ← get item "title";
  t ← show title;
  let lines := ["## " +:+ t] in
  userStory ← get item "userStory";
  lines ← (if truthy userStory
           then s ← show userStory; Some (lines ++ [Markdown.nl +:+ "> " +:+ s])
           else Some lines);
  problemStatement ← get item "problemStatement";
  p ← show problemStatement;
  let lines := lines ++ [Markdown.nl +:+ "**Problem:** " +:+ p] in
  estimate ← get item "estimate";
  e ← show estimate;
  priority ← get item "priority";
  pr ← show priority;
  let lines := lines ++ [Markdown.nl +:+ "**Estimate:** " +:+ e
                         +:+ " | **Priority:** " +:+ pr] in
  rationale ← get item "rationale";
  lines ← (if truthy rationale
           then s ← show rationale; Some (lines ++ ["**Rationale:** " +:+ s])
           else Some lines);
  acceptanceCriteria ← get item "acceptanceCriteria";
  lines ← (if has_length acceptanceCriteria
           then acs ← elements acceptanceCriteria;
                bullets ← mapM (fun ac => s ← toString ac; Some ("- " +:+ s)) acs;
                Some (lines ++ [Markdown.nl +:+ "**Acceptance Criteria:**"]
                      ++ bullets)
           else Some lines);
  tags ← get item "tags";
  lines ← (if has_length tags
           then xs ← elements tags;
                s ← join_values ", " xs;
                Some (lines ++ [Markdown.nl +:+ "**Tags:** " +:+ s])
           else Some lines);
  Some lines.

(** [formatMarkdown] on the value it is handed at run time. *)
Definition formatMarkdown (items : json) : option string :=
  xs ← elements (Some items);
  rendered ← mapM (fun item => join Markdown.nl <$> item_lines item) xs;
  Some (join Markdown.separator rendered).

(** [formatMarkdown(result.items || result)]. *)
Definition render (result : json) : option string :=
  items_or_self result ≫= formatMarkdown.
End Render.

(** A [RefinedItem] as the parser delivers it: a missing field is a
    missing property. *)
Definition property (k : string) (v : option json) : list (string * json) :=
  match v with
  | Some x => [(k, x)]
  | None => []
  end.

Definition strings (l : list string) : json := JArr (JStr <$> l).

Definition encode_item (item : Markdown.RefinedItem) : json :=
  JObj ([("title", JStr (Markdown.title item));
         ("problemStatement", JStr (Markdown.problemStatement item))]
        ++ property "acceptanceCriteria" (strings <$> Markdown.acceptanceCriteria item)
        ++ [("estimate", JStr (Markdown.estimate item));
            ("priority", JStr (Markdown.priority item))]
        ++ property "rationale" (JStr <$> Markdown.rationale item)
        ++ property "tags" (strings <$> Markdown.tags item)
        ++ property "userStory" (JStr <$> Markdown.userStory item)).

(** An [ApiResponse] with these items and no [_meta]. *)
Definition encode_response (items : list Markdown.RefinedItem) : json :=
  JObj [("items", JArr (encode_item <$> items))].

End Untyped.

(** ** Command line of the refine flow: [readStdin] and [main] *)

Module Cli.
Import Context.

(** The local variables of [main] that the argument loop assigns. *)
Record flags : Type := Flags {
  items : list string;
  format : string;
  context : option string;
  licenseKey : option string;
  useUserStories : bool;
  useGherkin : bool;
  filePath : option string;
  noAutoContext : bool;
  contextExplicitlyProvided : bool
}.

Definition flags0 : flags :=
  Flags [] "markdown" None None false false None false false.

Definition set_format (v : option string) (st : flags) : flags :=
  Flags (items st)
        (match v with
         | Some f => if JsString.truthy f then f else "markdown"
         | None => "markdown"
         end)
        (context st) (licenseKey st) (useUserStories st) (useGherkin st)
        (filePath st) (noAutoContext st) (contextExplicitlyProvided st).

Definition set_context (v : option string) (st : flags) : flags :=
  Flags (items st) (format st) v (licenseKey st) (useUserStories st)
        (useGherkin st) (filePath st) (noAutoContext st) true.

Definition set_noAutoContext (st : flags) : flags :=
  Flags (items st) (format st) (context st) (licenseKey st) (useUserStories st)
        (useGherkin st) (filePath st) true (contextExplicitlyProvided st).

Definition set_licenseKey (v : option string) (st : flags) : flags :=
  Flags (items st) (format st) (context st) v (useUserStories st)
        (useGherkin st) (filePath st) (noAutoContext st)
        (contextExplicitlyProvided st).

Definition set_filePath (v : option string) (st : flags) : flags :=
  Flags (items st) (format st) (context st) (licenseKey st) (useUserStories st)
        (useGherkin st) v (noAutoContext st) (contextExplicitlyProvided st).

Definition set_useUserStories (st : flags) : flags :=
  Flags (items st) (format st) (context st) (licenseKey st) true
        (useGherkin st) (filePath st) (noAutoContext st)
        (contextExplicitlyProvided st).

Definition set_useGherkin (st : flags) : flags :=
  Flags (items st) (format st) (context st) (licenseKey st) (useUserStories st)
        true (filePath st) (noAutoContext st) (contextExplicitlyProvided st).

Definition push_item (arg : string) (st : flags) : flags :=
  Flags (items st ++ [arg]) (format st) (context st) (licenseKey st)
        (useUserStories st) (useGherkin st) (filePath st) (noAutoContext st)
        (contextExplicitlyProvided st).

(** What one branch of the [if ... else if] chain does: a branch that
    reads [args[++i]] takes the next argument ([None] past the end of
    the array), the others do not move [i]. *)
Inductive branch : Type :=
| TakesValue (assign : option string -> flags -> flags)
| NoValue (assign : flags -> flags).

Definition classify (arg : string) : branch :=
  if String.eqb arg "--format" then TakesValue set_format
  else if String.eqb arg "--context" || String.eqb arg "-c" then TakesValue set_context
  else if String.eqb arg "--no-auto-context" then NoValue set_noAutoContext
  else if String.eqb arg "--key" || String.eqb arg "-k" then TakesValue set_licenseKey
  else if String.eqb arg "--file" || String.eqb arg "-f" then TakesValue set_filePath
  else if String.eqb arg "--user-stories" then NoValue set_useUserStories
  else if String.eqb arg "--gherkin" then NoValue set_useGherkin
  else if negb (startsWith "-" arg) then NoValue (push_item arg)
  else NoValue (fun st => st).

(** The [for (let i = 0; i < args.length; i++)] loop over the arguments
    from [i] on. *)
Fixpoint parseArgs (st : flags) (args : list string) : flags :=
  match args with
  | [] => st
  | arg :: rest =>
      match classify arg with
      | NoValue assign => parseArgs (assign st) rest
      | TakesValue assign =>
          match rest with
          | [] => assign None st
          | v :: rest' => parseArgs (assign (Some v) st) rest'
          end
      end
  end.

Definition includes (x : string) (l : list string) : bool :=
  existsb (String.eqb x) l.

(** Lines of a file or of the input stream that become items. *)
Definition file_lines (content : string) : list string :=
  List.filter JsString.truthy (trim <$> split_nl content).

(** [readStdin]: [None] is an interactive terminal, otherwise the lines
    the [readline] interface yields until the end of the stream. *)
Definition readStdin (stdin : option (list string)) : list string :=
  match stdin with
  | None => []
  | Some lines =>
      foldl (fun acc line =>
               let trimmed := trim line in
               if JsString.truthy trimmed then acc ++ [trimmed] else acc)
            [] lines
  end.

Record env : Type := Env {
  fs : gmap string file_state;
  stdin : option (list string)
}.

(** What the process writes. *)
Inductive output : Type :=
| Help
| Out (line : string)
| Err (line : string).

(** Where [main] stands when it reaches the call of [callApi] (or how
    it ended before): the rest of [main] prints what [callApi] settles
    with. *)
Inductive outcome : Type :=
| Exit (code : Z) (written : list output)
| Uncaught
| CallApi (items : list string) (opts : Client.api_opts) (written : list output).

Section Main.
Variable JSON_parse : string -> option Json.json.

(** The [if (filePath)] block: the lines read from the file, or how
    the process ends there. *)
Definition read_file (st : flags) (e : env) : option (list string) + outcome :=
  match filePath st with
  | Some p =>
      if JsString.truthy p then
        match fs e !! p with
        | None => inr (Exit 1 [Err ("Error: File not found: " +:+ p)])
        | Some Unreadable => inr Uncaught
        | Some (Content text) => inl (Some (file_lines text))
        end
      else inl None
  | None => inl None
  end.

(** The auto-detection block: the context handed to [callApi] and what
    the detector wrote on the diagnostic stream. *)
Definition choose_context (st : flags) (e : env) : option string * list output :=
  if negb (contextExplicitlyProvided st) && negb (noAutoContext st) then
    match detectProjectContext JSON_parse (fs e) with
    | (Some detected, log) =>
        if JsString.truthy detected
        then (Some detected, Err <$> log)
        else (context st, Err <$> log)
    | (None, log) => (context st, Err <$> log)
    end
  else (context st, []).

(** [main] from the loop on, for the values [st] the loop leaves. *)
Definition run (st : flags) (e : env) : outcome :=
  match read_file st e with
  | inr stop => stop
  | inl lines =>
      let items := items st ++ default [] lines ++ readStdin (stdin e) in
      match items with
      | [] =>
          Exit 1 [Err ("Error: No items provided. Pass items as arguments, "
                       +:+ "use --file, or pipe via stdin." +:+ Markdown.nl);
                  Help]
      | _ =>
          CallApi items
            (Client.ApiOpts (choose_context st e).1 (Some (useUserStories st))
                            (Some (useGherkin st)) (licenseKey st))
            (choose_context st e).2
      end
  end.

Definition main (args : list string) (e : env) : outcome :=
  if includes "--help" args || includes "-h" args then Exit 0 [Help]
  else if includes "--version" args || includes "-v" args
  then Exit 0 [Out ("refine-backlog-cli v" +:+ Client.VERSION)]
  else run (parseArgs flags0 args) e.
End Main.

(** The arguments that some branch of [main] tests for. *)
Definition recognized : list string :=
  ["--help"; "-h"; "--version"; "-v"; "--format"; "--context"; "-c";
   "--no-auto-context"; "--key"; "-k"; "--file"; "-f"; "--user-stories";
   "--gherkin"].

(** The loop comes out of [args] with [i] on the first index past it: no
    branch among [args] reads its value from beyond the end. *)
Fixpoint reaches_end (args : list string) : bool :=
  match args with
  | [] => true
  | arg :: rest =>
      match classify arg with
      | NoValue _ => reaches_end rest
      | TakesValue _ =>
          match rest with
          | [] => false
          | _ :: rest' => reaches_end rest'
          end
      end
  end.

(** The [context] property of the request body, if it has one. *)
Definition sent_context (o : outcome) : option Json.json :=
  match o with
  | CallApi items opts _ => Json.assoc "context" (Client.request_object items opts)
  | _ => None
  end.

End Cli.

(** ** Issue enforcement flow: [runEnforce] *)

Module Enforce.

Definition VERSION : string := "1.0.0".

Record check : Type := Check {
  pass : bool;
  message : option string
}.

(** One result of the scoring endpoint; every field may be missing.
    Scores are the integer-valued numbers. *)
Record issue_result : Type := IssueResult {
  lint_id : option string;
  completeness_score : option Z;
  agent_ready : option bool;
  title : option string;
  checks : option (list (string * check))
}.

(** [LintApiResponse]: the flat fields of the response itself, and the
    optional [issues] array. *)
Record LintApiResponse : Type := LintResponse {
  issues : option (list issue_result);
  flat : issue_result
}.

(** The constants computed from the response before the comparison. *)
Record lint : Type := Lint {
  score : Z;
  agentReady : bool;
  lintId : string;
  lint_checks : list (string * check)
}.

(** [lintResult.issues?.[0] ?? lintResult]. *)
Definition issueResult (lintResult : LintApiResponse) : issue_result :=
  match issues lintResult with
  | Some (first :: _) => first
  | Some [] => flat lintResult
  | None => flat lintResult
  end.

Definition normalize (lintResult : LintApiResponse) : lint :=
  let r := issueResult lintResult in
  Lint (default 0%Z (completeness_score r))
       (default false (agent_ready r))
       (match lint_id r with
        | Some i => if JsString.truthy i then "#" +:+ i else ""
        | None => ""
        end)
       (default [] (checks r)).

Definition show_bool (b : bool) : string := if b then "true" else "false".

(** [Object.entries(checks).filter(([, v]) => !v.pass)]. *)
Definition failing (cs : list (string * check)) : list (string * check) :=
  List.filter (fun kv => negb (pass kv.2)) cs.

Definition failing_line (kv : string * check) : string :=
  let msg := match message kv.2 with
             | Some m => if JsString.truthy m then " — " +:+ m else ""
             | None => ""
             end in
  "  ✗ " +:+ kv.1 +:+ msg.

Definition idPart (l : lint) : string :=
  if JsString.truthy (lintId l) then " | " +:+ lintId l else "".

(** The comparison [score >= minScore]; [None] is the threshold [NaN],
    against which every comparison is false. *)
Definition meets (score : Z) (minScore : option Z) : bool :=
  match minScore with
  | Some t => (t <=? score)%Z
  | None => false
  end.

Definition issue_line (issueNumber issueTitle : string) : string :=
  "Issue #" +:+ issueNumber +:+ ": " +:+ Client.quote_raw issueTitle.

(** The lines of the branch taken when the score meets the threshold. *)
Definition passed_lines (issueNumber issueTitle : string) (l : lint)
  : list string :=
  ["✅ Lint passed" +:+ idPart l +:+ " | Score: " +:+ pretty (score l)
   +:+ "/100 | agent_ready: " +:+ show_bool (agentReady l);
   issue_line issueNumber issueTitle;
   "Proceeding with implementation."].

(** The block that lists the failing checks, printed when there is one. *)
Definition missing_block (fs : list (string * check)) : list string :=
  match fs with
  | [] => []
  | _ => (Markdown.nl +:+ "Missing:") :: (failing_line <$> fs)
  end.

(** The lines of the other branch. *)
Definition failed_lines (issueNumber repo issueTitle : string) (l : lint)
  : list string :=
  ["❌ Lint failed" +:+ idPart l +:+ " | Score: " +:+ pretty (score l)
   +:+ "/100 | NOT agent_ready";
   issue_line issueNumber issueTitle]
  ++ missing_block (failing (lint_checks l))
  ++ [Markdown.nl +:+ "Edit the issue body and re-run: npx speclint enforce --issue "
      +:+ issueNumber +:+ " --repo " +:+ repo].

(** The final [if]: the lines printed on standard output and the status
    the process exits with. *)
Definition verdict (issueNumber repo issueTitle : string)
  (minScore : option Z) (l : lint) : list string * Z :=
  if meets (score l) minScore
  then (passed_lines issueNumber issueTitle l, 0%Z)
  else (failed_lines issueNumber repo issueTitle l, 1%Z).

(** The digits at the start of a string, read in base ten. *)
Fixpoint digits (seen : option Z) (s : string) : option Z :=
  match s with
  | "" => seen
  | String c r =>
      match Ascii.is_nat c with
      | Some d => digits (Some (10 * default 0 seen + Z.of_nat d)%Z) r
      | None => seen
      end
  end.

(** [parseInt(s, 10)]; [None] is [NaN].  The value is the one the
    runtime returns where it is at most 2^53 in magnitude; a longer run
    of digits the runtime rounds to a double. *)
Definition parseInt10 (s : string) : option Z :=
  match trimStart s with
  | String "-" r => Z.opp <$> digits None r
  | String "+" r => digits None r
  | r => digits None r
  end.

(** The local variables of [runEnforce] that the argument loop assigns. *)
Record flags : Type := Flags {
  issueNumber : option string;
  repo : option string;
  minScore : option Z;
  licenseKey : option string;
  githubToken : option string
}.

Definition flags0 (GITHUB_TOKEN : option string) : flags :=
  Flags None None (Some 80%Z) None GITHUB_TOKEN.

(** The assignment of the branch an argument selects, if any; every
    branch reads [args[++i]]. *)
Definition classify (arg : string) : option (option string -> flags -> flags) :=
  if String.eqb arg "--issue" then
    Some (fun v st => Flags v (repo st) (minScore st) (licenseKey st) (githubToken st))
  else if String.eqb arg "--repo" then
    Some (fun v st => Flags (issueNumber st) v (minScore st) (licenseKey st) (githubToken st))
  else if String.eqb arg "--min-score" then
    Some (fun v st =>
            let text := match v with
                        | Some t => if JsString.truthy t then t else "80"
                        | None => "80"
                        end in
            Flags (issueNumber st) (repo st) (parseInt10 text) (licenseKey st)
                  (githubToken st))
  else if String.eqb arg "--key" || String.eqb arg "-k" then
    Some (fun v st => Flags (issueNumber st) (repo st) (minScore st) v (githubToken st))
  else if String.eqb arg "--github-token" then
    Some (fun v st => Flags (issueNumber st) (repo st) (minScore st) (licenseKey st) v)
  else None.

Fixpoint parseArgs (st : flags) (args : list string) : flags :=
  match args with
  | [] => st
  | arg :: rest =>
      match classify arg with
      | None => parseArgs st rest
      | Some assign =>
          match rest with
          | [] => assign None st
          | v :: rest' => parseArgs (assign (Some v) st) rest'
          end
      end
  end.

(** The two round trips between the validation of the flags and the
    normalization: fetching the issue and posting it to the scoring
    endpoint either end the process with status 1 after one line on the
    diagnostic stream, or deliver the title of the issue and the decoded
    response of the scoring endpoint. *)
Inductive round_trips : Type :=
| Aborted (line : string)
| Scored (issueTitle : string) (lintResult : LintApiResponse).

Definition runEnforce (GITHUB_TOKEN : option string)
  (net : flags -> round_trips) (args : list string) : list Cli.output * Z :=
  let st := parseArgs (flags0 GITHUB_TOKEN) args in
  match issueNumber st, repo st with
  | Some i, Some r =>
      if JsString.truthy i && JsString.truthy r then
        match net st with
        | Aborted line => ([Cli.Err line], 1%Z)
        | Scored issueTitle lintResult =>
            let '(lines, code) :=
              verdict i r issueTitle (minScore st) (normalize lintResult) in
            (Cli.Out <$> lines, code)
        end
      else
        ([Cli.Err "Error: --issue and --repo are required for enforce subcommand";
          Cli.Err "Usage: npx speclint enforce --issue <number> --repo <owner/repo>"],
         1%Z)
  | _, _ =>
      ([Cli.Err "Error: --issue and --repo are required for enforce subcommand";
        Cli.Err "Usage: npx speclint enforce --issue <number> --repo <owner/repo>"],
       1%Z)
  end.

End Enforce.

(** ** The refine flow to its end: [main] with [callApi] and the printing *)

Module Refine.
Import Cli.

(** What an invocation did: the requests written to the network, the
    lines written, and the exit status ([None] when an exception
    reached the top of the process). *)
Record session : Type := Session {
  requests : list Client.request;
  written : list output;
  status : option Z
}.

Section Main.
Variable JSON_parse : string -> option Json.json.
(** [JSON.stringify(result, null, 2)] of the runtime. *)
Variable show_json : Json.json -> string.
(** [String(n)] of the runtime for the number [n]. *)
Variable Number_toString : Z -> string.
(** The message of the [TypeError] that the rendering of a response
    throws. *)
Variable thrown : Json.json -> string.

(** The rest of the [try] block once [callApi] has resolved: the line
    printed and the exit status.  The rendering runs inside the [try],
    so what it throws is caught like a rejection. *)
Definition print_result (format : string) (result : Json.json) : output * Z :=
  if String.eqb format "json" then (Out (show_json result), 0%Z)
  else
    match Untyped.render Number_toString result with
    | Some text => (Out text, 0%Z)
    | None => (Err ("Error: " +:+ thrown result), 1%Z)
    end.

(** [main] to the end of the process: after the call of [callApi], the
    [try] block prints the response, and the [catch] prints the message
    of what was thrown and exits with status 1. *)
Definition main (net : Client.request -> Client.exchange)
  (args : list string) (e : env) : session :=
  match Cli.main JSON_parse args e with
  | Exit code w => Session [] w (Some code)
  | Uncaught => Session [] [] None
  | CallApi items opts w =>
      match Client.callApi JSON_parse net items opts with
      | (reqs, Client.Resolve result) =>
          Session reqs
            (w ++ [(print_result (format (parseArgs flags0 args)) result).1])
            (Some (print_result (format (parseArgs flags0 args)) result).2)
      | (reqs, Client.Reject message) =>
          Session reqs (w ++ [Err ("Error: " +:+ message)]) (Some 1%Z)
      end
  end.
End Main.

End Refine.

(** ** The enforcement flow to its end: [fetchUrl], [runEnforce], and the
    dispatch of [main] *)

Module Speclint.
Import Json.

Record fetch_opts : Type := FetchOpts {
  method : option string;
  headers : option (gmap string string);
  body : option string
}.

(** The parts of a parsed [URL] that [fetchUrl] reads. *)
Record URL : Type := MkURL {
  hostname : string;
  pathname : string;
  search : string
}.

(** A request as [fetchUrl] hands it to the transport: the host and the
    path with the query, the method, the headers, and the body when one
    is written. *)
Record fetch_request : Type := FetchRequest {
  req_hostname : string;
  req_path : string;
  req_method : string;
  req_headers : gmap string string;
  req_body : option string
}.

(** What the transport does with a request: the promise is rejected
    with a message, or the response ends with a status (if it has one)
    and its chunks. *)
Inductive fetch_reply : Type :=
| FetchError (message : string)
| FetchEnd (statusCode : option N) (data : string).

Section Fetch.
(** [new URL(url)] of the runtime: the message of the [TypeError] it
    throws, or the parsed URL. *)
Variable URL_parse : string -> string + URL.

(** [fetchUrl]: the requests written (none when the URL does not
    parse, which rejects the promise), and the rejection message or the
    resolved [{ status, data }]. *)
Definition fetchUrl (net : fetch_request -> fetch_reply) (url : string)
  (opts : fetch_opts) : list fetch_request * (string + N * string) :=
  match URL_parse url with
  | inl message => ([], inl message)
  | inr parsed =>
      let req :=
        FetchRequest (hostname parsed) (pathname parsed +:+ search parsed)
          (match method opts with
           | Some m => if JsString.truthy m then m else "GET"
           | None => "GET"
           end)
          (default ∅ (headers opts))
          (match body opts with
           | Some b => if JsString.truthy b then Some b else None
           | None => None
           end) in
      ([req],
       match net req with
       | FetchError message => inl message
       | FetchEnd statusCode data => inr (default 0%N statusCode, data)
       end)
  end.
End Fetch.

(** The fields of a fetched issue that [runEnforce] reads, under the
    types it declares for them. *)
Record Issue : Type := MkIssue {
  title : option string;
  issue_body : option string;
  labels : option (list string)
}.

Definition github_headers (githubToken : option string) : gmap string string :=
  let ghHeaders : gmap string string :=
    <["Accept" := "application/vnd.github.v3+json"]>
    (<["User-Agent" := "speclint/" +:+ Enforce.VERSION]> ∅) in
  match githubToken with
  | Some t =>
      if JsString.truthy t then <["Authorization" := "Bearer " +:+ t]> ghHeaders
      else ghHeaders
  | None => ghHeaders
  end.

Definition ghUrl (repo issueNumber : string) : string :=
  "https://api.github.com/repos/" +:+ repo +:+ "/issues/" +:+ issueNumber.

Definition lintBody (issueTitle issueBody : string) (issueLabels : list string)
  : string :=
  Client.stringify
    (JObj [("issues",
            JArr [JObj [("title", JStr issueTitle);
                        ("body", JStr issueBody);
                        ("labels", JArr (JStr <$> issueLabels))]]);
           ("preserve_structure", JBool true)]).

Definition lint_headers (licenseKey : option string) (lintBody : string)
  : gmap string string :=
  let lintHeaders : gmap string string :=
    <["Content-Type" := "application/json"]>
    (<["Content-Length" := pretty (Client.byteLength lintBody)]>
     (<["User-Agent" := "speclint/" +:+ Enforce.VERSION]> ∅)) in
  match licenseKey with
  | Some k =>
      if JsString.truthy k then <["x-license-key" := k]> lintHeaders
      else lintHeaders
  | None => lintHeaders
  end.

Section Flow.
Variable URL_parse : string -> string + URL.
(** [JSON.parse] of the body of the issue tracker and the reading of
    its title, body and label names, under [Issue]; [None] is what the
    [try] block catches: the [SyntaxError] of the parser or the
    [TypeError] of the reading. *)
Variable parse_issue : string -> option Issue.
(** [JSON.parse] of the body of the scoring endpoint, read under
    [LintApiResponse]. *)
Variable parse_lint : string -> option Enforce.LintApiResponse.
(** The message of the error thrown on a text. *)
Variable parse_message : string -> string.

(** The first [try] block: the requests written, and the line of the
    diagnostic stream the process ends on or the three values read from
    the issue. *)
Definition fetch_issue (net : fetch_request -> fetch_reply)
  (githubToken : option string) (repo issueNumber : string)
  : list fetch_request * (string + string * string * list string) :=
  let '(reqs, ghRes) :=
    fetchUrl URL_parse net (ghUrl repo issueNumber)
      (FetchOpts None (Some (github_headers githubToken)) None) in
  (reqs,
   match ghRes with
   | inl message => inl ("Error fetching GitHub issue: " +:+ message)
   | inr (status, data) =>
       if (status =? 404)%N then
         inl ("Error: Issue #" +:+ issueNumber +:+ " not found in " +:+ repo)
       else if (400 <=? status)%N then
         inl ("Error: GitHub API returned " +:+ pretty status +:+ ": "
              +:+ slice0 200 data)
       else
         match parse_issue data with
         | None => inl ("Error fetching GitHub issue: " +:+ parse_message data)
         | Some issue =>
             inr (match title issue with
                  | Some t => if JsString.truthy t then t else ""
                  | None => ""
                  end,
                  match issue_body issue with
                  | Some b => if JsString.truthy b then b else ""
                  | None => ""
                  end,
                  default [] (labels issue))
         end
   end).

(** The second [try] block. *)
Definition score_issue (net : fetch_request -> fetch_reply)
  (licenseKey : option string) (issueTitle issueBody : string)
  (issueLabels : list string)
  : list fetch_request * (string + Enforce.LintApiResponse) :=
  let lintBody := lintBody issueTitle issueBody issueLabels in
  let '(reqs, lintRes) :=
    fetchUrl URL_parse net "https://speclint.ai/api/lint"
      (FetchOpts (Some "POST") (Some (lint_headers licenseKey lintBody))
                 (Some lintBody)) in
  (reqs,
   match lintRes with
   | inl message => inl ("Error calling lint API: " +:+ message)
   | inr (status, data) =>
       if (400 <=? status)%N then
         inl ("Error: Lint API returned " +:+ pretty status +:+ ": "
              +:+ slice0 200 data)
       else
         match parse_lint data with
         | None => inl ("Error calling lint API: " +:+ parse_message data)
         | Some lintResult => inr lintResult
         end
   end).

(** [runEnforce] to the end of the process: the requests written, the
    lines written and the exit status. *)
Definition runEnforce (GITHUB_TOKEN : option string)
  (net : fetch_request -> fetch_reply) (args : list string)
  : list fetch_request * list Cli.output * Z :=
  let st := Enforce.parseArgs (Enforce.flags0 GITHUB_TOKEN) args in
  let usage :=
    ([],
     [Cli.Err "Error: --issue and --repo are required for enforce subcommand";
      Cli.Err "Usage: npx speclint enforce --issue <number> --repo <owner/repo>"],
     1%Z) in
  match Enforce.issueNumber st, Enforce.repo st with
  | Some issueNumber, Some repo =>
      if JsString.truthy issueNumber && JsString.truthy repo then
        match fetch_issue net (Enforce.githubToken st) repo issueNumber with
        | (reqs1, inl line) => (reqs1, [Cli.Err line], 1%Z)
        | (reqs1, inr (issueTitle, issueBody, issueLabels)) =>
            match score_issue net (Enforce.licenseKey st)
                    issueTitle issueBody issueLabels with
            | (reqs2, inl line) => (reqs1 ++ reqs2, [Cli.Err line], 1%Z)
            | (reqs2, inr lintResult) =>
                let '(lines, code) :=
                  Enforce.verdict issueNumber repo issueTitle
                    (Enforce.minScore st) (Enforce.normalize lintResult) in
                (reqs1 ++ reqs2, Cli.Out <$> lines, code)
            end
        end
      else usage
  | _, _ => usage
  end.

(** The first test of [main]: with [enforce] as first argument the rest
    goes to [runEnforce] and [main] returns; [None] is every other
    command line, which goes on with the refine flow. *)
Definition main (GITHUB_TOKEN : option string)
  (net : fetch_request -> fetch_reply) (args : list string)
  : option (list fetch_request * list Cli.output * Z) :=
  match args with
  | arg0 :: rest =>
      if String.eqb arg0 "enforce" then Some (runEnforce GITHUB_TOKEN net rest)
      else None
  | [] => None
  end.
End Flow.

End Speclint.

(** ** Concrete inputs used by the statements below *)

Module Inputs.
Import Context.

(** A parser that rejects every text: enough where no manifest is read. *)
Definition no_parse (_ : string) : option Json.json := None.

Definition long_text : string := replicate_char 300 "a".

(** A directory with three agent-instruction files of 300 characters. *)
Definition three_full : gmap string file_state :=
  <["AGENTS.md" := Content long_text]>
  (<["CLAUDE.md" := Content long_text]>
   (<["CODEX.md" := Content long_text]>
    (<["GEMINI.md" := Content "later"]> ∅))).

(** A parser that knows the text [null] only. *)
Definition null_parse (s : string) : option Json.json :=
  if String.eqb s "null" then Some Json.JNull else None.

Definition backlog_env : Cli.env :=
  Cli.Env (<["backlog.txt" := Content ("B" +:+ Markdown.nl +:+ "C")]> ∅)
          (Some ["D"]).

(** A directory where auto-detection finds a context, and nothing piped. *)
Definition project_env : Cli.env :=
  Cli.Env (<["README.md" := Content "A tool for backlogs"]> ∅) None.

(** A result of the scoring endpoint with three checks, two of them
    failing, wrapped in an [issues] array whose response has other flat
    fields. *)
Definition sample_checks : list (string * Enforce.check) :=
  [("has_acceptance_criteria", Enforce.Check false (Some "No acceptance criteria"));
   ("has_title", Enforce.Check true None);
   ("has_scope", Enforce.Check false None)].

Definition sample_result : Enforce.issue_result :=
  Enforce.IssueResult (Some "ab12") (Some 79%Z) (Some false) None (Some sample_checks).

Definition bare_result : Enforce.issue_result :=
  Enforce.IssueResult None None None None None.

Definition wrapped_response : Enforce.LintApiResponse :=
  Enforce.LintResponse (Some [sample_result])
    (Enforce.IssueResult None (Some 100%Z) (Some true) None None).

Definition flat_response : Enforce.LintApiResponse :=
  Enforce.LintResponse None bare_result.
End Inputs.

(** ** Further concrete inputs *)

Module MoreInputs.
Import Context Json.

(** A directory whose candidate files are unreadable, blank or not a
    manifest. *)
Definition blank_dir : gmap string file_state :=
  <["AGENTS.md" := Unreadable]>
  (<["README.md" := Content ("  " +:+ Markdown.nl +:+ " ")]>
   (<["package.json" := Content "not a manifest"]> ∅)).

(** A manifest with two runtime and eight development dependencies. *)
Definition sample_dependencies : list (string * json) :=
  [("stdpp", JStr "1.13"); ("paco", JStr "4.2")].

Definition sample_devDependencies : list (string * json) :=
  [("d1", JStr "1"); ("d2", JStr "1"); ("d3", JStr "1"); ("d4", JStr "1");
   ("d5", JStr "1"); ("d6", JStr "1"); ("d7", JStr "1"); ("d8", JStr "1")].

Definition sample_manifest : list (string * json) :=
  [("name", JStr "refine-backlog-cli");
   ("description", JStr "Backlog refiner");
   ("dependencies", JObj sample_dependencies);
   ("devDependencies", JObj sample_devDependencies)].

(** A parser that knows one text, the one of [sample_manifest]. *)
Definition manifest_parse (s : string) : option json :=
  if String.eqb s "{manifest}" then Some (JObj sample_manifest) else None.

Definition manifest_dir : gmap string file_state :=
  <["package.json" := Content "{manifest}"]> ∅.

(** A directory whose first file nearly fills the budget by itself. *)
Definition agents_dir : gmap string file_state :=
  <["AGENTS.md" := Content (" " +:+ Inputs.long_text +:+ "bbb ")]>
  (<["README.md" := Content "Read me"]> ∅).

(** Parsers that know one text each, and a transport that answers the
    issue tracker and the scoring endpoint with those texts. *)
Definition issue_parse (s : string) : option Speclint.Issue :=
  if String.eqb s "{issue}"
  then Some (Speclint.MkIssue (Some "Add login") None (Some ["bug"; "auth"]))
  else None.

Definition lint_parse (s : string) : option Enforce.LintApiResponse :=
  if String.eqb s "{lint}" then Some Inputs.wrapped_response else None.

Definition syntax_message (_ : string) : string := "Unexpected token".

Definition both_ok (req : Speclint.fetch_request) : Speclint.fetch_reply :=
  if String.eqb (Speclint.req_method req) "GET"
  then Speclint.FetchEnd (Some 200%N) "{issue}"
  else Speclint.FetchEnd (Some 200%N) "{lint}".

Definition issue_gone (req : Speclint.fetch_request) : Speclint.fetch_reply :=
  Speclint.FetchEnd (Some 404%N) "{}".

Definition scoring_down (req : Speclint.fetch_request) : Speclint.fetch_reply :=
  if String.eqb (Speclint.req_method req) "GET"
  then Speclint.FetchEnd None "{issue}"
  else Speclint.FetchEnd (Some 503%N) "busy".

(** A file and an input stream with blank lines and white space around
    the items: a tab, a carriage return before the line feed, spaces. *)
Definition messy_env : Cli.env :=
  Cli.Env
    (<["backlog.txt" :=
         Content ("  B " +:+ Markdown.nl +:+ Markdown.nl
                  +:+ String "009"%char " " +:+ Markdown.nl
                  +:+ "C" +:+ String "013"%char Markdown.nl)]> ∅)
    (Some [" D "; "  "; ""]).

(** The message of a rendering that throws, whatever the response. *)
Definition render_error (_ : Json.json) : string :=
  "items.map is not a function".

(** A parser that knows one text, the one of a response with
    [Markdown.full_item] as its only item. *)
Definition response_parse (s : string) : option json :=
  if String.eqb s "{response}"
  then Some (Untyped.encode_response [Markdown.full_item])
  else if String.eqb s "null" then Some JNull
  else None.

(** A URL parser for the URLs [https://host/path] that [URL] leaves as
    they are: the host ends at the first slash, and there is no query. *)
Fixpoint skip (n : nat) (s : string) : string :=
  match n, s with
  | S k, String _ r => skip k r
  | _, _ => s
  end.

Fixpoint until_slash (s : string) : string * string :=
  match s with
  | "" => ("", "")
  | String c r =>
      if Ascii.eqb c "/" then ("", s)
      else (String c (until_slash r).1, (until_slash r).2)
  end.

Definition plain_url (url : string) : string + Speclint.URL :=
  if startsWith "https://" url
  then inr (Speclint.MkURL (until_slash (skip 8 url)).1
                           (until_slash (skip 8 url)).2 "")
  else inl "Invalid URL".

(** A runtime on which no URL parses. *)
Definition no_url (_ : string) : string + Speclint.URL := inl "Invalid URL".

(** The two lines written when [--issue] or [--repo] is missing. *)
Definition usage_lines : list Cli.output :=
  [Cli.Err "Error: --issue and --repo are required for enforce subcommand";
   Cli.Err "Usage: npx speclint enforce --issue <number> --repo <owner/repo>"].

Definition enforce_args : list string :=
  ["--issue"; "42"; "--repo"; "acme/backend"].

End MoreInputs.

(** ** Invariants of the argument loops *)

Module Invariants.

(** What holds of the variables of [main] from [flags0] on: a context is
    only ever set together with the marker, the format is never empty,
    and every item is an argument without a dash. *)
Definition flags_inv (st : Cli.flags) : Prop :=
  (Cli.contextExplicitlyProvided st = false -> Cli.context st = None)
  /\ JsString.truthy (Cli.format st) = true
  /\ Forall (fun a => startsWith "-" a = false) (Cli.items st).

(** The string holds the code unit [c]. *)
Fixpoint contains (c : ascii) (s : string) : bool :=
  match s with
  | "" => false
  | String a r => Ascii.eqb a c || contains c r
  end.

Definition LF : ascii := "010"%char.

(** An item as the file and the input stream deliver them: trimmed, not
    empty, and on one line. *)
Definition clean_item (x : string) : Prop :=
  trim x = x /\ x <> "" /\ contains LF x = false.

(** The string holds white space only. *)
Fixpoint all_ws (s : string) : bool :=
  match s with
  | "" => true
  | String c r => is_ws c && all_ws r
  end.

(** The first, and the last, character of the string is white space. *)
Definition head_ws (s : string) : bool :=
  match s with
  | "" => false
  | String c _ => is_ws c
  end.

Fixpoint last_ws (s : string) : bool :=
  match s with
  | "" => false
  | String c "" => is_ws c
  | String _ r => last_ws r
  end.

(** An element pushed on [lines] is one line, or a line feed followed
    by one line that is not a bullet. *)
Definition pushed (x : string) : Prop :=
  contains LF x = false
  \/ exists y, x = String LF y /\ contains LF y = false
               /\ startsWith "- " y = false.

(** No field of the item holds a line feed. *)
Definition one_line (x : string) : bool := negb (contains LF x).

Definition single_line_item (item : Markdown.RefinedItem) : bool :=
  one_line (Markdown.title item)
  && one_line (Markdown.problemStatement item)
  && one_line (Markdown.estimate item)
  && one_line (Markdown.priority item)
  && one_line (Markdown.text (Markdown.userStory item))
  && one_line (Markdown.text (Markdown.rationale item))
  && forallb one_line (Markdown.elems (Markdown.acceptanceCriteria item))
  && forallb one_line (Markdown.elems (Markdown.tags item)).

(** The bullets of the acceptance criteria of an item. *)
Definition bullets (item : Markdown.RefinedItem) : list string :=
  (fun ac => "- " +:+ ac) <$> Markdown.elems (Markdown.acceptanceCriteria item).

End Invariants.

(** ** Facts about the string primitives *)

Module StringFacts.

Lemma string_length_app (a b : string) :
  String.length (a +:+ b) = String.length a + String.length b.
Proof. induction a as [|c a IH]; simpl; [reflexivity | now rewrite IH]. Qed.

Lemma slice0_length (n : nat) (s : string) :
  String.length (slice0 n s) = n `min` String.length s.
Proof.
  revert s; induction n as [|n IH]; intros [|c s]; simpl; try reflexivity.
  now rewrite IH.
Qed.

Lemma slice0_le (n : nat) (s : string) : String.length (slice0 n s) <= n.
Proof. rewrite slice0_length. lia. Qed.

Lemma slice0_prefix (n : nat) (s : string) :
  exists rest, s = slice0 n s +:+ rest.
Proof.
  revert s; induction n as [|n IH]; intros s.
  - exists s. now destruct s.
  - destruct s as [|c s]; [now exists "" |].
    destruct (IH s) as [rest Hrest]. exists rest.
    change (String c s = String c (slice0 n s +:+ rest)). now rewrite <- Hrest.
Qed.

Lemma slice0_truthy (n : nat) (s : string) :
  0 < n -> truthy s = true -> truthy (slice0 n s) = true.
Proof. destruct n, s; simpl; intros; try lia; try discriminate; reflexivity. Qed.

Lemma truthy_length (s : string) : truthy s = true <-> 0 < String.length s.
Proof. destruct s; simpl; split; intros; try lia; try discriminate; reflexivity. Qed.

Lemma falsy_empty (s : string) : falsy s = true <-> s = "".
Proof. destruct s; simpl; split; intros; try discriminate; reflexivity. Qed.

Lemma total_length_app (xs ys : list string) :
  total_length (xs ++ ys) = total_length xs + total_length ys.
Proof. unfold total_length. induction xs; simpl; lia. Qed.

(** The separators of [join] add to the lengths of the elements. *)
Lemma join_length (sep : string) (xs : list string) :
  String.length (join sep xs)
  = total_length xs + String.length sep * (length xs - 1).
Proof.
  induction xs as [|x r IH]; [unfold total_length; simpl; lia |].
  destruct r as [|y r].
  - unfold total_length; simpl. lia.
  - change (join sep (x :: y :: r)) with (x +:+ sep +:+ join sep (y :: r)).
    rewrite !string_length_app, IH. unfold total_length; simpl. lia.
Qed.

Lemma trimStart_head (s : string) :
  match trimStart s with
  | "" => True
  | String c _ => is_ws c = false
  end.
Proof.
  induction s as [|c s IH]; simpl; [exact I |].
  destruct (is_ws c) eqn:E; [exact IH | exact E].
Qed.

Lemma trimStart_id (c : ascii) (s : string) :
  is_ws c = false -> trimStart (String c s) = String c s.
Proof. intros E. simpl. now rewrite E. Qed.

Lemma trimEnd_head (c : ascii) (s : string) :
  is_ws c = false -> trimEnd (String c s) = String c (trimEnd s).
Proof. intros E. simpl. now rewrite E. Qed.

Lemma trimEnd_idem (s : string) : trimEnd (trimEnd s) = trimEnd s.
Proof.
  induction s as [|c s IH]; simpl; [reflexivity |].
  destruct (is_ws c) eqn:E; simpl.
  - destruct (falsy (trimEnd s)) eqn:F; simpl; [reflexivity |].
    rewrite E, IH, F. reflexivity.
  - rewrite E, IH. reflexivity.
Qed.

(** Trimming a trimmed string changes nothing. *)
Lemma trim_idem (s : string) : trim (trim s) = trim s.
Proof.
  unfold trim. pose proof (trimStart_head s) as H.
  destruct (trimStart s) as [|c r]; [reflexivity |].
  rewrite (trimEnd_head c r H), (trimStart_id c _ H).
  rewrite <- (trimEnd_head c r H). apply trimEnd_idem.
Qed.

(** A string of white space only trims to the empty string. *)
Lemma trim_blank (s : string) :
  (forall c r, trimStart s <> String c r) -> trim s = "".
Proof.
  unfold trim. intros H. destruct (trimStart s) as [|c r]; [reflexivity |].
  now destruct (H c r).
Qed.

End StringFacts.

(** ** The context detector *)

Module ContextFacts.
Import Context StringFacts.

Lemma loop_cons (fs : gmap string file_state) (st : acc) (src : source)
  (rest : list source) :
  loop fs st (src :: rest)
  = if (MAX_CHARS <=? totalChars st)%nat then st
    else loop fs (visit fs st src) rest.
Proof. reflexivity. Qed.

Lemma budget_inv_acc0 : budget_inv acc0.
Proof. repeat split; simpl; try lia. constructor. Qed.

(** An iteration leaves the state alone or appends one chunk and the
    name of its file. *)
Lemma visit_cases (fs : gmap string file_state) (st : acc) (src : source) :
  visit fs st src = st
  \/ exists raw chunk,
      fs !! file src = Some (Content raw)
      /\ truthy (trim raw) = true
      /\ chunk = slice0 (MAX_CHARS - totalChars st)
                        (trim (extractor src (trim raw)))
      /\ truthy (trim (extractor src (trim raw))) = true
      /\ visit fs st src =
           Acc (collected st ++ [chunk]) (usedSources st ++ [file src])
               (totalChars st + String.length chunk).
Proof.
  unfold visit. destruct (fs !! file src) as [[|raw]|] eqn:Hfs; auto.
  destruct (falsy (trim raw)) eqn:F1; auto.
  destruct (falsy (trim (extractor src (trim raw)))) eqn:F2; auto.
  right. exists raw, (slice0 (MAX_CHARS - totalChars st)
                        (trim (extractor src (trim raw)))).
  unfold truthy. rewrite F1, F2. auto.
Qed.

Lemma visit_inv (fs : gmap string file_state) (st : acc) (src : source) :
  totalChars st < MAX_CHARS -> budget_inv st -> budget_inv (visit fs st src).
Proof.
  intros Hlt (Htot & Hle & Hlen & Hne).
  destruct (visit_cases fs st src) as [-> | (raw & chunk & _ & _ & Hc & Ht & ->)].
  - repeat split; assumption.
  - pose proof (slice0_le (MAX_CHARS - totalChars st)
                  (trim (extractor src (trim raw)))) as Hb.
    rewrite <- Hc in Hb.
    repeat split; simpl.
    + rewrite total_length_app, Htot. unfold total_length; simpl. lia.
    + lia.
    + rewrite !length_app. simpl. lia.
    + apply Forall_app; split; [assumption |].
      constructor; [| constructor]. subst chunk.
      apply slice0_truthy; [lia | assumption].
Qed.

Lemma loop_inv (fs : gmap string file_state) (srcs : list source) (st : acc) :
  budget_inv st -> budget_inv (loop fs st srcs).
Proof.
  revert st; induction srcs as [|src rest IH]; intros st H; [assumption |].
  rewrite loop_cons. destruct (MAX_CHARS <=? totalChars st)%nat eqn:E; [assumption |].
  apply IH, visit_inv; [| assumption]. apply Nat.leb_gt in E. exact E.
Qed.

(** Once the budget is reached the loop is over. *)
Lemma loop_full (fs : gmap string file_state) (srcs : list source) (st : acc) :
  MAX_CHARS <= totalChars st -> loop fs st srcs = st.
Proof.
  intros H. destruct srcs as [|src rest]; [reflexivity |].
  rewrite loop_cons. apply Nat.leb_le in H. now rewrite H.
Qed.

Lemma visit_total_mono (fs : gmap string file_state) (st : acc) (src : source) :
  totalChars st <= totalChars (visit fs st src).
Proof.
  destruct (visit_cases fs st src) as [-> | (raw & chunk & _ & _ & _ & _ & ->)];
    simpl; lia.
Qed.

Lemma loop_app (fs : gmap string file_state) (pre post : list source) (st : acc) :
  loop fs st (pre ++ post) = loop fs (loop fs st pre) post.
Proof.
  revert st; induction pre as [|src pre IH]; intros st; [reflexivity |].
  rewrite <- app_comm_cons, !loop_cons.
  destruct (MAX_CHARS <=? totalChars st)%nat eqn:E; [| apply IH].
  symmetry. apply loop_full. now apply Nat.leb_le.
Qed.

(** The used sources are appended in the order of the table. *)
Lemma loop_used (fs : gmap string file_state) (srcs : list source) (st : acc) :
  exists names,
    usedSources (loop fs st srcs) = usedSources st ++ names
    /\ names `sublist_of` (file <$> srcs).
Proof.
  revert st; induction srcs as [|src rest IH]; intros st.
  - exists []. rewrite app_nil_r. split; [reflexivity | constructor].
  - rewrite loop_cons, fmap_cons. destruct (MAX_CHARS <=? totalChars st)%nat.
    + exists []. rewrite app_nil_r. split; [reflexivity | apply sublist_nil_l].
    + destruct (IH (visit fs st src)) as (names & Heq & Hsub).
      destruct (visit_cases fs st src) as [Hv | (raw & chunk & _ & _ & _ & _ & Hv)];
        rewrite Hv in Heq |- *.
      * exists names. split; [assumption | now apply sublist_cons].
      * simpl in Heq. rewrite <- app_assoc in Heq. simpl in Heq.
        exists (file src :: names). split; [assumption | now apply sublist_skip].
Qed.

Lemma loop_collected_prefix (fs : gmap string file_state) (srcs : list source)
  (st : acc) :
  collected st `prefix_of` collected (loop fs st srcs)
  /\ usedSources st `prefix_of` usedSources (loop fs st srcs).
Proof.
  revert st; induction srcs as [|src rest IH]; intros st; [split; reflexivity |].
  rewrite loop_cons. destruct (MAX_CHARS <=? totalChars st)%nat; [split; reflexivity |].
  destruct (IH (visit fs st src)) as [H1 H2].
  destruct (visit_cases fs st src) as [Hv | (raw & chunk & _ & _ & _ & _ & Hv)];
    rewrite Hv in H1, H2 |- *; simpl in *.
  - split; assumption.
  - split; (etrans; [| eassumption]); apply prefix_app_r; reflexivity.
Qed.

End ContextFacts.

Module ContextClaims.
Import Context StringFacts ContextFacts Inputs.

Lemma detect_result (JSON_parse : string -> option Json.json)
  (fs : gmap string file_state) :
  (detectProjectContext JSON_parse fs).1
  = match collected (loop fs acc0 (sources JSON_parse)) with
    | [] => None
    | chunks => Some (join " | " chunks)
    end.
Proof.
  unfold detectProjectContext.
  destruct (collected (loop fs acc0 (sources JSON_parse))); reflexivity.
Qed.

(** The combined string is the chunks plus three characters for each
    separator: at most 727 characters with the ten sources of the table. *)
Lemma combined_length_bound (JSON_parse : string -> option Json.json)
  (fs : gmap string file_state) (combined : string) :
  (detectProjectContext JSON_parse fs).1 = Some combined ->
  String.length combined <= 727.
Proof.
  rewrite detect_result.
  pose proof (loop_inv fs (sources JSON_parse) acc0 budget_inv_acc0)
    as (Htot & Hle & Hlen & _).
  destruct (loop_used fs (sources JSON_parse) acc0) as (names & Hused & Hsub).
  apply sublist_length in Hsub. rewrite length_fmap in Hsub.
  change (length (sources JSON_parse)) with 10 in Hsub.
  change (usedSources acc0 ++ names) with names in Hused.
  rewrite Hused in Hlen.
  assert (MAX_CHARS = 700) as Hmax by reflexivity.
  set (st := loop fs acc0 (sources JSON_parse)) in *. clearbody st.
  destruct (collected st) as [|c cs] eqn:Hc; [discriminate |].
  intros H. assert (combined = join " | " (c :: cs)) as -> by congruence.
  rewrite join_length, <- Htot.
  change (String.length " | ") with 3. lia.
Qed.

(** The chunks together never exceed the budget. *)
Lemma chunks_within_budget (JSON_parse : string -> option Json.json)
  (fs : gmap string file_state) :
  total_length (collected (loop fs acc0 (sources JSON_parse))) <= MAX_CHARS.
Proof.
  pose proof (loop_inv fs (sources JSON_parse) acc0 budget_inv_acc0)
    as (Htot & Hle & _). now rewrite <- Htot.
Qed.

(** A file that is absent, unreadable or blank is never a used source. *)
Lemma used_sources_readable (fs : gmap string file_state) (srcs : list source)
  (st : acc) :
  Forall (fun name => exists raw, fs !! name = Some (Content raw)
                                  /\ truthy (trim raw) = true) (usedSources st) ->
  Forall (fun name => exists raw, fs !! name = Some (Content raw)
                                  /\ truthy (trim raw) = true)
         (usedSources (loop fs st srcs)).
Proof.
  revert st; induction srcs as [|src rest IH]; intros st H; [assumption |].
  rewrite loop_cons. destruct (MAX_CHARS <=? totalChars st)%nat; [assumption |].
  apply IH.
  destruct (visit_cases fs st src) as [-> | (raw & chunk & Hfs & Hraw & _ & _ & ->)];
    [assumption |].
  simpl. apply Forall_app. split; [assumption |].
  constructor; [| constructor]. exists raw. auto.
Qed.

(** The names reported on the diagnostic line follow the order of the
    table of sources. *)
Lemma used_sources_in_table_order (JSON_parse : string -> option Json.json)
  (fs : gmap string file_state) :
  usedSources (loop fs acc0 (sources JSON_parse))
    `sublist_of` (file <$> sources JSON_parse).
Proof.
  destruct (loop_used fs (sources JSON_parse) acc0) as (names & -> & Hsub).
  exact Hsub.
Qed.

(** C1, at a directory whose first three candidate files hold 300
    characters each: the three chunks have 300, 300 and 100 characters,
    the budget of 700 is met, and the combined string returned by
    [detectProjectContext] is 706 characters long, the two separators
    being counted by nobody. *)
Theorem detect_combined_exceeds_700 (JSON_parse : string -> option Json.json) :
  String.length <$> collected (loop three_full acc0 (sources JSON_parse))
  = [300; 300; 100]
  /\ usedSources (loop three_full acc0 (sources JSON_parse))
     = ["AGENTS.md"; "CLAUDE.md"; "CODEX.md"]
  /\ String.length <$> (detectProjectContext JSON_parse three_full).1 = Some 706
  /\ (detectProjectContext JSON_parse three_full).2
     = ["Auto-detected project context from: AGENTS.md, CLAUDE.md, CODEX.md (706 chars)"].
Proof. repeat split; vm_compute; reflexivity. Qed.

(** C7: when the running total has reached 700 before a candidate file
    is visited, the loop ends there: the file adds no chunk, the state at
    the end is the state before the file, and the file is not among the
    used sources named on the diagnostic line. *)
Theorem exhausted_budget_skips_file (JSON_parse : string -> option Json.json)
  (fs : gmap string file_state) (pre post : list source) (src : source) :
  sources JSON_parse = pre ++ src :: post ->
  MAX_CHARS <= totalChars (loop fs acc0 pre) ->
  loop fs acc0 (sources JSON_parse) = loop fs acc0 pre
  /\ collected (loop fs acc0 (sources JSON_parse)) = collected (loop fs acc0 pre)
  /\ file src ∉ usedSources (loop fs acc0 (sources JSON_parse)).
Proof.
  intros Hsplit Hfull.
  assert (Hloop : loop fs acc0 (sources JSON_parse) = loop fs acc0 pre).
  { rewrite Hsplit, loop_app. now apply loop_full. }
  rewrite Hloop. repeat split.
  destruct (loop_used fs pre acc0) as (names & -> & Hsub).
  change (usedSources acc0 ++ names) with names.
  intros Hin.
  assert (Hpre : file src ∈ file <$> pre) by (eapply elem_of_sublist; eassumption).
  assert (Hnd : NoDup (file <$> sources JSON_parse)).
  { apply (bool_decide_unpack _). vm_compute. reflexivity. }
  rewrite Hsplit, fmap_app, fmap_cons in Hnd.
  apply NoDup_app in Hnd as (_ & Hdisj & _).
  apply (Hdisj _ Hpre). left.
Qed.

Lemma exhausted_budget_skips_file_witness :
  file (Source "GEMINI.md" truncate300)
    ∉ usedSources (loop three_full acc0 (sources no_parse)).
Proof.
  apply (exhausted_budget_skips_file no_parse three_full
           [Source "AGENTS.md" truncate300; Source "CLAUDE.md" truncate300;
            Source "CODEX.md" truncate300]
           [Source ".github/copilot-instructions.md" truncate300;
            Source ".windsurfrules" truncate300;
            Source "llms.txt" truncate300;
            Source "README.md" truncate300;
            Source "package.json" (manifest_extractor no_parse);
            Source "prisma/schema.prisma" truncate300]
           (Source "GEMINI.md" truncate300)).
  - reflexivity.
  - vm_compute. lia.
Defined.

End ContextClaims.


(** ** The refine client *)

Module ClientClaims.
Import Json Client StringFacts Inputs.

(** C3: the response mapping of [callApi].  Status 429 and status 402
    reject with their own messages; a missing status (a falsy one:
    absent, or zero) and every other status from 400 on reject with the
    generic message made of the status and the raw body; below 400 a body
    that does not parse rejects with the first 200 characters of the body
    at most, and a body that parses resolves.  Whatever the transport
    does, one request is written: nothing is sent again. *)
Theorem response_mapping (JSON_parse : string -> option json) (data : string) :
  on_end JSON_parse (Some 429%N) data = Reject rate_limit_message
  /\ on_end JSON_parse (Some 402%N) data = Reject too_many_items_message
  /\ rate_limit_message <> too_many_items_message
  /\ (forall statusCode : option N,
        statusCode <> Some 429%N -> statusCode <> Some 402%N ->
        (statusCode = None \/ statusCode = Some 0%N
         \/ exists n, statusCode = Some n /\ (400 <= n)%N) ->
        on_end JSON_parse statusCode data
        = Reject ("API error " +:+ show_status statusCode +:+ ": " +:+ data))
  /\ (forall n : N, (0 < n < 400)%N -> JSON_parse data = None ->
        on_end JSON_parse (Some n) data
        = Reject ("Invalid JSON response: " +:+ slice0 200 data)
        /\ String.length (slice0 200 data) <= 200
        /\ exists rest, data = slice0 200 data +:+ rest)
  /\ (forall (n : N) (v : json), (0 < n < 400)%N -> JSON_parse data = Some v ->
        on_end JSON_parse (Some n) data = Resolve v)
  /\ (forall (net : request -> exchange) (items : list string) (opts : api_opts),
        exists req, (callApi JSON_parse net items opts).1 = [req]
                    /\ (callApi JSON_parse net items opts).2
                       = match net req with
                         | NetworkError e => Reject e
                         | Response statusCode body => on_end JSON_parse statusCode body
                         end).
Proof.
  split; [reflexivity |]. split; [reflexivity |]. split; [discriminate |].
  split; [| split; [| split]].
  - intros statusCode H429 H402 Hgen. unfold on_end.
    destruct (decide (statusCode = Some 429%N)) as [|_]; [contradiction |].
    destruct (decide (statusCode = Some 402%N)) as [|_]; [contradiction |].
    destruct Hgen as [-> | [-> | (n & -> & Hn)]]; [reflexivity | reflexivity |].
    apply N.leb_le in Hn. rewrite Hn, orb_true_r. reflexivity.
  - intros n Hn Hparse. split; [| split].
    + unfold on_end.
      destruct (decide (Some n = Some 429%N)) as [E|_]; [injection E; lia |].
      destruct (decide (Some n = Some 402%N)) as [E|_]; [injection E; lia |].
      destruct (N.eqb_spec n 0); [lia |].
      destruct (N.leb_spec 400 n); [lia |]. simpl. now rewrite Hparse.
    + apply slice0_le.
    + apply slice0_prefix.
  - intros n v Hn Hparse. unfold on_end.
    destruct (decide (Some n = Some 429%N)) as [E|_]; [injection E; lia |].
    destruct (decide (Some n = Some 402%N)) as [E|_]; [injection E; lia |].
    destruct (N.eqb_spec n 0); [lia |].
    destruct (N.leb_spec 400 n); [lia |]. simpl. now rewrite Hparse.
  - intros net items opts. eexists. split; reflexivity.
Qed.

Lemma response_mapping_witness :
  on_end null_parse (Some 500%N) "<html>" = Reject "API error 500: <html>"
  /\ on_end null_parse None "<html>" = Reject "API error undefined: <html>"
  /\ on_end null_parse (Some 200%N) "<html>" = Reject "Invalid JSON response: <html>"
  /\ on_end null_parse (Some 200%N) "null" = Resolve JNull.
Proof.
  destruct (response_mapping null_parse "<html>") as (_ & _ & _ & Hgen & Hbad & _).
  destruct (response_mapping null_parse "null") as (_ & _ & _ & _ & _ & Hok & _).
  split; [| split; [| split]].
  - apply (Hgen (Some 500%N)); [discriminate | discriminate |].
    right; right. exists 500%N. split; [reflexivity | lia].
  - apply (Hgen None); [discriminate | discriminate |]. left; reflexivity.
  - apply (Hbad 200%N); [lia | reflexivity].
  - apply (Hok 200%N JNull); [lia | reflexivity].
Defined.

Lemma license_header (items : list string) (opts : api_opts) :
  request_headers items opts !! "x-license-key"
  = (if truthy_str (licenseKey opts) then licenseKey opts else None).
Proof.
  unfold request_headers, truthy_str.
  destruct (licenseKey opts) as [k|]; [destruct (JsString.truthy k) |].
  - apply lookup_insert_eq.
  - rewrite !lookup_insert_ne by discriminate. apply lookup_empty.
  - rewrite !lookup_insert_ne by discriminate. apply lookup_empty.
Qed.

(** The properties of the object that is serialized. *)
Lemma request_object_fields (items : list string) (opts : api_opts) :
  assoc "items" (request_object items opts) = Some (JArr (JStr <$> items))
  /\ assoc "context" (request_object items opts)
     = (if truthy_str (context opts) then JStr <$> context opts else None)
  /\ assoc "useUserStories" (request_object items opts)
     = (if truthy_flag (useUserStories opts) then Some (JBool true) else None)
  /\ assoc "useGherkin" (request_object items opts)
     = (if truthy_flag (useGherkin opts) then Some (JBool true) else None)
  /\ Forall (fun kv => kv.1 ∈ ["items"; "context"; "useUserStories"; "useGherkin"]
                       /\ kv.2 <> JNull /\ kv.2 <> JBool false)
            (request_object items opts).
Proof.
  unfold request_object, truthy_str, truthy_flag.
  destruct (context opts) as [[|c0 c]|], (useUserStories opts) as [[|]|],
    (useGherkin opts) as [[|]|]; simpl;
    repeat split; try reflexivity;
    repeat (constructor; [repeat split; [set_solver | discriminate | discriminate] |]);
    constructor.
Qed.

(** C8: the body of the refine request is the serialization of an object
    that always has [items], has [context] exactly when the context is a
    non-empty string, and has [useUserStories] and [useGherkin], with the
    value [true], exactly when the flag is true; no property is [null] or
    [false].  The [x-license-key] header is set exactly when the key is a
    non-empty string, to that key. *)
Theorem request_fields (items : list string) (opts : api_opts) :
  request_body items opts = stringify (JObj (request_object items opts))
  /\ assoc "items" (request_object items opts) = Some (JArr (JStr <$> items))
  /\ assoc "context" (request_object items opts)
     = (if truthy_str (context opts) then JStr <$> context opts else None)
  /\ assoc "useUserStories" (request_object items opts)
     = (if truthy_flag (useUserStories opts) then Some (JBool true) else None)
  /\ assoc "useGherkin" (request_object items opts)
     = (if truthy_flag (useGherkin opts) then Some (JBool true) else None)
  /\ Forall (fun kv => kv.1 ∈ ["items"; "context"; "useUserStories"; "useGherkin"]
                       /\ kv.2 <> JNull /\ kv.2 <> JBool false)
            (request_object items opts)
  /\ request_headers items opts !! "x-license-key"
     = (if truthy_str (licenseKey opts) then licenseKey opts else None)
  /\ (is_Some (request_headers items opts !! "x-license-key")
      <-> exists k, licenseKey opts = Some k /\ k <> "").
Proof.
  split; [reflexivity |].
  destruct (request_object_fields items opts) as (H1 & H2 & H3 & H4 & H5).
  repeat (split; [assumption |]).
  split; [apply license_header |].
  rewrite license_header. unfold truthy_str.
  destruct (licenseKey opts) as [[|k0 k]|]; simpl; split.
  - intros [x Hx]; discriminate.
  - intros (k & [= <-] & Hk); now destruct Hk.
  - intros _. eexists; split; [reflexivity | discriminate].
  - intros _. eexists; reflexivity.
  - intros [x Hx]; discriminate.
  - intros (k & Hk & _); discriminate.
Qed.

Lemma request_fields_witness :
  request_body ["Fix login"] (ApiOpts (Some "") (Some false) (Some true) (Some "k1"))
  = "{" +:+ quote_raw "items" +:+ ":[" +:+ quote_raw "Fix login" +:+ "],"
    +:+ quote_raw "useGherkin" +:+ ":true}"
  /\ is_Some (request_headers ["Fix login"]
                (ApiOpts (Some "") (Some false) (Some true) (Some "k1"))
              !! "x-license-key").
Proof.
  split; [reflexivity |].
  apply (request_fields ["Fix login"]
           (ApiOpts (Some "") (Some false) (Some true) (Some "k1"))).
  exists "k1". split; [reflexivity | discriminate].
Defined.

End ClientClaims.

(** ** The markdown formatter *)

Module MarkdownClaims.
Import Markdown StringFacts Inputs.

Lemma foldl_push (f : string -> string) (acs init : list string) :
  foldl (fun ls ac => ls ++ [f ac]) init acs = init ++ (f <$> acs).
Proof.
  revert init; induction acs as [|ac acs IH]; intros init; simpl.
  - now rewrite app_nil_r.
  - rewrite IH, <- app_assoc. reflexivity.
Qed.

(** The lines of an item, section by section. *)
Lemma item_lines_sections (item : RefinedItem) :
  item_lines item
  = ["## " +:+ title item]
    ++ user_story_section item
    ++ [nl +:+ "**Problem:** " +:+ problemStatement item;
        nl +:+ "**Estimate:** " +:+ estimate item
           +:+ " | **Priority:** " +:+ priority item]
    ++ rationale_section item
    ++ criteria_section item
    ++ tags_section item.
Proof.
  unfold item_lines, user_story_section, rationale_section, criteria_section,
    tags_section.
  destruct (truthy_str (userStory item)), (truthy_str (rationale item)),
    (nonempty (acceptanceCriteria item)), (nonempty (tags item));
    rewrite ?foldl_push; simpl; rewrite ?app_nil_r, <- ?app_assoc; reflexivity.
Qed.

Lemma no_line_app (p : string) (xs ys : list string) :
  no_line_starts p (xs ++ ys) <-> no_line_starts p xs /\ no_line_starts p ys.
Proof. apply Forall_app. Qed.

Ltac section_lines :=
  unfold no_line_starts, user_story_section, rationale_section,
    criteria_section, tags_section;
  repeat (apply Forall_app; split);
  repeat match goal with
         | |- context [if ?b then _ else _] => destruct b
         end;
  repeat first
    [ apply Forall_nil_2
    | apply Forall_cons_2; [reflexivity |]
    | apply Forall_fmap, Forall_true; intros; reflexivity ].

Lemma falsy_text (o : option string) :
  o = None \/ o = Some "" -> truthy_str o = false.
Proof. intros [-> | ->]; reflexivity. Qed.

Lemma falsy_list (o : option (list string)) :
  o = None \/ o = Some [] -> nonempty o = false.
Proof. intros [-> | ->]; reflexivity. Qed.

Lemma formatMarkdown_cons (x y : RefinedItem) (rest : list RefinedItem) :
  formatMarkdown (x :: y :: rest)
  = render_item x +:+ separator +:+ formatMarkdown (y :: rest).
Proof. reflexivity. Qed.

(** C6: the formatter is a function of the list of items alone; a
    userStory, rationale, acceptanceCriteria or tags field that is missing
    or empty contributes no line (its section is empty, and no line of the
    item begins with the marker of that section); the items are rendered
    one by one and joined with the horizontal-rule separator. *)
Theorem formatMarkdown_sections (item : RefinedItem) (items : list RefinedItem) :
  (forall items' : list RefinedItem,
      items = items' -> formatMarkdown items = formatMarkdown items')
  /\ (userStory item = None \/ userStory item = Some "" ->
      user_story_section item = []
      /\ no_line_starts (nl +:+ "> ") (item_lines item))
  /\ (rationale item = None \/ rationale item = Some "" ->
      rationale_section item = []
      /\ no_line_starts "**Rationale:** " (item_lines item))
  /\ (acceptanceCriteria item = None \/ acceptanceCriteria item = Some [] ->
      criteria_section item = []
      /\ no_line_starts (nl +:+ "**Acceptance Criteria:**") (item_lines item)
      /\ no_line_starts "- " (item_lines item))
  /\ (tags item = None \/ tags item = Some [] ->
      tags_section item = []
      /\ no_line_starts (nl +:+ "**Tags:** ") (item_lines item))
  /\ (truthy_str (userStory item) = false -> truthy_str (rationale item) = false ->
      nonempty (acceptanceCriteria item) = false -> nonempty (tags item) = false ->
      item_lines item
      = ["## " +:+ title item;
         nl +:+ "**Problem:** " +:+ problemStatement item;
         nl +:+ "**Estimate:** " +:+ estimate item
            +:+ " | **Priority:** " +:+ priority item])
  /\ formatMarkdown [] = ""
  /\ formatMarkdown [item] = render_item item
  /\ formatMarkdown (item :: items)
     = match items with
       | [] => render_item item
       | _ => render_item item +:+ separator +:+ formatMarkdown items
       end
  /\ separator = nl +:+ nl +:+ "---" +:+ nl +:+ nl.
Proof.
  split; [intros ? ->; reflexivity |].
  split; [| split; [| split; [| split; [| split]]]].
  - intros H%falsy_text.
    assert (E : user_story_section item = [])
      by (unfold user_story_section; now rewrite H).
    split; [exact E |]. rewrite item_lines_sections, E. section_lines.
  - intros H%falsy_text.
    assert (E : rationale_section item = [])
      by (unfold rationale_section; now rewrite H).
    split; [exact E |]. rewrite item_lines_sections, E. section_lines.
  - intros H%falsy_list.
    assert (E : criteria_section item = [])
      by (unfold criteria_section; now rewrite H).
    split; [exact E |]. rewrite item_lines_sections, E. split; section_lines.
  - intros H%falsy_list.
    assert (E : tags_section item = [])
      by (unfold tags_section; now rewrite H).
    split; [exact E |]. rewrite item_lines_sections, E. section_lines.
  - intros H1 H2 H3 H4. rewrite item_lines_sections.
    unfold user_story_section, rationale_section, criteria_section, tags_section.
    rewrite H1, H2, H3, H4. reflexivity.
  - repeat split; try reflexivity. destruct items; reflexivity.
Qed.

Lemma formatMarkdown_sections_witness :
  no_line_starts (nl +:+ "> ") (item_lines empty_item)
  /\ no_line_starts "**Rationale:** " (item_lines bare_item)
  /\ no_line_starts "- " (item_lines empty_item)
  /\ no_line_starts (nl +:+ "**Tags:** ") (item_lines bare_item)
  /\ item_lines empty_item
     = ["## Fix login"; nl +:+ "**Problem:** Users cannot log in";
        nl +:+ "**Estimate:** M | **Priority:** HIGH"]
  /\ formatMarkdown [full_item] = formatMarkdown [full_item].
Proof.
  destruct (formatMarkdown_sections empty_item [full_item])
    as (_ & Hs & _ & Hc & _ & Hall & _).
  destruct (formatMarkdown_sections bare_item [full_item])
    as (Hfun & _ & Hr & _ & Ht & _).
  split; [exact (proj2 (Hs (or_intror eq_refl))) |].
  split; [exact (proj2 (Hr (or_introl eq_refl))) |].
  split; [exact (proj2 (proj2 (Hc (or_intror eq_refl)))) |].
  split; [exact (proj2 (Ht (or_introl eq_refl))) |].
  split; [apply Hall; reflexivity |].
  apply Hfun. reflexivity.
Defined.

(** The rendering of two items, as the formatter prints it. *)
Example formatMarkdown_two_items :
  formatMarkdown [bare_item; full_item]
  = "## Fix login" +:+ nl
    +:+ nl +:+ "**Problem:** Users cannot log in" +:+ nl
    +:+ nl +:+ "**Estimate:** M | **Priority:** HIGH"
    +:+ nl +:+ nl +:+ "---" +:+ nl +:+ nl
    +:+ "## Add dark mode" +:+ nl
    +:+ nl +:+ "> As a user, I want a dark theme" +:+ nl
    +:+ nl +:+ "**Problem:** No dark theme" +:+ nl
    +:+ nl +:+ "**Estimate:** S | **Priority:** LOW" +:+ nl
    +:+ "**Rationale:** Requested often" +:+ nl
    +:+ nl +:+ "**Acceptance Criteria:**" +:+ nl
    +:+ "- Toggle exists" +:+ nl
    +:+ "- Choice persists" +:+ nl
    +:+ nl +:+ "**Tags:** ui, theme".
Proof. reflexivity. Qed.

End MarkdownClaims.


(** ** The command line of the refine flow *)

Module CliClaims.
Import Context Cli StringFacts Inputs MoreInputs Invariants.

Lemma startsWith_dash (c : ascii) (a : string) :
  startsWith "-" (String c a) = Ascii.eqb "-" c.
Proof. unfold startsWith. apply andb_true_r. Qed.

Lemma eqb_dash_flag (c : ascii) (a f : string) :
  Ascii.eqb "-" c = false -> String.eqb (String c a) (String "-" f) = false.
Proof.
  intros H. apply String.eqb_neq. intros [= -> _].
  now rewrite Ascii.eqb_refl in H.
Qed.

(** An argument that does not start with a dash is an item. *)
Lemma classify_positional (arg : string) :
  startsWith "-" arg = false -> classify arg = NoValue (push_item arg).
Proof.
  intros H. destruct arg as [|c a]; [reflexivity |].
  rewrite startsWith_dash in H. unfold classify.
  rewrite !(eqb_dash_flag c a _ H), startsWith_dash, H. reflexivity.
Qed.

(** An argument with a dash that no branch tests for changes nothing. *)
Lemma classify_unknown (arg : string) :
  startsWith "-" arg = true -> arg ∉ recognized ->
  classify arg = NoValue (fun st => st).
Proof.
  intros Hdash Hnot. unfold classify.
  assert (Hne : forall f, f ∈ recognized -> String.eqb arg f = false).
  { intros f Hf. apply String.eqb_neq. intros ->. contradiction. }
  rewrite !Hne, Hdash by (unfold recognized; set_solver). reflexivity.
Qed.

Lemma parseArgs_app (pre rest : list string) (st : flags) :
  reaches_end pre = true ->
  parseArgs st (pre ++ rest) = parseArgs (parseArgs st pre) rest.
Proof.
  revert st. induction pre as [pre IH] using (induction_ltof1 _ (@length _)).
  unfold ltof in IH. intros st Hend.
  destruct pre as [|arg pre]; [reflexivity |].
  simpl in Hend |- *. destruct (classify arg) as [assign | assign].
  - destruct pre as [|v pre]; [discriminate |].
    simpl. apply IH; [simpl; lia | assumption].
  - apply IH; [simpl; lia | assumption].
Qed.

Lemma readStdin_filter (lines : list string) :
  readStdin (Some lines) = List.filter JsString.truthy (trim <$> lines).
Proof.
  unfold readStdin.
  assert (H : forall acc,
             foldl (fun acc line =>
                      let trimmed := trim line in
                      if JsString.truthy trimmed then acc ++ [trimmed] else acc)
                   acc lines
             = acc ++ List.filter JsString.truthy (trim <$> lines)).
  { induction lines as [|l lines IH]; intros acc; simpl.
    - now rewrite app_nil_r.
    - rewrite IH. destruct (JsString.truthy (trim l)); [| reflexivity].
      now rewrite <- app_assoc. }
  apply (H []).
Qed.

(** What survives the filter is trimmed and not empty. *)
Lemma trimmed_lines (lines : list string) :
  Forall (fun x => trim x = x /\ x <> "")
         (List.filter JsString.truthy (trim <$> lines)).
Proof.
  apply Forall_forall. intros x Hx. apply list_elem_of_In, filter_In in Hx.
  destruct Hx as [Hin Htruthy]. apply list_elem_of_In, list_elem_of_fmap in Hin.
  destruct Hin as (l & -> & _). split; [apply trim_idem |].
  intros E. rewrite E in Htruthy. discriminate.
Qed.

Lemma parseArgs_positional (pos : list string) (st : flags) :
  Forall (fun a => startsWith "-" a = false) pos ->
  parseArgs st pos
  = Flags (items st ++ pos) (format st) (context st) (licenseKey st)
          (useUserStories st) (useGherkin st) (filePath st) (noAutoContext st)
          (contextExplicitlyProvided st).
Proof.
  intros H. revert st. induction H as [|a pos Ha _ IH]; intros st; simpl.
  - rewrite app_nil_r. now destruct st.
  - rewrite (classify_positional a Ha), IH. simpl.
    now rewrite <- app_assoc.
Qed.

(** Where [main] reaches [callApi], the items are the positional
    arguments, then the lines of the file, then the lines piped in. *)
Lemma run_items (JSON_parse : string -> option Json.json) (st : flags)
  (e : env) (its : list string) (opts : Client.api_opts) (written : list output) :
  run JSON_parse st e = CallApi its opts written ->
  exists from_file,
    its = items st ++ from_file ++ readStdin (stdin e)
    /\ (from_file = []
        \/ exists p text,
             filePath st = Some p
             /\ fs e !! p = Some (Content text)
             /\ from_file = file_lines text)
    /\ opts = Client.ApiOpts (choose_context JSON_parse st e).1
                (Some (useUserStories st)) (Some (useGherkin st)) (licenseKey st)
    /\ written = (choose_context JSON_parse st e).2.
Proof.
  unfold run, read_file.
  assert (Hgo : forall lines : option (list string),
    match items st ++ default [] lines ++ readStdin (stdin e) with
    | [] =>
        Exit 1 [Err ("Error: No items provided. Pass items as arguments, "
                     +:+ "use --file, or pipe via stdin." +:+ Markdown.nl);
                Help]
    | _ =>
        CallApi (items st ++ default [] lines ++ readStdin (stdin e))
          (Client.ApiOpts (choose_context JSON_parse st e).1
                          (Some (useUserStories st)) (Some (useGherkin st))
                          (licenseKey st))
          (choose_context JSON_parse st e).2
    end = CallApi its opts written ->
    its = items st ++ default [] lines ++ readStdin (stdin e)
    /\ opts = Client.ApiOpts (choose_context JSON_parse st e).1
                (Some (useUserStories st)) (Some (useGherkin st)) (licenseKey st)
    /\ written = (choose_context JSON_parse st e).2).
  { intros lines.
    destruct (items st ++ default [] lines ++ readStdin (stdin e));
      [discriminate |].
    intros [= <- <- <-]. auto. }
  destruct (filePath st) as [p|] eqn:Hp.
  - destruct (JsString.truthy p).
    + destruct (fs e !! p) as [[|text]|] eqn:Hfs; try discriminate.
      intros (H & Ho & Hw)%Hgo. exists (file_lines text).
      repeat split; try assumption. right. exists p, text. auto.
    + intros (H & Ho & Hw)%Hgo. exists []. repeat split; try assumption. now left.
  - intros (H & Ho & Hw)%Hgo. exists []. repeat split; try assumption. now left.
Qed.

(** Where [main] reaches [callApi], it is [run] on what the loop leaves. *)
Lemma main_run (JSON_parse : string -> option Json.json) (args : list string)
  (e : env) (its : list string) (opts : Client.api_opts) (written : list output) :
  main JSON_parse args e = CallApi its opts written ->
  run JSON_parse (parseArgs flags0 args) e = CallApi its opts written.
Proof.
  unfold main.
  destruct (includes "--help" args || includes "-h" args); [discriminate |].
  destruct (includes "--version" args || includes "-v" args); [discriminate |].
  auto.
Qed.

(** With a file named, [main] reaches [callApi] only when the file was
    read, and its lines come between the arguments and the input. *)
Lemma run_file (JSON_parse : string -> option Json.json) (st : flags)
  (e : env) (its : list string) (opts : Client.api_opts) (written : list output) :
  run JSON_parse st e = CallApi its opts written ->
  (forall p, filePath st = Some p -> JsString.truthy p = true ->
             exists text,
               fs e !! p = Some (Content text)
               /\ its = items st ++ file_lines text ++ readStdin (stdin e))
  /\ (filePath st = None \/ filePath st = Some "" ->
      its = items st ++ readStdin (stdin e)).
Proof.
  unfold run, read_file. intros Hrun. split.
  - intros p Hp Ht. rewrite Hp, Ht in Hrun.
    destruct (fs e !! p) as [[|text]|]; try discriminate.
    exists text. split; [reflexivity |].
    change (default [] (Some (file_lines text))) with (file_lines text) in Hrun.
    destruct (items st ++ file_lines text ++ readStdin (stdin e));
      [discriminate | congruence].
  - intros Hp.
    assert (Hnone : match filePath st with
                    | Some p =>
                        if JsString.truthy p then
                          match fs e !! p with
                          | None => inr (Exit 1 [Err ("Error: File not found: " +:+ p)])
                          | Some Unreadable => inr Uncaught
                          | Some (Content text) => inl (Some (file_lines text))
                          end
                        else inl None
                    | None => inl None
                    end = inl None) by (destruct Hp as [-> | ->]; reflexivity).
    rewrite Hnone in Hrun.
    change (default [] None ++ readStdin (stdin e)) with (readStdin (stdin e))
      in Hrun.
    destruct (items st ++ readStdin (stdin e)); [discriminate | congruence].
Qed.

Lemma all_ws_app (a b : string) : all_ws (a +:+ b) = all_ws a && all_ws b.
Proof.
  induction a as [|c a IH]; [reflexivity |].
  change (all_ws (String c (a +:+ b)) = all_ws (String c a) && all_ws b).
  simpl. now rewrite IH, andb_assoc.
Qed.

(** What [trimStart] removes is white space. *)
Lemma trimStart_split (s : string) :
  exists l, s = l +:+ trimStart s /\ all_ws l = true.
Proof.
  induction s as [|c s (l & Hl & Hw)]; [now exists "" |].
  simpl. destruct (is_ws c) eqn:E.
  - exists (String c l). split; [| simpl; now rewrite E].
    change (String c s = String c (l +:+ trimStart s)). now rewrite <- Hl.
  - exists "". split; reflexivity.
Qed.

(** What [trimEnd] removes is white space. *)
Lemma trimEnd_split (s : string) :
  exists r, s = trimEnd s +:+ r /\ all_ws r = true.
Proof.
  induction s as [|c s (r & Hr & Hw)]; [now exists "" |].
  simpl. destruct (is_ws c) eqn:E.
  - destruct (trimEnd s) as [|d t] eqn:T.
    + exists (String c r). split; [| simpl; now rewrite E].
      change (s = r) in Hr. cbn [JsString.falsy andb]. now rewrite Hr.
    + exists r. split; [| exact Hw].
      cbn [JsString.falsy andb].
      change (String c s = String c (String d t +:+ r)). now rewrite <- Hr.
  - exists r. split; [| exact Hw].
    cbn [andb].
    change (String c s = String c (trimEnd s +:+ r)). now rewrite <- Hr.
Qed.

Lemma trimEnd_last (s : string) : last_ws (trimEnd s) = false.
Proof.
  induction s as [|c s IH]; [reflexivity |].
  simpl. destruct (trimEnd s) as [|d t] eqn:T.
  - destruct (is_ws c) eqn:E; [reflexivity | simpl; exact E].
  - rewrite andb_false_r. exact IH.
Qed.

Lemma trim_head_ws (s : string) : head_ws (trim s) = false.
Proof.
  unfold trim. pose proof (trimStart_head s) as H.
  destruct (trimStart s) as [|c r]; [reflexivity |].
  rewrite (trimEnd_head c r H). exact H.
Qed.

(** [trim] removes white space from both ends, and all of it: what is
    left neither starts nor ends with white space. *)
Lemma trim_split (line : string) :
  exists l r,
    line = l +:+ trim line +:+ r
    /\ all_ws l = true /\ all_ws r = true
    /\ head_ws (trim line) = false /\ last_ws (trim line) = false.
Proof.
  destruct (trimStart_split line) as (l & Hl & Hlw).
  destruct (trimEnd_split (trimStart line)) as (r & Hr & Hrw).
  exists l, r. unfold trim at 1.
  split; [now rewrite <- Hr |].
  repeat split; try assumption; [apply trim_head_ws | apply trimEnd_last].
Qed.

Lemma trimStart_all_ws (s : string) : all_ws s = true -> trimStart s = "".
Proof.
  induction s as [|c s IH]; [reflexivity |].
  simpl. intros [-> H]%andb_true_iff. auto.
Qed.

(** The lines that trim to the empty string are those of white space
    only. *)
Lemma trim_blank_iff (line : string) : all_ws line = true <-> trim line = "".
Proof.
  split.
  - intros H. unfold trim. now rewrite (trimStart_all_ws line H).
  - intros H. destruct (trim_split line) as (l & r & Hline & Hl & Hr & _).
    rewrite H in Hline. rewrite Hline, all_ws_app, Hl. exact Hr.
Qed.

(** C4: the items handed to [callApi] are the positional arguments, then
    the lines of the [--file] file, then the lines piped in.  The lines
    of the file and of the input are trimmed, and those that are empty
    after trimming are dropped: trimming a line removes white space from
    its two ends until what is left neither starts nor ends with white
    space, and it leaves nothing exactly when the line is white space
    only.  With the arguments [A] and [--file backlog.txt], a file of the
    two lines [B] and [C], and the piped line [D], the list is
    [A; B; C; D], and so it is when the lines have white space around
    them and blank lines between them. *)
Theorem input_collector_order (JSON_parse : string -> option Json.json) :
  (forall (args : list string) (e : env) (its : list string)
          (opts : Client.api_opts) (written : list output),
      main JSON_parse args e = CallApi its opts written ->
      (forall p,
          filePath (parseArgs flags0 args) = Some p ->
          JsString.truthy p = true ->
          exists text,
            fs e !! p = Some (Content text)
            /\ its = items (parseArgs flags0 args) ++ file_lines text
                     ++ readStdin (stdin e))
      /\ (filePath (parseArgs flags0 args) = None
          \/ filePath (parseArgs flags0 args) = Some "" ->
          its = items (parseArgs flags0 args) ++ readStdin (stdin e)))
  /\ (forall pos : list string,
        Forall (fun a => startsWith "-" a = false) pos ->
        items (parseArgs flags0 pos) = pos)
  /\ (forall text : string,
        file_lines text = List.filter JsString.truthy (trim <$> split_nl text)
        /\ Forall (fun x => trim x = x /\ x <> "") (file_lines text))
  /\ (forall lines : list string,
        readStdin (Some lines) = List.filter JsString.truthy (trim <$> lines)
        /\ Forall (fun x => trim x = x /\ x <> "") (readStdin (Some lines)))
  /\ readStdin None = []
  /\ (forall line : string,
        exists l r,
          line = l +:+ trim line +:+ r
          /\ all_ws l = true /\ all_ws r = true
          /\ head_ws (trim line) = false /\ last_ws (trim line) = false)
  /\ (forall line : string, all_ws line = true <-> trim line = "")
  /\ main JSON_parse ["A"; "--file"; "backlog.txt"] backlog_env
     = CallApi ["A"; "B"; "C"; "D"]
         (Client.ApiOpts None (Some false) (Some false) None) []
  /\ main JSON_parse ["A"; "--file"; "backlog.txt"] messy_env
     = CallApi ["A"; "B"; "C"; "D"]
         (Client.ApiOpts None (Some false) (Some false) None) [].
Proof.
  split; [| split; [| split; [| split; [| split; [| split; [| split; [| split]]]]]]].
  - intros args e its opts written H%main_run%run_file. exact H.
  - intros pos H. rewrite (parseArgs_positional pos flags0 H). reflexivity.
  - intros text. split; [reflexivity | apply trimmed_lines].
  - intros lines. rewrite readStdin_filter.
    split; [reflexivity | apply trimmed_lines].
  - reflexivity.
  - apply trim_split.
  - apply trim_blank_iff.
  - vm_compute. reflexivity.
  - vm_compute. reflexivity.
Qed.

Lemma input_collector_order_witness :
  exists text,
    fs messy_env !! "backlog.txt" = Some (Content text)
    /\ ["A"; "B"; "C"; "D"]
       = items (parseArgs flags0 ["A"; "--file"; "backlog.txt"])
         ++ file_lines text ++ readStdin (stdin messy_env).
Proof.
  apply (proj1 (proj1 (input_collector_order no_parse)
                  ["A"; "--file"; "backlog.txt"] messy_env ["A"; "B"; "C"; "D"]
                  (Client.ApiOpts None (Some false) (Some false) None) []
                  ltac:(vm_compute; reflexivity))
           "backlog.txt");
    reflexivity.
Defined.

(** Blank lines and surrounding white space, on a file of four lines. *)
Example file_lines_blank :
  file_lines ("  B " +:+ Markdown.nl +:+ Markdown.nl +:+ String "009"%char " "
              +:+ Markdown.nl +:+ "C" +:+ Markdown.nl)
  = ["B"; "C"].
Proof. reflexivity. Qed.

(** No branch of the loop clears [contextExplicitlyProvided]. *)
Lemma classify_keeps_explicit (arg : string) :
  match classify arg with
  | TakesValue assign =>
      forall v st, contextExplicitlyProvided st = true ->
                   contextExplicitlyProvided (assign v st) = true
  | NoValue assign =>
      forall st, contextExplicitlyProvided st = true ->
                 contextExplicitlyProvided (assign st) = true
  end.
Proof.
  unfold classify.
  repeat match goal with
         | |- context [if ?b then _ else _] => destruct b
         end; simpl; auto.
Qed.

Lemma parseArgs_keeps_explicit (args : list string) (st : flags) :
  contextExplicitlyProvided st = true ->
  contextExplicitlyProvided (parseArgs st args) = true.
Proof.
  revert st. induction args as [args IH] using (induction_ltof1 _ (@length _)).
  unfold ltof in IH. intros st Hst.
  destruct args as [|arg args]; [assumption |].
  simpl. pose proof (classify_keeps_explicit arg) as Hc.
  destruct (classify arg) as [assign | assign].
  - destruct args as [|v args]; [now apply Hc |].
    apply IH; [simpl; lia | now apply Hc].
  - apply IH; [simpl; lia | now apply Hc].
Qed.

Lemma classify_context (flag : string) :
  flag = "--context" \/ flag = "-c" -> classify flag = TakesValue set_context.
Proof. intros [-> | ->]; reflexivity. Qed.

Lemma choose_context_explicit (JSON_parse : string -> option Json.json)
  (st : flags) (e : env) :
  contextExplicitlyProvided st = true ->
  choose_context JSON_parse st e = (context st, []).
Proof. intros H. unfold choose_context. now rewrite H. Qed.

(** A context that is missing or empty puts no property in the body. *)
Lemma falsy_context_not_sent (its : list string) (opts : Client.api_opts)
  (written : list output) :
  Client.context opts = None \/ Client.context opts = Some "" ->
  sent_context (CallApi its opts written) = None.
Proof.
  intros H. unfold sent_context.
  destruct (ClientClaims.request_object_fields its opts) as (_ & -> & _).
  destruct H as [-> | ->]; reflexivity.
Qed.

Lemma sent_context_main (JSON_parse : string -> option Json.json)
  (args : list string) (e : env) :
  contextExplicitlyProvided (parseArgs flags0 args) = true ->
  context (parseArgs flags0 args) = None
  \/ context (parseArgs flags0 args) = Some "" ->
  sent_context (main JSON_parse args e) = None.
Proof.
  intros Hex Hctx.
  destruct (main JSON_parse args e) as [code w | | its opts w] eqn:Hmain;
    try reflexivity.
  apply falsy_context_not_sent.
  apply main_run, run_items in Hmain as (_ & _ & _ & -> & _).
  rewrite (choose_context_explicit _ _ _ Hex). exact Hctx.
Qed.

(** C9: once the loop meets [--context] (or [-c]) as an argument of its
    own, the marker is set and stays set, so the detector is not run,
    nothing is written on the diagnostic stream, and the context handed to
    [callApi] is the one the loop left.  When the flag is the last
    argument, or its value is the empty string, the request body has no
    [context] property. *)
Theorem explicit_context_suppresses_detection
  (JSON_parse : string -> option Json.json) (pre rest : list string)
  (flag : string) (e : env) :
  flag = "--context" \/ flag = "-c" ->
  reaches_end pre = true ->
  contextExplicitlyProvided (parseArgs flags0 (pre ++ flag :: rest)) = true
  /\ choose_context JSON_parse (parseArgs flags0 (pre ++ flag :: rest)) e
     = (context (parseArgs flags0 (pre ++ flag :: rest)), [])
  /\ (forall (its : list string) (opts : Client.api_opts) (written : list output),
        main JSON_parse (pre ++ flag :: rest) e = CallApi its opts written ->
        Client.context opts = context (parseArgs flags0 (pre ++ flag :: rest))
        /\ written = [])
  /\ (rest = [] ->
      context (parseArgs flags0 (pre ++ flag :: rest)) = None
      /\ sent_context (main JSON_parse (pre ++ flag :: rest) e) = None)
  /\ (rest = [""] ->
      context (parseArgs flags0 (pre ++ flag :: rest)) = Some ""
      /\ sent_context (main JSON_parse (pre ++ flag :: rest) e) = None).
Proof.
  intros Hflag Hpre.
  assert (Hex : contextExplicitlyProvided (parseArgs flags0 (pre ++ flag :: rest))
                = true).
  { rewrite (parseArgs_app pre _ flags0 Hpre). simpl.
    rewrite (classify_context flag Hflag).
    destruct rest as [|v rest]; [reflexivity |].
    now apply parseArgs_keeps_explicit. }
  split; [exact Hex |].
  split; [now apply choose_context_explicit |].
  split; [| split].
  - intros its opts written Hmain.
    apply main_run, run_items in Hmain as (_ & _ & _ & -> & ->).
    rewrite (choose_context_explicit _ _ _ Hex). split; reflexivity.
  - intros ->.
    assert (Hctx : context (parseArgs flags0 (pre ++ [flag])) = None).
    { rewrite (parseArgs_app pre _ flags0 Hpre). simpl.
      rewrite (classify_context flag Hflag). reflexivity. }
    split; [exact Hctx |]. apply sent_context_main; [exact Hex | now left].
  - intros ->.
    assert (Hctx : context (parseArgs flags0 (pre ++ [flag; ""])) = Some "").
    { rewrite (parseArgs_app pre _ flags0 Hpre). simpl.
      rewrite (classify_context flag Hflag). reflexivity. }
    split; [exact Hctx |]. apply sent_context_main; [exact Hex | now right].
Qed.

Lemma explicit_context_suppresses_detection_witness :
  main no_parse ["Fix login"] project_env
  = CallApi ["Fix login"]
      (Client.ApiOpts (Some "A tool for backlogs") (Some false) (Some false) None)
      [Err "Auto-detected project context from: README.md (19 chars)"]
  /\ main no_parse ["Fix login"; "--context"] project_env
     = CallApi ["Fix login"] (Client.ApiOpts None (Some false) (Some false) None) []
  /\ main no_parse ["Fix login"; "--context"; ""] project_env
     = CallApi ["Fix login"]
         (Client.ApiOpts (Some "") (Some false) (Some false) None) []
  /\ sent_context (main no_parse (["Fix login"] ++ ["--context"]) project_env) = None
  /\ sent_context (main no_parse (["Fix login"] ++ ["--context"; ""]) project_env)
     = None.
Proof.
  split; [vm_compute; reflexivity |].
  split; [vm_compute; reflexivity |].
  split; [vm_compute; reflexivity |].
  split.
  - destruct (explicit_context_suppresses_detection no_parse ["Fix login"] []
                "--context" project_env (or_introl eq_refl) eq_refl)
      as (_ & _ & _ & Hmissing & _).
    apply Hmissing. reflexivity.
  - destruct (explicit_context_suppresses_detection no_parse ["Fix login"] [""]
                "--context" project_env (or_introl eq_refl) eq_refl)
      as (_ & _ & _ & _ & Hempty).
    apply Hempty. reflexivity.
Defined.

(** After a flag that takes a value, [--context] is that value: the
    marker stays clear and the detector runs. *)
Example context_taken_as_value :
  main no_parse ["Fix login"; "--key"; "--context"] project_env
  = CallApi ["Fix login"]
      (Client.ApiOpts (Some "A tool for backlogs") (Some false) (Some false)
                      (Some "--context"))
      [Err "Auto-detected project context from: README.md (19 chars)"]
  /\ reaches_end ["Fix login"; "--key"] = false.
Proof. split; vm_compute; reflexivity. Qed.

Lemma includes_skip (x arg : string) (pre rest : list string) :
  arg <> x -> includes x (pre ++ arg :: rest) = includes x (pre ++ rest).
Proof.
  intros Hne. unfold includes. rewrite !existsb_app. simpl.
  assert (String.eqb x arg = false) as -> by (apply String.eqb_neq; congruence).
  reflexivity.
Qed.

(** The branches that read [args[++i]]. *)
Lemma classify_takes_value (flag : string) :
  flag ∈ ["--format"; "--context"; "-c"; "--key"; "-k"; "--file"; "-f"] ->
  exists assign, classify flag = TakesValue assign.
Proof.
  intros H. repeat (apply elem_of_cons in H as [-> | H]; [eexists; reflexivity |]).
  now apply elem_of_nil in H.
Qed.

(** C10: an argument that starts with a dash and that no branch tests
    for leaves every variable of the loop as it was, so [main] behaves as
    if the argument were not there: it is no item and no error.  A flag
    that takes a value takes the next argument whatever it is: after
    [--key], the argument [--gherkin] is the license key and sets no
    flag. *)
Theorem unknown_dash_ignored_values_consumed
  (JSON_parse : string -> option Json.json) (pre rest : list string)
  (arg : string) (e : env) :
  startsWith "-" arg = true ->
  arg ∉ recognized ->
  reaches_end pre = true ->
  parseArgs flags0 (pre ++ arg :: rest) = parseArgs flags0 (pre ++ rest)
  /\ main JSON_parse (pre ++ arg :: rest) e = main JSON_parse (pre ++ rest) e
  /\ (forall (flag v : string) (tail : list string) (st : flags),
        flag ∈ ["--format"; "--context"; "-c"; "--key"; "-k"; "--file"; "-f"] ->
        exists assign,
          classify flag = TakesValue assign
          /\ parseArgs st (flag :: v :: tail) = parseArgs (assign (Some v) st) tail)
  /\ parseArgs flags0 ["--key"; "--gherkin"]
     = set_licenseKey (Some "--gherkin") flags0
  /\ useGherkin (parseArgs flags0 ["--key"; "--gherkin"]) = false
  /\ items (parseArgs flags0 ["--file"; "-x"; "--context"; "--no-auto-context"])
     = []
  /\ filePath (parseArgs flags0 ["--file"; "-x"; "--context"; "--no-auto-context"])
     = Some "-x"
  /\ context (parseArgs flags0 ["--file"; "-x"; "--context"; "--no-auto-context"])
     = Some "--no-auto-context"
  /\ noAutoContext
       (parseArgs flags0 ["--file"; "-x"; "--context"; "--no-auto-context"])
     = false.
Proof.
  intros Hdash Hnot Hpre.
  assert (Hparse : parseArgs flags0 (pre ++ arg :: rest)
                   = parseArgs flags0 (pre ++ rest)).
  { rewrite !(parseArgs_app pre _ flags0 Hpre). simpl.
    now rewrite (classify_unknown arg Hdash Hnot). }
  split; [exact Hparse |]. split.
  - unfold main. rewrite Hparse.
    rewrite !(includes_skip _ arg pre rest); [reflexivity | | | |];
      intros ->; apply Hnot; unfold recognized; set_solver.
  - split; [| repeat split].
    intros flag v tail st Hflag.
    destruct (classify_takes_value flag Hflag) as [assign Hassign].
    exists assign. split; [exact Hassign |]. simpl. now rewrite Hassign.
Qed.

Lemma unknown_dash_ignored_values_consumed_witness :
  main no_parse (["Fix login"] ++ "--verbose" :: ["Add dark mode"]) project_env
  = main no_parse (["Fix login"] ++ ["Add dark mode"]) project_env
  /\ main no_parse ["Fix login"; "--verbose"; "Add dark mode"] project_env
     = CallApi ["Fix login"; "Add dark mode"]
         (Client.ApiOpts (Some "A tool for backlogs") (Some false) (Some false) None)
         [Err "Auto-detected project context from: README.md (19 chars)"].
Proof.
  split; [| vm_compute; reflexivity].
  apply (unknown_dash_ignored_values_consumed no_parse ["Fix login"]
           ["Add dark mode"] "--verbose" project_env).
  - reflexivity.
  - unfold recognized. rewrite !not_elem_of_cons.
    repeat split; try discriminate. apply not_elem_of_nil.
  - reflexivity.
Defined.

End CliClaims.


(** ** The enforcement flow *)

Module EnforceClaims.
Import Enforce StringFacts Inputs.

(** [parseInt] reads the leading integer and stops at the first other
    character; without a digit the result is [NaN]. *)
Example parseInt10_values :
  parseInt10 "90" = Some 90%Z
  /\ parseInt10 " 75.5" = Some 75%Z
  /\ parseInt10 "-5" = Some (-5)%Z
  /\ parseInt10 "8o" = Some 8%Z
  /\ parseInt10 "high" = None
  /\ minScore (parseArgs (flags0 None) ["--min-score"; "90"]) = Some 90%Z
  /\ minScore (parseArgs (flags0 None) ["--min-score"]) = Some 80%Z.
Proof. repeat split; reflexivity. Qed.

(** C5: the result that is read is the first element of [issues] when
    there is one, and the response itself when [issues] is missing (or
    holds no element); from it the score defaults to 0, the ready flag to
    false, the identifier to none and the checks to the empty mapping, so
    the comparison with the threshold is always between numbers. *)
Theorem normalize_defaults (lintResult : LintApiResponse) :
  (forall (first : issue_result) (others : list issue_result),
      issues lintResult = Some (first :: others) ->
      issueResult lintResult = first)
  /\ (issues lintResult = None -> issueResult lintResult = flat lintResult)
  /\ (issues lintResult = Some [] -> issueResult lintResult = flat lintResult)
  /\ score (normalize lintResult)
     = default 0%Z (completeness_score (issueResult lintResult))
  /\ (completeness_score (issueResult lintResult) = None ->
      score (normalize lintResult) = 0%Z)
  /\ agentReady (normalize lintResult)
     = default false (agent_ready (issueResult lintResult))
  /\ (agent_ready (issueResult lintResult) = None ->
      agentReady (normalize lintResult) = false)
  /\ lintId (normalize lintResult)
     = match lint_id (issueResult lintResult) with
       | Some (String c i) => "#" +:+ String c i
       | _ => ""
       end
  /\ lint_checks (normalize lintResult)
     = default [] (checks (issueResult lintResult))
  /\ (checks (issueResult lintResult) = None ->
      lint_checks (normalize lintResult) = [])
  /\ (forall threshold : Z,
        meets (score (normalize lintResult)) (Some threshold)
        = (threshold <=? default 0 (completeness_score (issueResult lintResult)))%Z).
Proof.
  unfold normalize, issueResult.
  split; [intros first others ->; reflexivity |].
  split; [intros ->; reflexivity |].
  split; [intros ->; reflexivity |].
  split; [reflexivity |]. split; [intros ->; reflexivity |].
  split; [reflexivity |]. split; [intros ->; reflexivity |].
  split; [| split; [reflexivity | split; [intros ->; reflexivity | reflexivity]]].
  simpl. destruct (lint_id _) as [[|c i]|]; reflexivity.
Qed.

Lemma normalize_defaults_witness :
  issueResult wrapped_response = sample_result
  /\ score (normalize wrapped_response) = 79%Z
  /\ issueResult flat_response = bare_result
  /\ score (normalize flat_response) = 0%Z
  /\ agentReady (normalize flat_response) = false
  /\ lint_checks (normalize flat_response) = [].
Proof.
  destruct (normalize_defaults wrapped_response) as (Hfirst & _).
  destruct (normalize_defaults flat_response)
    as (_ & Hflat & _ & _ & Hscore & _ & Hready & _ & _ & Hchecks & _).
  split; [apply (Hfirst sample_result []); reflexivity |].
  split; [reflexivity |].
  split; [apply Hflat; reflexivity |].
  split; [apply Hscore; reflexivity |].
  split; [apply Hready; reflexivity | apply Hchecks; reflexivity].
Defined.

(** Only [--min-score] assigns the threshold. *)
Lemma classify_keeps_minScore (arg : string) :
  arg <> "--min-score" ->
  match classify arg with
  | Some assign => forall v st, minScore (assign v st) = minScore st
  | None => True
  end.
Proof.
  intros Hne. unfold classify.
  destruct (String.eqb_spec arg "--min-score") as [| _]; [contradiction |].
  repeat match goal with
         | |- context [if ?b then _ else _] => destruct b
         end; simpl; auto.
Qed.

Lemma default_threshold (args : list string) (st : flags) :
  "--min-score" ∉ args -> minScore (parseArgs st args) = minScore st.
Proof.
  revert st. induction args as [args IH] using (induction_ltof1 _ (@length _)).
  unfold ltof in IH. intros st Hnot.
  destruct args as [|arg args]; [reflexivity |].
  apply not_elem_of_cons in Hnot as [Hne Hnot].
  simpl. pose proof (classify_keeps_minScore arg (not_eq_sym Hne)) as Hc.
  destruct (classify arg) as [assign |].
  - destruct args as [|v args]; [apply Hc |].
    apply not_elem_of_cons in Hnot as [_ Hnot].
    rewrite IH; [apply Hc | simpl; lia | assumption].
  - apply IH; [simpl; lia | assumption].
Qed.

Lemma filter_sublist {A : Type} (f : A -> bool) (l : list A) :
  List.filter f l `sublist_of` l.
Proof.
  induction l as [|x l IH]; simpl; [constructor |].
  destruct (f x); [now apply sublist_skip | now apply sublist_cons].
Qed.

Lemma failing_spec (cs : list (string * check)) (k : string) (c : check) :
  (k, c) ∈ failing cs <-> (k, c) ∈ cs /\ pass c = false.
Proof.
  unfold failing. rewrite !list_elem_of_In, filter_In. simpl.
  now rewrite negb_true_iff.
Qed.

(** C2: with a numeric threshold, a score at or above it prints the
    success summary and exits with status 0, a score below it prints the
    failure summary, the checks whose pass flag is false (each with its
    message when it has a non-empty one) and the guidance, and exits with
    status 1; a score equal to the threshold succeeds.  The threshold is 80
    unless [--min-score] is given. *)
Theorem enforce_threshold (issueNumber repo issueTitle : string)
  (threshold : Z) (l : lint) :
  ((threshold <= score l)%Z ->
     verdict issueNumber repo issueTitle (Some threshold) l
     = (passed_lines issueNumber issueTitle l, 0%Z))
  /\ ((score l < threshold)%Z ->
      verdict issueNumber repo issueTitle (Some threshold) l
      = (failed_lines issueNumber repo issueTitle l, 1%Z))
  /\ verdict issueNumber repo issueTitle (Some (score l)) l
     = (passed_lines issueNumber issueTitle l, 0%Z)
  /\ verdict issueNumber repo issueTitle (Some (score l + 1)%Z) l
     = (failed_lines issueNumber repo issueTitle l, 1%Z)
  /\ (exists summary guidance,
        failed_lines issueNumber repo issueTitle l
        = [summary; issue_line issueNumber issueTitle]
          ++ missing_block (failing (lint_checks l)) ++ [guidance])
  /\ (forall (k : string) (c : check),
        (k, c) ∈ failing (lint_checks l) <-> (k, c) ∈ lint_checks l /\ pass c = false)
  /\ failing (lint_checks l) `sublist_of` lint_checks l
  /\ (forall (k : string) (c : check),
        failing_line (k, c)
        = "  ✗ " +:+ k
          +:+ match message c with
              | Some (String a m) => " — " +:+ String a m
              | _ => ""
              end)
  /\ (forall (GITHUB_TOKEN : option string) (args : list string),
        "--min-score" ∉ args ->
        minScore (parseArgs (flags0 GITHUB_TOKEN) args) = Some 80%Z)
  /\ (forall (GITHUB_TOKEN : option string) (net : flags -> round_trips)
             (lintResult : LintApiResponse),
        JsString.truthy issueNumber = true -> JsString.truthy repo = true ->
        net (Flags (Some issueNumber) (Some repo) (Some 80%Z) None GITHUB_TOKEN)
        = Scored issueTitle lintResult ->
        runEnforce GITHUB_TOKEN net ["--issue"; issueNumber; "--repo"; repo]
        = (Cli.Out <$> (verdict issueNumber repo issueTitle (Some 80%Z)
                          (normalize lintResult)).1,
           (verdict issueNumber repo issueTitle (Some 80%Z)
              (normalize lintResult)).2)).
Proof.
  assert (Hge : forall t, (t <= score l)%Z ->
            verdict issueNumber repo issueTitle (Some t) l
            = (passed_lines issueNumber issueTitle l, 0%Z)).
  { intros t Ht. unfold verdict, meets. apply Z.leb_le in Ht. now rewrite Ht. }
  assert (Hlt : forall t, (score l < t)%Z ->
            verdict issueNumber repo issueTitle (Some t) l
            = (failed_lines issueNumber repo issueTitle l, 1%Z)).
  { intros t Ht. unfold verdict, meets. apply Z.leb_gt in Ht. now rewrite Ht. }
  split; [apply Hge |]. split; [apply Hlt |].
  split; [apply Hge; lia |]. split; [apply Hlt; lia |].
  split; [eexists _, _; reflexivity |].
  split; [intros k c; apply failing_spec |].
  split; [apply filter_sublist |].
  split; [intros k c; unfold failing_line; simpl;
          destruct (message c) as [[|a m]|]; reflexivity |].
  split; [intros tok args H; now rewrite default_threshold |].
  intros tok net lintResult Hi Hr Hnet. unfold runEnforce. simpl.
  rewrite Hi, Hr, Hnet. simpl.
  destruct (verdict issueNumber repo issueTitle (Some 80%Z) (normalize lintResult)).
  reflexivity.
Qed.

Lemma enforce_threshold_witness :
  verdict "42" "acme/backend" "Add login" (Some 79%Z) (normalize wrapped_response)
  = (["✅ Lint passed | #ab12 | Score: 79/100 | agent_ready: false";
      "Issue #42: " +:+ Client.quote_raw "Add login";
      "Proceeding with implementation."], 0%Z)
  /\ verdict "42" "acme/backend" "Add login" (Some 80%Z) (normalize wrapped_response)
     = (["❌ Lint failed | #ab12 | Score: 79/100 | NOT agent_ready";
         "Issue #42: " +:+ Client.quote_raw "Add login";
         Markdown.nl +:+ "Missing:";
         "  ✗ has_acceptance_criteria — No acceptance criteria";
         "  ✗ has_scope";
         Markdown.nl +:+ "Edit the issue body and re-run: "
           +:+ "npx speclint enforce --issue 42 --repo acme/backend"], 1%Z)
  /\ minScore (parseArgs (flags0 None) ["--issue"; "42"; "--repo"; "acme/backend"])
     = Some 80%Z
  /\ ("has_scope", Check false None) ∈ failing sample_checks
  /\ runEnforce None (fun _ => Scored "Add login" wrapped_response)
       ["--issue"; "42"; "--repo"; "acme/backend"]
     = (Cli.Out <$> (verdict "42" "acme/backend" "Add login" (Some 80%Z)
                       (normalize wrapped_response)).1,
        (verdict "42" "acme/backend" "Add login" (Some 80%Z)
           (normalize wrapped_response)).2).
Proof.
  destruct (enforce_threshold "42" "acme/backend" "Add login" 79%Z
              (normalize wrapped_response))
    as (Hpass & _ & _ & _ & _ & Hfailing & _ & _ & Hdefault & _).
  destruct (enforce_threshold "42" "acme/backend" "Add login" 80%Z
              (normalize wrapped_response))
    as (_ & Hfail & _ & _ & _ & _ & _ & _ & _ & Hrun).
  split; [rewrite Hpass; [reflexivity | vm_compute; discriminate] |].
  split; [rewrite Hfail; [reflexivity | vm_compute; reflexivity] |].
  split.
  { apply Hdefault. rewrite !not_elem_of_cons.
    repeat split; try discriminate. apply not_elem_of_nil. }
  split.
  { apply (proj2 (Hfailing "has_scope" (Check false None))).
    split; [| reflexivity]. unfold normalize. simpl. unfold sample_checks.
    do 2 apply list_elem_of_further. apply list_elem_of_here. }
  apply Hrun; reflexivity.
Defined.

End EnforceClaims.

(** ** Further facts about the string primitives *)

Module MoreStringFacts.
Import StringFacts.

(** Closes [x ∉ l] for a literal [x] and a list of literals [l]. *)
Ltac absent :=
  cbn [app]; rewrite !not_elem_of_cons; repeat split; try discriminate;
  apply not_elem_of_nil.

Lemma slice0_all (n : nat) (s : string) :
  String.length s <= n -> slice0 n s = s.
Proof.
  revert s; induction n as [|n IH]; intros [|c s] H; simpl in *;
    try reflexivity; try lia.
  f_equal. apply IH. lia.
Qed.

Lemma trimStart_length (s : string) :
  String.length (trimStart s) <= String.length s.
Proof.
  induction s as [|c s IH]; simpl; [lia |].
  destruct (is_ws c); simpl; lia.
Qed.

Lemma trimEnd_length (s : string) :
  String.length (trimEnd s) <= String.length s.
Proof.
  induction s as [|c s IH]; simpl; [lia |].
  destruct (is_ws c && falsy (trimEnd s)); simpl; lia.
Qed.

Lemma trim_length (s : string) : String.length (trim s) <= String.length s.
Proof.
  unfold trim. pose proof (trimEnd_length (trimStart s)).
  pose proof (trimStart_length s). lia.
Qed.

(** A trimmed string that is not empty starts with a character that is
    not white space. *)
Lemma trim_truthy_head (s : string) :
  truthy (trim s) = true ->
  exists c r, trim s = String c r /\ is_ws c = false.
Proof.
  unfold trim. pose proof (trimStart_head s) as H.
  destruct (trimStart s) as [|c r]; [discriminate |].
  intros _. exists c, (trimEnd r). split; [now apply trimEnd_head | assumption].
Qed.

Lemma trim_head (c : ascii) (r : string) :
  is_ws c = false -> trim (String c r) = String c (trimEnd r).
Proof.
  intros H. unfold trim. rewrite (trimStart_id c r H). now apply trimEnd_head.
Qed.

Lemma string_app_nil_r (a : string) : a +:+ "" = a.
Proof.
  induction a as [|x a IH]; [reflexivity |].
  change (String x (a +:+ "") = String x a). now rewrite IH.
Qed.

Lemma join_cons (sep x : string) (xs : list string) :
  join sep (x :: xs)
  = x +:+ match xs with
          | [] => ""
          | _ => sep +:+ join sep xs
          end.
Proof. destruct xs; [| reflexivity]. simpl. now rewrite string_app_nil_r. Qed.

Lemma string_app_assoc (a b c : string) : (a +:+ b) +:+ c = a +:+ b +:+ c.
Proof.
  induction a as [|x a IH]; [reflexivity |].
  change (String x ((a +:+ b) +:+ c) = String x (a +:+ b +:+ c)). now rewrite IH.
Qed.

(** Joining two lists that both have elements. *)
Lemma join_app (sep : string) (xs ys : list string) :
  xs <> [] -> ys <> [] ->
  join sep (xs ++ ys) = join sep xs +:+ sep +:+ join sep ys.
Proof.
  intros Hx Hy. induction xs as [|x xs IH]; [contradiction |].
  destruct xs as [|x' xs].
  - destruct ys as [|y ys]; [contradiction | reflexivity].
  - change (join sep ((x :: x' :: xs) ++ ys))
      with (x +:+ sep +:+ join sep ((x' :: xs) ++ ys)).
    rewrite IH by discriminate.
    change (join sep (x :: x' :: xs)) with (x +:+ sep +:+ join sep (x' :: xs)).
    now rewrite !string_app_assoc.
Qed.

End MoreStringFacts.

(** ** The formatter on a response of the declared type *)

Module UntypedFacts.
Import Json Untyped StringFacts MoreStringFacts.

Lemma mapM_strings (Number_toString : Z -> string) (l : list string) :
  mapM (fun x => match x with JNull => Some "" | _ => toString Number_toString x end)
       (JStr <$> l)
  = Some l.
Proof.
  induction l as [|x l IH]; [reflexivity |].
  rewrite fmap_cons. cbn [mapM]. rewrite IH. reflexivity.
Qed.

Lemma mapM_bullets (Number_toString : Z -> string) (l : list string) :
  mapM (fun ac => s ← toString Number_toString ac; Some ("- " +:+ s)) (JStr <$> l)
  = Some ((fun ac => "- " +:+ ac) <$> l).
Proof.
  induction l as [|x l IH]; [reflexivity |].
  rewrite !fmap_cons. cbn [mapM]. rewrite IH. reflexivity.
Qed.

Lemma join_values_strings (Number_toString : Z -> string) (sep : string)
  (l : list string) :
  join_values Number_toString sep (JStr <$> l) = Some (join sep l).
Proof. unfold join_values. now rewrite mapM_strings. Qed.

Lemma has_length_strings (l : list string) :
  has_length (Some (strings l)) = Markdown.nonempty (Some l).
Proof. now destruct l. Qed.

Lemma elements_strings (l : list string) :
  elements (Some (strings l)) = Some (JStr <$> l).
Proof. reflexivity. Qed.

(** On an item that has the declared type, the callback pushes what
    [Markdown.item_lines] lists. *)
Lemma item_lines_encode (Number_toString : Z -> string)
  (item : Markdown.RefinedItem) :
  item_lines Number_toString (encode_item item) = Some (Markdown.item_lines item).
Proof.
  rewrite MarkdownClaims.item_lines_sections.
  destruct item as [t p ac e pr r tg us].
  unfold Markdown.user_story_section, Markdown.rationale_section,
    Markdown.criteria_section, Markdown.tags_section.
  cbn [Markdown.title Markdown.problemStatement Markdown.acceptanceCriteria
       Markdown.estimate Markdown.priority Markdown.rationale Markdown.tags
       Markdown.userStory].
  unfold item_lines, encode_item.
  cbn [Markdown.title Markdown.problemStatement Markdown.acceptanceCriteria
       Markdown.estimate Markdown.priority Markdown.rationale Markdown.tags
       Markdown.userStory].
  destruct ac as [ac|], r as [[|c r]|], tg as [tg|], us as [[|c' us]|];
    cbn -[strings has_length elements mapM join_values String.append join
          Markdown.nonempty];
    rewrite ?has_length_strings;
    try destruct ac as [|a ac]; try destruct tg as [|g tg];
    cbn -[strings elements mapM join_values String.append join fmap];
    rewrite ?elements_strings;
    cbn -[strings mapM join_values String.append join fmap];
    rewrite ?mapM_bullets;
    cbn -[strings mapM join_values String.append join fmap];
    rewrite ?join_values_strings;
    cbn -[String.append join fmap]; rewrite <- ?app_assoc, ?app_nil_r;
    reflexivity.
Qed.

Lemma mapM_render (Number_toString : Z -> string)
  (items : list Markdown.RefinedItem) :
  mapM (fun item => join Markdown.nl <$> item_lines Number_toString item)
       (encode_item <$> items)
  = Some (Markdown.render_item <$> items).
Proof.
  induction items as [|x items IH]; [reflexivity |].
  rewrite !fmap_cons. cbn [mapM]. rewrite IH, item_lines_encode. reflexivity.
Qed.

(** On a response of the declared type the untyped formatter is
    [Markdown.formatMarkdown] on its items. *)
Lemma render_encode (Number_toString : Z -> string)
  (items : list Markdown.RefinedItem) :
  render Number_toString (encode_response items)
  = Some (Markdown.formatMarkdown items).
Proof.
  unfold render, encode_response, formatMarkdown, Markdown.formatMarkdown.
  cbn [items_or_self get assoc String.eqb Ascii.eqb Bool.eqb mbind option_bind
       truthy default elements].
  simpl. rewrite mapM_render. reflexivity.
Qed.

End UntypedFacts.

(** ** More on the context detector *)

Module ContextExtras.
Import Context StringFacts MoreStringFacts ContextFacts Inputs MoreInputs.

(** A readable file whose text and whose extract are not blank is
    accepted, cut to what is left of the budget. *)
Lemma visit_accept (fs : gmap string file_state) (st : acc) (src : source)
  (raw : string) :
  fs !! file src = Some (Content raw) ->
  truthy (trim raw) = true ->
  truthy (trim (extractor src (trim raw))) = true ->
  visit fs st src
  = Acc (collected st
         ++ [slice0 (MAX_CHARS - totalChars st) (trim (extractor src (trim raw)))])
        (usedSources st ++ [file src])
        (totalChars st
         + String.length (slice0 (MAX_CHARS - totalChars st)
                            (trim (extractor src (trim raw))))).
Proof.
  intros Hfs H1 H2. unfold visit. rewrite Hfs.
  unfold truthy in H1, H2. apply negb_true_iff in H1, H2.
  now rewrite H1, H2.
Qed.

(** A file whose extract is blank for the text it holds is never a used
    source. *)
Lemma blank_extract_unused (fs : gmap string file_state) (name : string)
  (srcs : list source) (st : acc) :
  (forall src raw, src ∈ srcs -> file src = name ->
                   fs !! name = Some (Content raw) ->
                   truthy (trim raw) = true ->
                   trim (extractor src (trim raw)) = "") ->
  name ∉ usedSources st ->
  name ∉ usedSources (loop fs st srcs).
Proof.
  revert st; induction srcs as [|src rest IH]; intros st Hblank Hst; [assumption |].
  rewrite loop_cons. destruct (MAX_CHARS <=? totalChars st)%nat; [assumption |].
  apply IH.
  - intros src' raw Hin. apply Hblank. now apply list_elem_of_further.
  - destruct (visit_cases fs st src)
      as [-> | (raw & chunk & Hfs & Hraw & _ & Hext & ->)]; [assumption |].
    simpl. rewrite elem_of_app, list_elem_of_singleton. intros [Hin | ->].
    + contradiction.
    + rewrite (Hblank src raw (list_elem_of_here _ _) eq_refl Hfs Hraw) in Hext.
      discriminate.
Qed.

(** The chunks accepted by the loop are not empty, there is one per used
    source (ten at most), and their lengths add up to the running total,
    which never exceeds 700. *)
Theorem chunk_budget (JSON_parse : string -> option Json.json)
  (fs : gmap string file_state) :
  total_length (collected (loop fs acc0 (sources JSON_parse))) <= 700
  /\ totalChars (loop fs acc0 (sources JSON_parse))
     = total_length (collected (loop fs acc0 (sources JSON_parse)))
  /\ Forall (fun chunk => 1 <= String.length chunk)
            (collected (loop fs acc0 (sources JSON_parse)))
  /\ length (collected (loop fs acc0 (sources JSON_parse)))
     = length (usedSources (loop fs acc0 (sources JSON_parse)))
  /\ length (usedSources (loop fs acc0 (sources JSON_parse))) <= 10.
Proof.
  pose proof (loop_inv fs (sources JSON_parse) acc0 budget_inv_acc0)
    as (Htot & Hle & Hlen & Hne).
  destruct (loop_used fs (sources JSON_parse) acc0) as (names & Hused & Hsub).
  apply sublist_length in Hsub. rewrite length_fmap in Hsub.
  change (length (sources JSON_parse)) with 10 in Hsub.
  change (usedSources acc0 ++ names) with names in Hused.
  assert (MAX_CHARS = 700) as Hmax by reflexivity.
  set (st := loop fs acc0 (sources JSON_parse)) in *. clearbody st.
  split; [lia |]. split; [assumption |]. split; [| split; [assumption |]].
  - eapply Forall_impl; [exact Hne |]. intros chunk H.
    now apply truthy_length in H.
  - rewrite Hused. exact Hsub.
Qed.

(** When a context is returned, its length is that of the chunks plus
    three characters per separator: between 1 and 727 characters. *)
Theorem combined_length_exact (JSON_parse : string -> option Json.json)
  (fs : gmap string file_state) (combined : string) :
  (detectProjectContext JSON_parse fs).1 = Some combined ->
  String.length combined
  = total_length (collected (loop fs acc0 (sources JSON_parse)))
    + 3 * (length (collected (loop fs acc0 (sources JSON_parse))) - 1)
  /\ 1 <= String.length combined <= 727.
Proof.
  rewrite ContextClaims.detect_result.
  pose proof (loop_inv fs (sources JSON_parse) acc0 budget_inv_acc0)
    as (Htot & Hle & Hlen & Hne).
  destruct (loop_used fs (sources JSON_parse) acc0) as (names & Hused & Hsub).
  apply sublist_length in Hsub. rewrite length_fmap in Hsub.
  change (length (sources JSON_parse)) with 10 in Hsub.
  change (usedSources acc0 ++ names) with names in Hused.
  rewrite Hused in Hlen.
  assert (MAX_CHARS = 700) as Hmax by reflexivity.
  set (st := loop fs acc0 (sources JSON_parse)) in *. clearbody st.
  destruct (collected st) as [|c cs] eqn:Hc; [discriminate |].
  intros H. assert (combined = join " | " (c :: cs)) as -> by congruence.
  rewrite join_length. change (String.length " | ") with 3.
  split; [reflexivity |].
  apply Forall_cons in Hne as [Hc1 _]. apply truthy_length in Hc1.
  rewrite <- Htot. unfold total_length in Htot. simpl in Htot.
  simpl length in *. lia.
Qed.

Lemma combined_length_exact_witness :
  String.length
    (join " | " (collected (loop three_full acc0 (sources no_parse)))) = 706.
Proof.
  destruct (combined_length_exact no_parse three_full
              (join " | " (collected (loop three_full acc0 (sources no_parse)))))
    as [-> _]; vm_compute; reflexivity.
Defined.

(** When every candidate file is absent, unreadable, or blank in text or
    in extract, nothing is returned and nothing is written. *)
Theorem no_usable_file_no_context (JSON_parse : string -> option Json.json)
  (fs : gmap string file_state) :
  Forall (fun src =>
            match fs !! file src with
            | Some (Content raw) =>
                trim raw = "" \/ trim (extractor src (trim raw)) = ""
            | _ => True
            end) (sources JSON_parse) ->
  detectProjectContext JSON_parse fs = (None, []).
Proof.
  intros H.
  assert (Hloop : forall srcs st,
            Forall (fun src =>
                      match fs !! file src with
                      | Some (Content raw) =>
                          trim raw = "" \/ trim (extractor src (trim raw)) = ""
                      | _ => True
                      end) srcs ->
            loop fs st srcs = st).
  { induction srcs as [|src rest IH]; intros st Hall; [reflexivity |].
    apply Forall_cons in Hall as [Hsrc Hrest].
    rewrite loop_cons. destruct (MAX_CHARS <=? totalChars st)%nat; [reflexivity |].
    destruct (visit_cases fs st src)
      as [-> | (raw & chunk & Hfs & Hraw & _ & Hext & _)]; [now apply IH |].
    rewrite Hfs in Hsrc. destruct Hsrc as [E | E].
    - rewrite E in Hraw. discriminate.
    - rewrite E in Hext. discriminate. }
  unfold detectProjectContext. rewrite (Hloop _ _ H). reflexivity.
Qed.

Lemma no_usable_file_no_context_witness :
  detectProjectContext no_parse blank_dir = (None, []).
Proof.
  apply no_usable_file_no_context.
  repeat (apply Forall_cons; split; [vm_compute; auto |]). apply Forall_nil_2.
Defined.

(** The used sources are names of the table, in the order of the table
    and without repetition, and each of them is a readable file whose
    text is not blank. *)
Theorem used_sources_sound (JSON_parse : string -> option Json.json)
  (fs : gmap string file_state) :
  usedSources (loop fs acc0 (sources JSON_parse))
    `sublist_of` (file <$> sources JSON_parse)
  /\ NoDup (usedSources (loop fs acc0 (sources JSON_parse)))
  /\ Forall (fun name => exists raw, fs !! name = Some (Content raw)
                                     /\ truthy (trim raw) = true)
            (usedSources (loop fs acc0 (sources JSON_parse))).
Proof.
  pose proof (ContextClaims.used_sources_in_table_order JSON_parse fs) as Hsub.
  split; [exact Hsub |]. split.
  - refine (sublist_NoDup _ _ _ Hsub).
    apply (bool_decide_unpack _). vm_compute. reflexivity.
  - apply ContextClaims.used_sources_readable. constructor.
Qed.

Lemma truncate300_trim_truthy (raw : string) :
  truthy (trim raw) = true -> truthy (trim (truncate300 (trim raw))) = true.
Proof.
  intros H. destruct (trim_truthy_head raw H) as (c & r & -> & Hc).
  unfold truncate300. simpl slice0. now rewrite (trim_head _ _ Hc).
Qed.

Lemma truncate300_trim_length (s : string) :
  String.length (trim (truncate300 s)) <= 300.
Proof.
  pose proof (trim_length (truncate300 s)).
  pose proof (slice0_le 300 s). unfold truncate300 in *. lia.
Qed.

(** AGENTS.md has the first place: when it is readable and not blank,
    the context starts with the first 300 characters of its trimmed
    text, trimmed again, and it is the first used source. *)
Theorem agents_file_leads (JSON_parse : string -> option Json.json)
  (fs : gmap string file_state) (raw : string) :
  fs !! "AGENTS.md" = Some (Content raw) ->
  truthy (trim raw) = true ->
  exists rest others,
    (detectProjectContext JSON_parse fs).1
    = Some (trim (slice0 300 (trim raw)) +:+ rest)
    /\ usedSources (loop fs acc0 (sources JSON_parse)) = "AGENTS.md" :: others.
Proof.
  intros Hfs Hraw.
  set (first := Source "AGENTS.md" truncate300).
  set (later := tail (sources JSON_parse)).
  assert (Hsrc : sources JSON_parse = first :: later) by reflexivity.
  assert (Hvisit : visit fs acc0 first
                   = Acc [trim (truncate300 (trim raw))] ["AGENTS.md"]
                         (String.length (trim (truncate300 (trim raw))))).
  { rewrite (visit_accept fs acc0 first raw Hfs Hraw
               (truncate300_trim_truthy raw Hraw)).
    change (MAX_CHARS - totalChars acc0) with 700.
    rewrite slice0_all; [reflexivity |].
    pose proof (truncate300_trim_length (trim raw)). simpl extractor. lia. }
  assert (Hloop : loop fs acc0 (sources JSON_parse)
                  = loop fs (visit fs acc0 first) later).
  { rewrite Hsrc, loop_cons. reflexivity. }
  destruct (loop_collected_prefix fs later (visit fs acc0 first))
    as [[chunks Hchunks] [names Hnames]].
  assert (Hc : collected (visit fs acc0 first) = [trim (truncate300 (trim raw))])
    by now rewrite Hvisit.
  assert (Hu : usedSources (visit fs acc0 first) = ["AGENTS.md"])
    by now rewrite Hvisit.
  rewrite Hc in Hchunks. rewrite Hu in Hnames.
  rewrite <- Hloop in Hchunks, Hnames.
  exists (match chunks with [] => "" | _ => " | " +:+ join " | " chunks end), names.
  split; [| exact Hnames].
  assert (Hcons : collected (loop fs acc0 (sources JSON_parse))
                  = trim (truncate300 (trim raw)) :: chunks) by exact Hchunks.
  rewrite ContextClaims.detect_result, Hcons, join_cons. reflexivity.
Qed.

Lemma agents_file_leads_witness :
  exists rest others,
    (detectProjectContext no_parse agents_dir).1
    = Some (trim (slice0 300 (trim (" " +:+ long_text +:+ "bbb "))) +:+ rest)
    /\ usedSources (loop agents_dir acc0 (sources no_parse))
       = "AGENTS.md" :: others.
Proof.
  apply (agents_file_leads no_parse agents_dir (" " +:+ long_text +:+ "bbb "));
    vm_compute; reflexivity.
Defined.

(** A file whose extract does not fit in what is left of the budget is
    cut to it: the total is then 700 and the loop reads no further
    file. *)
Theorem truncated_chunk_ends_loop (fs : gmap string file_state) (st : acc)
  (src : source) (raw : string) (later : list source) :
  totalChars st < MAX_CHARS ->
  fs !! file src = Some (Content raw) ->
  truthy (trim raw) = true ->
  MAX_CHARS - totalChars st <= String.length (trim (extractor src (trim raw))) ->
  totalChars (visit fs st src) = MAX_CHARS
  /\ loop fs st (src :: later) = visit fs st src
  /\ (exists chunk, collected (loop fs st (src :: later)) = collected st ++ [chunk]
                    /\ String.length chunk = MAX_CHARS - totalChars st).
Proof.
  intros Hlt Hfs Hraw Hlong.
  assert (Hext : truthy (trim (extractor src (trim raw))) = true).
  { apply truthy_length. lia. }
  pose proof (visit_accept fs st src raw Hfs Hraw Hext) as Hvisit.
  assert (Hlen : String.length (slice0 (MAX_CHARS - totalChars st)
                                  (trim (extractor src (trim raw))))
                 = MAX_CHARS - totalChars st).
  { rewrite slice0_length. lia. }
  assert (Htot : totalChars (visit fs st src) = MAX_CHARS).
  { rewrite Hvisit. simpl totalChars. rewrite Hlen. lia. }
  assert (Hloop : loop fs st (src :: later) = visit fs st src).
  { rewrite loop_cons. apply Nat.leb_gt in Hlt. rewrite Hlt.
    apply loop_full. lia. }
  split; [exact Htot |]. split; [exact Hloop |].
  eexists. rewrite Hloop, Hvisit. simpl collected. split; [reflexivity | exact Hlen].
Qed.

Lemma truncated_chunk_ends_loop_witness :
  totalChars (visit three_full (Acc ["x"] ["seen"] 600)
                (Source "CODEX.md" truncate300)) = MAX_CHARS.
Proof.
  apply (truncated_chunk_ends_loop three_full (Acc ["x"] ["seen"] 600)
           (Source "CODEX.md" truncate300) long_text []).
  - vm_compute. lia.
  - reflexivity.
  - reflexivity.
  - vm_compute. lia.
Defined.

(** For a manifest that is an object with a name, a description and the
    two dependency objects, the extract is the three parts joined by
    [" | "], and the dependencies are the first eight names, those of
    [dependencies] before those of [devDependencies]. *)
Theorem manifest_extract_fields (JSON_parse : string -> option Json.json)
  (c name description : string) (props deps dev : list (string * Json.json)) :
  JSON_parse c = Some (Json.JObj props) ->
  Json.assoc "name" props = Some (Json.JStr name) -> name <> "" ->
  Json.assoc "description" props = Some (Json.JStr description) ->
  description <> "" ->
  Json.assoc "dependencies" props = Some (Json.JObj deps) ->
  Json.assoc "devDependencies" props = Some (Json.JObj dev) ->
  deps.*1 ++ dev.*1 <> [] ->
  manifest_extractor JSON_parse c
  = "name: " +:+ name +:+ " | " +:+ "description: " +:+ description +:+ " | "
    +:+ "deps: " +:+ join ", " (take 8 (deps.*1 ++ dev.*1)).
Proof.
  intros Hparse Hname Hn Hdesc Hd Hdeps Hdev Hsome.
  unfold manifest_extractor, manifest_summary. rewrite Hparse. simpl.
  rewrite Hname, Hdesc, Hdeps, Hdev. simpl.
  destruct name as [|n0 name]; [contradiction |].
  destruct description as [|d0 description]; [contradiction |]. simpl.
  change (Json.keys_or_empty (Some (Json.JObj deps))) with (deps.*1).
  change (Json.keys_or_empty (Some (Json.JObj dev))) with (dev.*1).
  destruct (deps.*1 ++ dev.*1) as [|k ks]; [contradiction |].
  simpl take. cbv iota.
  rewrite (join_cons " | "), (join_cons " | "), (join_cons " | ").
  now rewrite string_app_nil_r, !string_app_assoc.
Qed.

Lemma manifest_extract_fields_witness :
  manifest_extractor manifest_parse "{manifest}"
  = "name: refine-backlog-cli | description: Backlog refiner | "
    +:+ "deps: stdpp, paco, d1, d2, d3, d4, d5, d6".
Proof.
  rewrite (manifest_extract_fields manifest_parse "{manifest}"
             "refine-backlog-cli" "Backlog refiner" sample_manifest
             sample_dependencies sample_devDependencies);
    try reflexivity; discriminate.
Defined.

(** A manifest that does not parse, that is [null], or that is an object
    without properties, gives an empty extract, so [package.json] is never
    a used source then: a malformed manifest is skipped, not fatal. *)
Theorem malformed_manifest_skipped (JSON_parse : string -> option Json.json)
  (fs : gmap string file_state) (raw : string) :
  fs !! "package.json" = Some (Content raw) ->
  JSON_parse (trim raw) = None
  \/ JSON_parse (trim raw) = Some Json.JNull
  \/ JSON_parse (trim raw) = Some (Json.JObj []) ->
  manifest_extractor JSON_parse (trim raw) = ""
  /\ "package.json" ∉ usedSources (loop fs acc0 (sources JSON_parse)).
Proof.
  intros Hfs Hbad.
  assert (Hext : manifest_extractor JSON_parse (trim raw) = "").
  { unfold manifest_extractor, manifest_summary.
    destruct Hbad as [-> | [-> | ->]]; reflexivity. }
  split; [exact Hext |].
  apply blank_extract_unused; [| apply not_elem_of_nil].
  intros src raw' Hin Hfile Hfs' _.
  assert (raw' = raw) as -> by congruence.
  unfold sources in Hin.
  repeat (apply elem_of_cons in Hin as [-> | Hin];
          [try discriminate Hfile; simpl; now rewrite Hext |]).
  now apply elem_of_nil in Hin.
Qed.

Lemma malformed_manifest_skipped_witness :
  "package.json" ∉ usedSources (loop blank_dir acc0 (sources no_parse)).
Proof.
  apply (malformed_manifest_skipped no_parse blank_dir "not a manifest");
    [reflexivity | now left].
Defined.

End ContextExtras.


(** ** More on the command line of the refine flow *)

Module CliExtras.
Import Context Cli StringFacts MoreStringFacts Inputs MoreInputs Invariants.

Lemma includes_elem (x : string) (l : list string) :
  includes x l = true <-> x ∈ l.
Proof.
  unfold includes. rewrite existsb_exists, list_elem_of_In. split.
  - intros (y & Hin & Heq). apply String.eqb_eq in Heq. now subst.
  - intros Hin. exists x. split; [assumption | apply String.eqb_refl].
Qed.

Lemma includes_not_elem (x : string) (l : list string) :
  x ∉ l -> includes x l = false.
Proof.
  intros H. destruct (includes x l) eqn:E; [| reflexivity].
  apply includes_elem in E. contradiction.
Qed.

Lemma classify_keeps_inv (arg : string) :
  match classify arg with
  | TakesValue assign => forall v st, flags_inv st -> flags_inv (assign v st)
  | NoValue assign => forall st, flags_inv st -> flags_inv (assign st)
  end.
Proof.
  unfold classify.
  destruct (String.eqb arg "--format").
  { intros v st (H1 & H2 & H3). repeat split; try assumption.
    simpl. destruct v as [f|]; [| reflexivity].
    destruct (JsString.truthy f) eqn:E; [exact E | reflexivity]. }
  destruct (String.eqb arg "--context" || String.eqb arg "-c").
  { intros v st (H1 & H2 & H3). repeat split; try assumption. discriminate. }
  destruct (String.eqb arg "--no-auto-context");
    [intros st H; exact H |].
  destruct (String.eqb arg "--key" || String.eqb arg "-k");
    [intros v st H; exact H |].
  destruct (String.eqb arg "--file" || String.eqb arg "-f");
    [intros v st H; exact H |].
  destruct (String.eqb arg "--user-stories"); [intros st H; exact H |].
  destruct (String.eqb arg "--gherkin"); [intros st H; exact H |].
  destruct (startsWith "-" arg) eqn:E; simpl; [intros st H; exact H |].
  intros st (H1 & H2 & H3). repeat split; try assumption.
  simpl. apply Forall_app. split; [assumption |]. now constructor.
Qed.

Lemma parseArgs_keeps_inv (args : list string) (st : flags) :
  flags_inv st -> flags_inv (parseArgs st args).
Proof.
  revert st. induction args as [args IH] using (induction_ltof1 _ (@length _)).
  unfold ltof in IH. intros st Hst.
  destruct args as [|arg args]; [assumption |].
  simpl. pose proof (classify_keeps_inv arg) as Hc.
  destruct (classify arg) as [assign | assign].
  - destruct args as [|v args]; [now apply Hc |].
    apply IH; [simpl; lia | now apply Hc].
  - apply IH; [simpl; lia | now apply Hc].
Qed.

Lemma flags_inv_flags0 : flags_inv flags0.
Proof. repeat split. constructor. Qed.

Lemma classify_items (arg : string) :
  match classify arg with
  | TakesValue assign => forall v st, items (assign v st) = items st
  | NoValue assign =>
      forall st, items (assign st) = items st
                 \/ items (assign st) = items st ++ [arg]
  end.
Proof.
  unfold classify.
  repeat match goal with
         | |- context [if ?b then _ else _] => destruct b
         end; simpl; auto.
Qed.

(** The items the loop collects are arguments, in the order of the
    command line. *)
Lemma parseArgs_items_sublist (args : list string) (st : flags) :
  exists pos, items (parseArgs st args) = items st ++ pos /\ pos `sublist_of` args.
Proof.
  revert st. induction args as [args IH] using (induction_ltof1 _ (@length _)).
  unfold ltof in IH. intros st.
  destruct args as [|arg args].
  { exists []. now rewrite app_nil_r. }
  simpl. pose proof (classify_items arg) as Hc.
  destruct (classify arg) as [assign | assign].
  - destruct args as [|v args].
    + exists []. rewrite Hc, app_nil_r. split; [reflexivity | apply sublist_nil_l].
    + destruct (IH args ltac:(simpl; lia) (assign (Some v) st)) as (pos & -> & Hsub).
      exists pos. rewrite Hc. split; [reflexivity | now do 2 apply sublist_cons].
  - destruct (IH args ltac:(simpl; lia) (assign st)) as (pos & -> & Hsub).
    destruct (Hc st) as [-> | ->].
    + exists pos. split; [reflexivity | now apply sublist_cons].
    + exists (arg :: pos). split; [now rewrite <- app_assoc | now apply sublist_skip].
Qed.

Ltac branches :=
  unfold classify;
  repeat match goal with
         | |- context [String.eqb ?a ?b] =>
             destruct (String.eqb_spec a b); [subst; try contradiction |]
         end;
  simpl;
  repeat match goal with
         | |- context [if ?b then _ else _] => destruct b
         end;
  simpl; auto.

Lemma classify_keeps_context (arg : string) :
  arg <> "--context" -> arg <> "-c" ->
  match classify arg with
  | TakesValue assign =>
      forall v st, contextExplicitlyProvided (assign v st)
                   = contextExplicitlyProvided st
                   /\ context (assign v st) = context st
  | NoValue assign =>
      forall st, contextExplicitlyProvided (assign st)
                 = contextExplicitlyProvided st
                 /\ context (assign st) = context st
  end.
Proof. intros H1 H2. branches. Qed.

Lemma classify_keeps_noAuto (arg : string) :
  arg <> "--no-auto-context" ->
  match classify arg with
  | TakesValue assign =>
      forall v st, noAutoContext (assign v st) = noAutoContext st
  | NoValue assign => forall st, noAutoContext (assign st) = noAutoContext st
  end.
Proof. intros H1. branches. Qed.

Lemma classify_keeps_format (arg : string) :
  arg <> "--format" ->
  match classify arg with
  | TakesValue assign => forall v st, format (assign v st) = format st
  | NoValue assign => forall st, format (assign st) = format st
  end.
Proof. intros H1. branches. Qed.

Lemma classify_noAuto_sticky (arg : string) :
  match classify arg with
  | TakesValue assign =>
      forall v st, noAutoContext st = true -> noAutoContext (assign v st) = true
  | NoValue assign =>
      forall st, noAutoContext st = true -> noAutoContext (assign st) = true
  end.
Proof.
  unfold classify.
  repeat match goal with
         | |- context [if ?b then _ else _] => destruct b
         end; simpl; auto.
Qed.

(** A property of the state that every branch keeps is kept by the loop. *)
Lemma parseArgs_keeps (P : flags -> Prop) (args : list string) :
  Forall (fun arg =>
            match classify arg with
            | TakesValue assign => forall v st, P st -> P (assign v st)
            | NoValue assign => forall st, P st -> P (assign st)
            end) args ->
  forall st, P st -> P (parseArgs st args).
Proof.
  induction args as [args IH] using (induction_ltof1 _ (@length _)).
  unfold ltof in IH. intros Hall st Hst.
  destruct args as [|arg args]; [assumption |].
  apply Forall_cons in Hall as [Harg Hall]. simpl.
  destruct (classify arg) as [assign | assign].
  - destruct args as [|v args]; [now apply Harg |].
    apply Forall_cons in Hall as [_ Hall].
    apply IH; [simpl; lia | assumption | now apply Harg].
  - apply IH; [simpl; lia | assumption | now apply Harg].
Qed.

Lemma no_context_flag (args : list string) :
  "--context" ∉ args -> "-c" ∉ args ->
  contextExplicitlyProvided (parseArgs flags0 args) = false
  /\ context (parseArgs flags0 args) = None.
Proof.
  intros H1 H2.
  apply (parseArgs_keeps
           (fun st => contextExplicitlyProvided st = false /\ context st = None));
    [| now split].
  apply Forall_forall. intros arg Hin.
  assert (arg <> "--context") as Ha by (intros ->; contradiction).
  assert (arg <> "-c") as Hb by (intros ->; contradiction).
  pose proof (classify_keeps_context arg Ha Hb) as Hc.
  destruct (classify arg) as [assign | assign].
  - intros v st H. destruct (Hc v st) as [-> ->]. assumption.
  - intros st H. destruct (Hc st) as [-> ->]. assumption.
Qed.

Lemma no_noAuto_flag (args : list string) :
  "--no-auto-context" ∉ args -> noAutoContext (parseArgs flags0 args) = false.
Proof.
  intros H1.
  apply (parseArgs_keeps (fun st => noAutoContext st = false)); [| reflexivity].
  apply Forall_forall. intros arg Hin.
  assert (arg <> "--no-auto-context") as Ha by (intros ->; contradiction).
  pose proof (classify_keeps_noAuto arg Ha) as Hc.
  destruct (classify arg); intros; rewrite Hc; assumption.
Qed.

Lemma no_format_flag (args : list string) :
  "--format" ∉ args -> format (parseArgs flags0 args) = "markdown".
Proof.
  intros H1.
  apply (parseArgs_keeps (fun st => format st = "markdown")); [| reflexivity].
  apply Forall_forall. intros arg Hin.
  assert (arg <> "--format") as Ha by (intros ->; contradiction).
  pose proof (classify_keeps_format arg Ha) as Hc.
  destruct (classify arg); intros; rewrite Hc; assumption.
Qed.

End CliExtras.

(** ** More on the refine client *)

Module ClientExtras.
Import Json Client StringFacts MoreStringFacts Inputs.

Lemma stringify_array (xs : list json) :
  stringify (JArr xs) = "[" +:+ join "," (stringify <$> xs) +:+ "]".
Proof.
  change (stringify (JArr xs))
    with ("[" +:+ join "," ((fix elems (l : list json) : list string :=
                               match l with
                               | [] => []
                               | x :: r => stringify x :: elems r
                               end) xs) +:+ "]").
  assert (H : (fix elems (l : list json) : list string :=
                 match l with
                 | [] => []
                 | x :: r => stringify x :: elems r
                 end) xs = stringify <$> xs).
  { induction xs as [|x xs IH]; [reflexivity |].
    rewrite fmap_cons, <- IH. reflexivity. }
  now rewrite H.
Qed.

Lemma stringify_object (props : list (string * json)) :
  stringify (JObj props)
  = "{" +:+ join "," ((fun kv => quote kv.1 +:+ ":" +:+ stringify kv.2) <$> props)
    +:+ "}".
Proof.
  change (stringify (JObj props))
    with ("{" +:+ join "," ((fix members (l : list (string * json)) : list string :=
                               match l with
                               | [] => []
                               | (k, x) :: r =>
                                   (quote k +:+ ":" +:+ stringify x) :: members r
                               end) props) +:+ "}").
  assert (H : (fix members (l : list (string * json)) : list string :=
                 match l with
                 | [] => []
                 | (k, x) :: r =>
                     (quote k +:+ ":" +:+ stringify x) :: members r
                 end) props
              = (fun kv => quote kv.1 +:+ ":" +:+ stringify kv.2) <$> props).
  { induction props as [|[k x] props IH]; [reflexivity |].
    rewrite fmap_cons, <- IH. reflexivity. }
  now rewrite H.
Qed.

Lemma stringify_strings (items : list string) :
  stringify (JArr (JStr <$> items)) = "[" +:+ join "," (quote <$> items) +:+ "]".
Proof.
  rewrite stringify_array, <- list_fmap_compose. reflexivity.
Qed.

(** The body on the wire: the members of one object, in the order items,
    context, useUserStories, useGherkin, each optional one present only
    when its option is truthy; the items are the quoted strings in the
    order given. *)
Theorem request_body_wire_format (items : list string) (opts : api_opts) :
  request_body items opts
  = "{" +:+ join ","
      ([quote "items" +:+ ":" +:+ "[" +:+ join "," (quote <$> items) +:+ "]"]
       ++ (if truthy_str (context opts)
           then [quote "context" +:+ ":" +:+ quote (default "" (context opts))]
           else [])
       ++ (if truthy_flag (useUserStories opts)
           then [quote "useUserStories" +:+ ":" +:+ "true"] else [])
       ++ (if truthy_flag (useGherkin opts)
           then [quote "useGherkin" +:+ ":" +:+ "true"] else []))
    +:+ "}".
Proof.
  unfold request_body. rewrite stringify_object.
  unfold request_object, truthy_str, truthy_flag.
  rewrite !fmap_app, fmap_cons. simpl snd. simpl fst. cbv beta.
  rewrite stringify_strings.
  destruct (context opts) as [[|c0 c]|], (truthy_flag (useUserStories opts)) eqn:U,
    (truthy_flag (useGherkin opts)) eqn:G;
    unfold truthy_flag in U, G; rewrite ?U, ?G; reflexivity.
Qed.

Lemma byteLength_ge (s : string) : String.length s <= byteLength s.
Proof.
  induction s as [|c s IH]; simpl; [lia |].
  destruct (nat_of_ascii c <? 128)%nat; lia.
Qed.

Lemma request_headers_lookup (items : list string) (opts : api_opts) :
  request_headers items opts !! "Content-Type" = Some "application/json"
  /\ request_headers items opts !! "User-Agent" = Some "refine-backlog-cli/1.0.2"
  /\ request_headers items opts !! "Content-Length"
     = Some (pretty (byteLength (request_body items opts)))
  /\ (forall h, is_Some (request_headers items opts !! h) ->
                h ∈ ["Content-Type"; "Content-Length"; "User-Agent";
                     "x-license-key"]).
Proof.
  unfold request_headers.
  split; [| split; [| split]].
  - destruct (licenseKey opts) as [k|]; [destruct (JsString.truthy k) |];
      rewrite ?lookup_insert_ne by discriminate; apply lookup_insert_eq.
  - destruct (licenseKey opts) as [k|]; [destruct (JsString.truthy k) |];
      rewrite !lookup_insert_ne by discriminate; apply lookup_insert_eq.
  - destruct (licenseKey opts) as [k|]; [destruct (JsString.truthy k) |];
      rewrite !lookup_insert_ne by discriminate; apply lookup_insert_eq.
  - intros h [v Hv].
    destruct (decide (h = "x-license-key")) as [-> | H1]; [set_solver |].
    destruct (decide (h = "Content-Type")) as [-> | H2]; [set_solver |].
    destruct (decide (h = "Content-Length")) as [-> | H3]; [set_solver |].
    destruct (decide (h = "User-Agent")) as [-> | H4]; [set_solver |].
    destruct (licenseKey opts) as [k|]; [destruct (JsString.truthy k) |];
      rewrite !lookup_insert_ne, lookup_empty in Hv by congruence; discriminate.
Qed.

(** The headers of the one request [callApi] writes: the content type,
    the user agent, and a content length that is the byte length of the
    body of that same request; a license key adds its header and changes
    none of the three. *)
Theorem request_headers_complete (JSON_parse : string -> option json)
  (net : request -> exchange) (items : list string) (opts : api_opts) :
  Forall (fun req =>
            method req = "POST"
            /\ hostname req = "refinebacklog.com"
            /\ path req = "/api/refine"
            /\ headers req !! "Content-Type" = Some "application/json"
            /\ headers req !! "User-Agent" = Some "refine-backlog-cli/1.0.2"
            /\ headers req !! "Content-Length"
               = Some (pretty (byteLength (body req)))
            /\ String.length (body req) <= byteLength (body req)
            /\ (forall h, is_Some (headers req !! h) ->
                          h ∈ ["Content-Type"; "Content-Length"; "User-Agent";
                               "x-license-key"]))
         (callApi JSON_parse net items opts).1.
Proof.
  unfold callApi. cbn [fst]. constructor; [| constructor].
  cbn [method hostname path headers body].
  destruct (request_headers_lookup items opts) as (H1 & H2 & H3 & H4).
  repeat (split; [first [reflexivity | assumption] |]).
  split; [apply byteLength_ge | exact H4].
Qed.

Lemma request_headers_complete_witness :
  "x-license-key" ∈ ["Content-Type"; "Content-Length"; "User-Agent";
                     "x-license-key"]
  /\ headers (Request "refinebacklog.com" "/api/refine" "POST"
                (request_headers ["Fix login"] (ApiOpts None None None (Some "k1")))
                (request_body ["Fix login"] (ApiOpts None None None (Some "k1"))))
       !! "Content-Length" = Some "23".
Proof.
  pose proof (request_headers_complete null_parse
                (fun _ => NetworkError "unreachable") ["Fix login"]
                (ApiOpts None None None (Some "k1"))) as H.
  apply Forall_inv in H as (_ & _ & _ & _ & _ & Hlen & _ & Hdom).
  split.
  - apply Hdom. exists "k1". reflexivity.
  - rewrite Hlen. reflexivity.
Defined.

(** The branches of the [end] handler, one lemma each. *)
Lemma on_end_generic (JSON_parse : string -> option json)
  (statusCode : option N) (data : string) :
  statusCode <> Some 429%N -> statusCode <> Some 402%N ->
  (statusCode = None \/ statusCode = Some 0%N
   \/ exists n, statusCode = Some n /\ (400 <= n)%N) ->
  on_end JSON_parse statusCode data
  = Reject ("API error " +:+ show_status statusCode +:+ ": " +:+ data).
Proof.
  intros H429 H402 Hgen. unfold on_end.
  destruct (decide (statusCode = Some 429%N)) as [|_]; [contradiction |].
  destruct (decide (statusCode = Some 402%N)) as [|_]; [contradiction |].
  destruct Hgen as [-> | [-> | (n & -> & Hn)]]; [reflexivity | reflexivity |].
  apply N.leb_le in Hn. rewrite Hn, orb_true_r. reflexivity.
Qed.

Lemma on_end_parse (JSON_parse : string -> option json) (n : N) (data : string) :
  (0 < n < 400)%N ->
  on_end JSON_parse (Some n) data
  = match JSON_parse data with
    | Some v => Resolve v
    | None => Reject ("Invalid JSON response: " +:+ slice0 200 data)
    end.
Proof.
  intros Hn. unfold on_end.
  destruct (decide (Some n = Some 429%N)) as [E|_]; [injection E; lia |].
  destruct (decide (Some n = Some 402%N)) as [E|_]; [injection E; lia |].
  destruct (N.eqb_spec n 0); [lia |].
  destruct (N.leb_spec 400 n); [lia |]. reflexivity.
Qed.

End ClientExtras.

(** ** The refine flow from the command line to the exit status *)

Module RefineExtras.
Import Context Cli Refine StringFacts MoreStringFacts ContextFacts Inputs
  MoreInputs Invariants CliExtras.

Lemma detected_truthy (JSON_parse : string -> option Json.json)
  (fs : gmap string file_state) (detected : string) :
  (detectProjectContext JSON_parse fs).1 = Some detected ->
  JsString.truthy detected = true.
Proof.
  rewrite ContextClaims.detect_result.
  pose proof (loop_inv fs (sources JSON_parse) acc0 budget_inv_acc0)
    as (_ & _ & _ & Hne).
  destruct (collected (loop fs acc0 (sources JSON_parse))) as [|c cs];
    [discriminate |].
  intros H. assert (detected = join " | " (c :: cs)) as -> by congruence.
  apply Forall_cons in Hne as [Hc _].
  rewrite join_cons. destruct c; [discriminate | reflexivity].
Qed.

Lemma main_not_early (JSON_parse : string -> option Json.json)
  (args : list string) (e : env) :
  "--help" ∉ args -> "-h" ∉ args -> "--version" ∉ args -> "-v" ∉ args ->
  Cli.main JSON_parse args e = run JSON_parse (parseArgs flags0 args) e.
Proof.
  intros H1 H2 H3 H4. unfold Cli.main.
  now rewrite !includes_not_elem by assumption.
Qed.

(** Help and version come first: with [--help] or [-h] anywhere on the
    command line the process prints the help and exits with status 0, and
    otherwise with [--version] or [-v] anywhere it prints the version and
    exits with status 0; no file is read and no request is written. *)
Theorem help_and_version_first (JSON_parse : string -> option Json.json)
  (show_json : Json.json -> string)
  (Number_toString : Z -> string) (thrown : Json.json -> string)
  (net : Client.request -> Client.exchange) (args : list string) (e : env) :
  ("--help" ∈ args \/ "-h" ∈ args ->
   Refine.main JSON_parse show_json Number_toString thrown net args e
   = Session [] [Help] (Some 0%Z))
  /\ ("--help" ∉ args -> "-h" ∉ args -> "--version" ∈ args \/ "-v" ∈ args ->
      Refine.main JSON_parse show_json Number_toString thrown net args e
      = Session [] [Out "refine-backlog-cli v1.0.2"] (Some 0%Z)).
Proof.
  split.
  - intros H. unfold Refine.main, Cli.main.
    assert (includes "--help" args || includes "-h" args = true) as ->;
      [| reflexivity].
    apply orb_true_iff. destruct H as [H | H]; [left | right];
      now apply includes_elem.
  - intros H1 H2 H. unfold Refine.main, Cli.main.
    rewrite (includes_not_elem _ _ H1), (includes_not_elem _ _ H2).
    assert (includes "--version" args || includes "-v" args = true) as ->;
      [| reflexivity].
    apply orb_true_iff. destruct H as [H | H]; [left | right];
      now apply includes_elem.
Qed.

Lemma help_and_version_first_witness :
  Refine.main no_parse (fun _ => "") pretty render_error
    (fun _ => Client.NetworkError "unreachable")
    ["Fix login"; "--context"; "--help"; "-v"] project_env
  = Session [] [Help] (Some 0%Z)
  /\ Refine.main no_parse (fun _ => "") pretty render_error
       (fun _ => Client.NetworkError "unreachable")
       ["--file"; "missing.txt"; "-v"] project_env
     = Session [] [Out "refine-backlog-cli v1.0.2"] (Some 0%Z).
Proof.
  split.
  - apply (help_and_version_first no_parse (fun _ => "") pretty render_error
             (fun _ => Client.NetworkError "unreachable")
             ["Fix login"; "--context"; "--help"; "-v"] project_env).
    left. do 2 apply list_elem_of_further. apply list_elem_of_here.
  - apply (help_and_version_first no_parse (fun _ => "") pretty render_error
             (fun _ => Client.NetworkError "unreachable")
             ["--file"; "missing.txt"; "-v"] project_env).
    + rewrite !not_elem_of_cons. repeat split; try discriminate.
      apply not_elem_of_nil.
    + rewrite !not_elem_of_cons. repeat split; try discriminate.
      apply not_elem_of_nil.
    + right. do 2 apply list_elem_of_further. apply list_elem_of_here.
Defined.

(** A file named by [--file] that does not exist ends the process with
    status 1 and one line on the diagnostic stream, whatever is piped in
    and whatever the other arguments are: no request is written. *)
Theorem missing_file_stops (JSON_parse : string -> option Json.json)
  (show_json : Json.json -> string)
  (Number_toString : Z -> string) (thrown : Json.json -> string)
  (net : Client.request -> Client.exchange) (args : list string) (e : env)
  (p : string) :
  "--help" ∉ args -> "-h" ∉ args -> "--version" ∉ args -> "-v" ∉ args ->
  filePath (parseArgs flags0 args) = Some p -> p <> "" ->
  fs e !! p = None ->
  Refine.main JSON_parse show_json Number_toString thrown net args e
  = Session [] [Err ("Error: File not found: " +:+ p)] (Some 1%Z).
Proof.
  intros H1 H2 H3 H4 Hp Hne Hfs. unfold Refine.main.
  rewrite (main_not_early _ _ _ H1 H2 H3 H4). unfold run, read_file.
  rewrite Hp. destruct p as [|c p]; [contradiction |]. simpl JsString.truthy.
  cbv iota. now rewrite Hfs.
Qed.

Lemma missing_file_stops_witness :
  Refine.main no_parse (fun _ => "") pretty render_error
    (fun _ => Client.NetworkError "unreachable")
    ["Fix login"; "-f"; "missing.txt"] backlog_env
  = Session [] [Err "Error: File not found: missing.txt"] (Some 1%Z).
Proof.
  apply (missing_file_stops no_parse (fun _ => "") pretty render_error
           (fun _ => Client.NetworkError "unreachable")
           ["Fix login"; "-f"; "missing.txt"] backlog_env "missing.txt");
    try absent;
    try reflexivity; discriminate.
Defined.

(** Without an item from any of the three sources the process prints the
    error and the help and exits with status 1: the detector is not run
    (nothing else is written) and no request is written.  A file that
    exists but holds blank lines only counts as no item. *)
Theorem no_items_usage_error (JSON_parse : string -> option Json.json)
  (show_json : Json.json -> string)
  (Number_toString : Z -> string) (thrown : Json.json -> string)
  (net : Client.request -> Client.exchange) (args : list string) (e : env) :
  "--help" ∉ args -> "-h" ∉ args -> "--version" ∉ args -> "-v" ∉ args ->
  items (parseArgs flags0 args) = [] ->
  (filePath (parseArgs flags0 args) = None
   \/ filePath (parseArgs flags0 args) = Some ""
   \/ exists p text, filePath (parseArgs flags0 args) = Some p /\ p <> ""
                     /\ fs e !! p = Some (Content text)
                     /\ file_lines text = []) ->
  readStdin (stdin e) = [] ->
  Refine.main JSON_parse show_json Number_toString thrown net args e
  = Session []
      [Err ("Error: No items provided. Pass items as arguments, "
            +:+ "use --file, or pipe via stdin." +:+ Markdown.nl);
       Help]
      (Some 1%Z).
Proof.
  intros H1 H2 H3 H4 Hitems Hfile Hstdin. unfold Refine.main.
  rewrite (main_not_early _ _ _ H1 H2 H3 H4). unfold run, read_file.
  rewrite Hitems, Hstdin.
  destruct Hfile as [-> | [-> | (p & text & -> & Hp & Hfs & Hlines)]];
    try reflexivity.
  destruct p as [|c p]; [contradiction |]. simpl JsString.truthy. cbv iota.
  rewrite Hfs. simpl. rewrite Hlines. reflexivity.
Qed.

Lemma no_items_usage_error_witness :
  Refine.main no_parse (fun _ => "") pretty render_error
    (fun _ => Client.NetworkError "unreachable")
    ["--gherkin"; "--file"; "README.md"]
    (Env (<["README.md" := Content (" " +:+ Markdown.nl +:+ "  ")]> ∅)
         (Some [" "; ""]))
  = Session []
      [Err ("Error: No items provided. Pass items as arguments, "
            +:+ "use --file, or pipe via stdin." +:+ Markdown.nl);
       Help]
      (Some 1%Z).
Proof.
  apply no_items_usage_error;
    try absent;
    try reflexivity.
  right; right. exists "README.md", (" " +:+ Markdown.nl +:+ "  ").
  repeat split; try reflexivity. discriminate.
Defined.

(** The items the loop collects are arguments of the command line, in its
    order, none of which starts with a dash; the format it leaves is
    never empty, and is markdown when [--format] is not given. *)
Theorem items_are_plain_arguments (args : list string) :
  items (parseArgs flags0 args) `sublist_of` args
  /\ Forall (fun a => startsWith "-" a = false) (items (parseArgs flags0 args))
  /\ format (parseArgs flags0 args) <> ""
  /\ ("--format" ∉ args -> format (parseArgs flags0 args) = "markdown").
Proof.
  destruct (parseArgs_items_sublist args flags0) as (pos & Hpos & Hsub).
  destruct (parseArgs_keeps_inv args flags0 flags_inv_flags0) as (_ & Hf & Hi).
  split; [now rewrite Hpos |]. split; [exact Hi |].
  split; [| apply no_format_flag].
  intros E. rewrite E in Hf. discriminate.
Qed.

Lemma items_are_plain_arguments_witness :
  format (parseArgs flags0 ["Fix login"; "-k"; "Add dark mode"; "--gherkin"])
  = "markdown"
  /\ items (parseArgs flags0 ["Fix login"; "-k"; "Add dark mode"; "--gherkin"])
     = ["Fix login"].
Proof.
  split; [| reflexivity].
  apply (items_are_plain_arguments
           ["Fix login"; "-k"; "Add dark mode"; "--gherkin"]).
  rewrite !not_elem_of_cons. repeat split; try discriminate.
  apply not_elem_of_nil.
Defined.

(** With [--no-auto-context] met as an argument of its own and no
    [--context], the detector is not run: nothing is written on the
    diagnostic stream and the request has no context, whatever the
    directory holds. *)
Theorem no_auto_context_sends_none (JSON_parse : string -> option Json.json)
  (pre rest : list string) (e : env) (its : list string)
  (opts : Client.api_opts) (written : list output) :
  reaches_end pre = true ->
  "--context" ∉ pre ++ "--no-auto-context" :: rest ->
  "-c" ∉ pre ++ "--no-auto-context" :: rest ->
  Cli.main JSON_parse (pre ++ "--no-auto-context" :: rest) e
  = CallApi its opts written ->
  written = [] /\ Client.context opts = None
  /\ Json.assoc "context" (Client.request_object its opts) = None.
Proof.
  intros Hpre Hc1 Hc2 Hmain.
  destruct (no_context_flag _ Hc1 Hc2) as [_ Hctx].
  assert (Hno : noAutoContext (parseArgs flags0 (pre ++ "--no-auto-context" :: rest))
                = true).
  { rewrite (CliClaims.parseArgs_app pre _ flags0 Hpre).
    change (parseArgs (parseArgs flags0 pre) ("--no-auto-context" :: rest))
      with (parseArgs (set_noAutoContext (parseArgs flags0 pre)) rest).
    apply (parseArgs_keeps (fun st => noAutoContext st = true)); [| reflexivity].
    apply Forall_forall. intros arg _. apply classify_noAuto_sticky. }
  apply CliClaims.main_run, CliClaims.run_items in Hmain
    as (_ & _ & _ & -> & ->).
  unfold choose_context. rewrite Hno, andb_false_r. cbn [fst snd].
  rewrite Hctx. split; [reflexivity |]. split; [reflexivity |].
  match goal with
  | |- Json.assoc _ (Client.request_object ?i ?o) = _ =>
      destruct (ClientClaims.request_object_fields i o) as (_ & -> & _)
  end.
  reflexivity.
Qed.

Lemma no_auto_context_sends_none_witness :
  Cli.main no_parse ["Fix login"; "--no-auto-context"] project_env
  = CallApi ["Fix login"] (Client.ApiOpts None (Some false) (Some false) None) []
  /\ Json.assoc "context"
       (Client.request_object ["Fix login"]
          (Client.ApiOpts None (Some false) (Some false) None)) = None.
Proof.
  split; [vm_compute; reflexivity |].
  apply (no_auto_context_sends_none no_parse ["Fix login"] [] project_env
           ["Fix login"] (Client.ApiOpts None (Some false) (Some false) None) []);
    [reflexivity | absent | absent | vm_compute; reflexivity].
Defined.

(** Without [--context], [-c] and [--no-auto-context] on the command
    line, the context of the request is what the detector returns (none
    when it returns nothing), and its diagnostic line, if any, is all that
    is written before the request. *)
Theorem auto_detection_by_default (JSON_parse : string -> option Json.json)
  (args : list string) (e : env) (its : list string)
  (opts : Client.api_opts) (written : list output) :
  "--context" ∉ args -> "-c" ∉ args -> "--no-auto-context" ∉ args ->
  Cli.main JSON_parse args e = CallApi its opts written ->
  Client.context opts = (detectProjectContext JSON_parse (fs e)).1
  /\ written = Err <$> (detectProjectContext JSON_parse (fs e)).2.
Proof.
  intros Hc1 Hc2 Hn Hmain.
  destruct (no_context_flag _ Hc1 Hc2) as [Hex Hctx].
  pose proof (no_noAuto_flag _ Hn) as Hno.
  apply CliClaims.main_run, CliClaims.run_items in Hmain
    as (_ & _ & _ & -> & ->).
  unfold choose_context. rewrite Hex, Hno, Hctx. simpl negb. cbv iota.
  pose proof (detected_truthy JSON_parse (fs e)) as Ht.
  destruct (detectProjectContext JSON_parse (fs e)) as [[d|] log]; simpl in *.
  - rewrite (Ht d eq_refl). split; reflexivity.
  - split; reflexivity.
Qed.

Lemma auto_detection_by_default_witness :
  Client.context
    (Client.ApiOpts (Some "A tool for backlogs") (Some false) (Some true) None)
  = (detectProjectContext no_parse (fs project_env)).1.
Proof.
  apply (auto_detection_by_default no_parse ["Fix login"; "--gherkin"] project_env
           ["Fix login"]
           (Client.ApiOpts (Some "A tool for backlogs") (Some false) (Some true) None)
           [Err "Auto-detected project context from: README.md (19 chars)"]);
    [absent | absent | absent | vm_compute; reflexivity].
Defined.

Lemma main_after_call (JSON_parse : string -> option Json.json)
  (show_json : Json.json -> string)
  (Number_toString : Z -> string) (thrown : Json.json -> string)
  (net : Client.request -> Client.exchange) (args : list string) (e : env)
  (its : list string) (opts : Client.api_opts) (w : list output) :
  Cli.main JSON_parse args e = CallApi its opts w ->
  Refine.main JSON_parse show_json Number_toString thrown net args e
  = match (Client.callApi JSON_parse net its opts).2 with
    | Client.Resolve result =>
        Session (Client.callApi JSON_parse net its opts).1
          (w ++ [(print_result show_json Number_toString thrown
                    (format (parseArgs flags0 args)) result).1])
          (Some (print_result show_json Number_toString thrown
                   (format (parseArgs flags0 args)) result).2)
    | Client.Reject message =>
        Session (Client.callApi JSON_parse net its opts).1
          (w ++ [Err ("Error: " +:+ message)]) (Some 1%Z)
    end.
Proof.
  intros Hmain. unfold Refine.main. rewrite Hmain.
  destruct (Client.callApi JSON_parse net its opts) as [reqs [v | m]];
    reflexivity.
Qed.

(** Every way the request can fail ends the process with status 1 after
    one line [Error: ...] on the diagnostic stream and nothing on standard
    output: a transport error with its message, status 429 and 402 with
    their messages, a missing status or another status from 400 on with
    the status and the body, and an unparsable body below 400 with its
    first 200 characters.  One request was written. *)
Theorem failed_request_exits_1 (JSON_parse : string -> option Json.json)
  (show_json : Json.json -> string)
  (Number_toString : Z -> string) (thrown : Json.json -> string)
  (net : Client.request -> Client.exchange) (args : list string) (e : env)
  (its : list string) (opts : Client.api_opts) (w : list output)
  (line : string) :
  Cli.main JSON_parse args e = CallApi its opts w ->
  match net (Client.Request "refinebacklog.com" "/api/refine" "POST"
               (Client.request_headers its opts) (Client.request_body its opts)) with
  | Client.NetworkError message => line = message
  | Client.Response statusCode data =>
      (statusCode = Some 429%N /\ line = Client.rate_limit_message)
      \/ (statusCode = Some 402%N /\ line = Client.too_many_items_message)
      \/ (statusCode <> Some 429%N /\ statusCode <> Some 402%N
          /\ (statusCode = None \/ statusCode = Some 0%N
              \/ exists n, statusCode = Some n /\ (400 <= n)%N)
          /\ line = "API error " +:+ Client.show_status statusCode +:+ ": " +:+ data)
      \/ (exists n, statusCode = Some n /\ (0 < n < 400)%N
                    /\ JSON_parse data = None
                    /\ line = "Invalid JSON response: " +:+ slice0 200 data)
  end ->
  Refine.main JSON_parse show_json Number_toString thrown net args e
  = Session [Client.Request "refinebacklog.com" "/api/refine" "POST"
               (Client.request_headers its opts) (Client.request_body its opts)]
      (w ++ [Err ("Error: " +:+ line)]) (Some 1%Z).
Proof.
  intros Hmain Hnet.
  rewrite (main_after_call _ _ _ _ _ _ _ _ _ _ Hmain). unfold Client.callApi.
  cbn [fst snd].
  destruct (net _) as [m | statusCode data].
  - now subst.
  - destruct Hnet as [[-> ->] | [[-> ->] | [(H1 & H2 & H3 & ->) | (n & -> & Hn & Hp & ->)]]].
    + reflexivity.
    + reflexivity.
    + now rewrite (ClientExtras.on_end_generic _ _ _ H1 H2 H3).
    + now rewrite (ClientExtras.on_end_parse _ _ _ Hn), Hp.
Qed.

Lemma failed_request_exits_1_witness :
  Refine.main null_parse (fun _ => "") pretty render_error
    (fun _ => Client.Response (Some 429%N) "slow down")
    ["Fix login"] project_env
  = Session [Client.Request "refinebacklog.com" "/api/refine" "POST"
               (Client.request_headers ["Fix login"]
                  (Client.ApiOpts (Some "A tool for backlogs") (Some false)
                                  (Some false) None))
               (Client.request_body ["Fix login"]
                  (Client.ApiOpts (Some "A tool for backlogs") (Some false)
                                  (Some false) None))]
      [Err "Auto-detected project context from: README.md (19 chars)";
       Err "Error: Rate limit hit. Upgrade at refinebacklog.com/pricing or pass --key"]
      (Some 1%Z).
Proof.
  apply (failed_request_exits_1 null_parse (fun _ => "") pretty render_error
           (fun _ => Client.Response (Some 429%N) "slow down")
           ["Fix login"] project_env ["Fix login"]
           (Client.ApiOpts (Some "A tool for backlogs") (Some false)
                           (Some false) None)
           [Err "Auto-detected project context from: README.md (19 chars)"]
           Client.rate_limit_message).
  - vm_compute. reflexivity.
  - left. split; reflexivity.
Defined.

(** Where the request is answered below 400 with a body that parses,
    [main] ends as [print_result] says. *)
Lemma main_resolved (JSON_parse : string -> option Json.json)
  (show_json : Json.json -> string)
  (Number_toString : Z -> string) (thrown : Json.json -> string)
  (net : Client.request -> Client.exchange) (args : list string) (e : env)
  (its : list string) (opts : Client.api_opts) (w : list output)
  (n : N) (data : string) (result : Json.json) :
  Cli.main JSON_parse args e = CallApi its opts w ->
  net (Client.Request "refinebacklog.com" "/api/refine" "POST"
         (Client.request_headers its opts) (Client.request_body its opts))
  = Client.Response (Some n) data ->
  (0 < n < 400)%N ->
  JSON_parse data = Some result ->
  Refine.main JSON_parse show_json Number_toString thrown net args e
  = Session [Client.Request "refinebacklog.com" "/api/refine" "POST"
               (Client.request_headers its opts) (Client.request_body its opts)]
      (w ++ [(print_result show_json Number_toString thrown
                (format (parseArgs flags0 args)) result).1])
      (Some (print_result show_json Number_toString thrown
               (format (parseArgs flags0 args)) result).2).
Proof.
  intros Hmain Hnet Hn Hp.
  rewrite (main_after_call _ _ _ _ _ _ _ _ _ _ Hmain). unfold Client.callApi.
  cbn [fst snd]. rewrite Hnet, (ClientExtras.on_end_parse _ _ _ Hn), Hp.
  reflexivity.
Qed.

Lemma print_result_json (show_json : Json.json -> string)
  (Number_toString : Z -> string) (thrown : Json.json -> string)
  (result : Json.json) :
  print_result show_json Number_toString thrown "json" result
  = (Out (show_json result), 0%Z).
Proof. reflexivity. Qed.

Lemma print_result_markdown (show_json : Json.json -> string)
  (Number_toString : Z -> string) (thrown : Json.json -> string)
  (format : string) (result : Json.json) :
  format <> "json" ->
  print_result show_json Number_toString thrown format result
  = match Untyped.render Number_toString result with
    | Some text => (Out text, 0%Z)
    | None => (Err ("Error: " +:+ thrown result), 1%Z)
    end.
Proof.
  intros H. unfold print_result.
  destruct (String.eqb_spec format "json"); [contradiction | reflexivity].
Qed.

(** A response below 400 whose body parses is printed inside the [try]
    block.  With the format exactly [json], the serialized response is
    one line on standard output and the process ends with status 0.  With
    any other format, so also when [--format] is not given, the markdown
    rendering of [result.items || result] is that line, unless rendering
    throws: then the line is [Error: ...] on the diagnostic stream and
    the status is 1.  Rendering throws on a body that is [null] or [{}];
    on a response whose items have the declared type it gives what
    [formatMarkdown] gives on those items.  One request was written. *)
Theorem parsed_response_printed (JSON_parse : string -> option Json.json)
  (show_json : Json.json -> string)
  (Number_toString : Z -> string) (thrown : Json.json -> string)
  (net : Client.request -> Client.exchange) (args : list string) (e : env)
  (its : list string) (opts : Client.api_opts) (w : list output)
  (n : N) (data : string) (result : Json.json) :
  Cli.main JSON_parse args e = CallApi its opts w ->
  net (Client.Request "refinebacklog.com" "/api/refine" "POST"
         (Client.request_headers its opts) (Client.request_body its opts))
  = Client.Response (Some n) data ->
  (0 < n < 400)%N ->
  JSON_parse data = Some result ->
  (format (parseArgs flags0 args) = "json" ->
   Refine.main JSON_parse show_json Number_toString thrown net args e
   = Session [Client.Request "refinebacklog.com" "/api/refine" "POST"
                (Client.request_headers its opts) (Client.request_body its opts)]
       (w ++ [Out (show_json result)]) (Some 0%Z))
  /\ (format (parseArgs flags0 args) <> "json" ->
      Refine.main JSON_parse show_json Number_toString thrown net args e
      = Session [Client.Request "refinebacklog.com" "/api/refine" "POST"
                   (Client.request_headers its opts)
                   (Client.request_body its opts)]
          (w ++ [match Untyped.render Number_toString result with
                 | Some text => Out text
                 | None => Err ("Error: " +:+ thrown result)
                 end])
          (Some (match Untyped.render Number_toString result with
                 | Some _ => 0%Z
                 | None => 1%Z
                 end)))
  /\ ("--format" ∉ args ->
      forall items : list Markdown.RefinedItem,
        result = Untyped.encode_response items ->
        Refine.main JSON_parse show_json Number_toString thrown net args e
        = Session [Client.Request "refinebacklog.com" "/api/refine" "POST"
                     (Client.request_headers its opts)
                     (Client.request_body its opts)]
            (w ++ [Out (Markdown.formatMarkdown items)]) (Some 0%Z))
  /\ ("--format" ∉ args ->
      result = Json.JNull \/ result = Json.JObj [] ->
      Refine.main JSON_parse show_json Number_toString thrown net args e
      = Session [Client.Request "refinebacklog.com" "/api/refine" "POST"
                   (Client.request_headers its opts)
                   (Client.request_body its opts)]
          (w ++ [Err ("Error: " +:+ thrown result)]) (Some 1%Z)).
Proof.
  intros Hmain Hnet Hn Hp.
  rewrite (main_resolved _ show_json Number_toString thrown _ _ _ _ _ _ _ _ _
             Hmain Hnet Hn Hp).
  split; [| split; [| split]].
  - intros ->. now rewrite print_result_json.
  - intros Hf. rewrite (print_result_markdown _ _ _ _ _ Hf).
    now destruct (Untyped.render Number_toString result).
  - intros Hf items ->. rewrite (no_format_flag _ Hf).
    rewrite print_result_markdown by discriminate.
    now rewrite UntypedFacts.render_encode.
  - intros Hf Hres. rewrite (no_format_flag _ Hf).
    rewrite print_result_markdown by discriminate.
    destruct Hres as [-> | ->]; reflexivity.
Qed.

Lemma parsed_response_printed_witness :
  Refine.main response_parse (fun _ => "{}") pretty render_error
    (fun _ => Client.Response (Some 200%N) "{response}")
    ["Fix login"; "--no-auto-context"] project_env
  = Session [Client.Request "refinebacklog.com" "/api/refine" "POST"
               (Client.request_headers ["Fix login"]
                  (Client.ApiOpts None (Some false) (Some false) None))
               (Client.request_body ["Fix login"]
                  (Client.ApiOpts None (Some false) (Some false) None))]
      ([] ++ [Out (Markdown.formatMarkdown [Markdown.full_item])]) (Some 0%Z)
  /\ Refine.main response_parse (fun _ => "{}") pretty render_error
       (fun _ => Client.Response (Some 200%N) "null")
       ["Fix login"; "--no-auto-context"] project_env
     = Session [Client.Request "refinebacklog.com" "/api/refine" "POST"
                  (Client.request_headers ["Fix login"]
                     (Client.ApiOpts None (Some false) (Some false) None))
                  (Client.request_body ["Fix login"]
                     (Client.ApiOpts None (Some false) (Some false) None))]
         ([] ++ [Err "Error: items.map is not a function"]) (Some 1%Z).
Proof.
  split.
  - destruct (parsed_response_printed response_parse (fun _ => "{}") pretty
                render_error
                (fun _ => Client.Response (Some 200%N) "{response}")
                ["Fix login"; "--no-auto-context"] project_env ["Fix login"]
                (Client.ApiOpts None (Some false) (Some false) None) []
                200%N "{response}"
                (Untyped.encode_response [Markdown.full_item])
                ltac:(vm_compute; reflexivity) eq_refl ltac:(lia) eq_refl)
      as (_ & _ & Htyped & _).
    apply Htyped; [absent | reflexivity].
  - destruct (parsed_response_printed response_parse (fun _ => "{}") pretty
                render_error
                (fun _ => Client.Response (Some 200%N) "null")
                ["Fix login"; "--no-auto-context"] project_env ["Fix login"]
                (Client.ApiOpts None (Some false) (Some false) None) []
                200%N "null" Json.JNull
                ltac:(vm_compute; reflexivity) eq_refl ltac:(lia) eq_refl)
      as (_ & _ & _ & Hthrows).
    apply Hthrows; [absent | now left].
Defined.

End RefineExtras.


(** ** More on the markdown formatter *)

Module MarkdownExtras.
Import Markdown StringFacts MoreStringFacts Inputs.

Lemma filter_all_false (f : string -> bool) (l : list string) :
  Forall (fun x => f x = false) l -> List.filter f l = [].
Proof.
  induction 1 as [|x l Hx _ IH]; simpl; [reflexivity |]. now rewrite Hx.
Qed.

Lemma filter_bullets (acs : list string) :
  List.filter (startsWith "- ") ((fun ac => "- " +:+ ac) <$> acs)
  = (fun ac => "- " +:+ ac) <$> acs.
Proof.
  induction acs as [|ac acs IH]; [reflexivity |].
  rewrite fmap_cons.
  change (List.filter (startsWith "- ")
            (("- " +:+ ac) :: ((fun ac => "- " +:+ ac) <$> acs)))
    with (("- " +:+ ac)
          :: List.filter (startsWith "- ") ((fun ac => "- " +:+ ac) <$> acs)).
  now rewrite IH.
Qed.

(** Among the elements pushed on [lines], those that start with a dash
    and a space are the bullets of the acceptance criteria. *)
Lemma item_lines_bullets (item : RefinedItem) :
  List.filter (startsWith "- ") (item_lines item) = Invariants.bullets item.
Proof.
  rewrite MarkdownClaims.item_lines_sections. unfold Invariants.bullets.
  rewrite !List.filter_app.
  unfold user_story_section, rationale_section, criteria_section, tags_section.
  destruct (truthy_str (userStory item)), (truthy_str (rationale item)),
    (nonempty (tags item));
    destruct (acceptanceCriteria item) as [[|ac acs]|]; simpl;
    rewrite ?filter_bullets, ?app_nil_r; reflexivity.
Qed.

(** Rendering two lists of items one after the other, with a separator
    between, is rendering their concatenation. *)
Theorem formatMarkdown_app (xs ys : list RefinedItem) :
  xs <> [] -> ys <> [] ->
  formatMarkdown (xs ++ ys)
  = formatMarkdown xs +:+ separator +:+ formatMarkdown ys.
Proof.
  intros Hx Hy. unfold formatMarkdown. rewrite fmap_app.
  apply join_app; intros E; apply fmap_nil_inv in E; contradiction.
Qed.

Lemma formatMarkdown_app_witness :
  formatMarkdown ([bare_item; empty_item] ++ [full_item])
  = formatMarkdown [bare_item; empty_item] +:+ separator
    +:+ formatMarkdown [full_item].
Proof. apply formatMarkdown_app; discriminate. Defined.

End MarkdownExtras.

(** ** More on the input collector *)

Module InputExtras.
Import Cli StringFacts MoreStringFacts Inputs Invariants.

Lemma split_nl_one (x : string) :
  contains LF x = false -> split_nl x = [x].
Proof.
  induction x as [|c x IH]; [reflexivity |].
  simpl. intros H. apply orb_false_iff in H as [Hc Hx].
  unfold LF in Hc. rewrite Hc, (IH Hx). reflexivity.
Qed.

Lemma split_nl_line (x rest : string) :
  contains LF x = false ->
  split_nl (x +:+ String LF rest) = x :: split_nl rest.
Proof.
  induction x as [|c x IH]; [reflexivity |].
  simpl. intros H. apply orb_false_iff in H as [Hc Hx].
  change (String c x +:+ String LF rest) with (String c (x +:+ String LF rest)).
  simpl split_nl. unfold LF in Hc. rewrite Hc, (IH Hx). reflexivity.
Qed.

Lemma split_nl_join (xs : list string) :
  xs <> [] -> Forall (fun x => contains LF x = false) xs ->
  split_nl (join Markdown.nl xs) = xs.
Proof.
  intros Hne H. induction H as [|x xs Hx Hxs IH]; [contradiction |].
  destruct xs as [|y xs]; [now apply split_nl_one |].
  change (join Markdown.nl (x :: y :: xs))
    with (x +:+ String LF (join Markdown.nl (y :: xs))).
  rewrite (split_nl_line _ _ Hx), IH by discriminate. reflexivity.
Qed.

Lemma split_nl_pieces (s : string) :
  Forall (fun x => contains LF x = false) (split_nl s).
Proof.
  induction s as [|c s IH]; [repeat constructor |].
  simpl. destruct (Ascii.eqb c "010") eqn:E.
  - constructor; [reflexivity | exact IH].
  - destruct (split_nl s) as [|h t]; [repeat constructor; simpl; unfold LF;
                                      now rewrite E |].
    apply Forall_cons in IH as [Hh Ht]. constructor; [| exact Ht].
    simpl. unfold LF. now rewrite E.
Qed.

Lemma contains_trimStart (c : ascii) (s : string) :
  contains c s = false -> contains c (trimStart s) = false.
Proof.
  induction s as [|a s IH]; [reflexivity |].
  simpl. intros H. destruct (is_ws a); [| exact H].
  apply orb_false_iff in H as [_ H]. now apply IH.
Qed.

Lemma contains_trimEnd (c : ascii) (s : string) :
  contains c s = false -> contains c (trimEnd s) = false.
Proof.
  induction s as [|a s IH]; [reflexivity |].
  simpl. intros H. apply orb_false_iff in H as [Ha H].
  destruct (is_ws a && falsy (trimEnd s)); [reflexivity |].
  simpl. now rewrite Ha, IH.
Qed.

Lemma contains_trim (c : ascii) (s : string) :
  contains c s = false -> contains c (trim s) = false.
Proof. intros H. now apply contains_trimEnd, contains_trimStart. Qed.

Lemma filter_fmap_clean (xs : list string) :
  Forall clean_item xs -> List.filter JsString.truthy (trim <$> xs) = xs.
Proof.
  induction 1 as [|x xs (Ht & Hne & _) _ IH]; [reflexivity |].
  rewrite fmap_cons, Ht. simpl. destruct x; [contradiction |]. simpl.
  now rewrite IH.
Qed.

Lemma file_lines_clean (text : string) : Forall clean_item (file_lines text).
Proof.
  unfold file_lines. apply Forall_forall. intros x Hx.
  apply list_elem_of_In, filter_In in Hx as [Hin Htruthy].
  apply list_elem_of_In, list_elem_of_fmap in Hin as (l & -> & Hl).
  pose proof (split_nl_pieces text) as Hp.
  rewrite Forall_forall in Hp. repeat split.
  - apply trim_idem.
  - intros E. rewrite E in Htruthy. discriminate.
  - apply contains_trim, Hp, Hl.
Qed.

(** Items written one per line are read back as they are: a list of
    items that are trimmed, not empty and free of line feeds, joined with
    line feeds, is what [--file] reads from that text.  The items read
    from any file are of that kind, so reading, writing and reading again
    changes nothing. *)
Theorem file_lines_round_trip (xs : list string) (text : string) :
  (Forall clean_item xs -> file_lines (join Markdown.nl xs) = xs)
  /\ Forall clean_item (file_lines text)
  /\ file_lines (join Markdown.nl (file_lines text)) = file_lines text.
Proof.
  assert (Hrt : forall ys, Forall clean_item ys ->
                           file_lines (join Markdown.nl ys) = ys).
  { intros ys Hys. destruct ys as [|y ys]; [reflexivity |].
    unfold file_lines. rewrite split_nl_join; [| discriminate |].
    - now apply filter_fmap_clean.
    - eapply Forall_impl; [exact Hys |]. now intros x (_ & _ & H). }
  split; [apply Hrt |]. split; [apply file_lines_clean |].
  apply Hrt, file_lines_clean.
Qed.

Lemma file_lines_round_trip_witness :
  file_lines (join Markdown.nl ["Fix login"; "Add dark mode"])
  = ["Fix login"; "Add dark mode"].
Proof.
  apply (file_lines_round_trip ["Fix login"; "Add dark mode"] "").
  repeat constructor; discriminate.
Defined.

End InputExtras.

(** ** The lines of the rendering *)

Module RenderingExtras.
Import Markdown StringFacts MoreStringFacts Inputs Invariants InputExtras.

Lemma split_nl_nonempty (s : string) : split_nl s <> [].
Proof.
  induction s as [|c s IH]; [discriminate |].
  simpl. destruct (Ascii.eqb c "010"); [discriminate |].
  now destruct (split_nl s).
Qed.

(** Splitting at line feeds distributes over a line feed. *)
Lemma split_nl_app (a b : string) :
  split_nl (a +:+ String LF b) = split_nl a ++ split_nl b.
Proof.
  induction a as [|c a IH]; [reflexivity |].
  change (String c a +:+ String LF b) with (String c (a +:+ String LF b)).
  simpl split_nl. rewrite IH.
  destruct (Ascii.eqb c "010"); [reflexivity |].
  pose proof (split_nl_nonempty a) as Hne.
  now destruct (split_nl a).
Qed.

Lemma split_nl_join_concat (xs : list string) :
  xs <> [] -> split_nl (join nl xs) = concat (split_nl <$> xs).
Proof.
  intros Hne. induction xs as [|x xs IH]; [contradiction |].
  destruct xs as [|y xs].
  - simpl. now rewrite app_nil_r.
  - change (join nl (x :: y :: xs)) with (x +:+ String LF (join nl (y :: xs))).
    rewrite split_nl_app, IH by discriminate. reflexivity.
Qed.

Lemma contains_app (c : ascii) (a b : string) :
  contains c (a +:+ b) = contains c a || contains c b.
Proof.
  induction a as [|x a IH]; [reflexivity |].
  change (contains c (String x (a +:+ b))
          = contains c (String x a) || contains c b).
  simpl. now rewrite IH, orb_assoc.
Qed.

Lemma contains_join (c : ascii) (sep : string) (xs : list string) :
  contains c sep = false -> Forall (fun x => contains c x = false) xs ->
  contains c (join sep xs) = false.
Proof.
  intros Hsep H. induction H as [|x xs Hx _ IH]; [reflexivity |].
  destruct xs as [|y xs]; [exact Hx |].
  change (join sep (x :: y :: xs)) with (x +:+ sep +:+ join sep (y :: xs)).
  now rewrite !contains_app, Hx, Hsep, IH.
Qed.

Lemma filter_pushed (xs : list string) :
  Forall pushed xs ->
  List.filter (startsWith "- ") (concat (split_nl <$> xs))
  = List.filter (startsWith "- ") xs.
Proof.
  induction 1 as [|x xs Hx _ IH]; [reflexivity |].
  rewrite fmap_cons. cbn [concat]. rewrite List.filter_app, IH.
  destruct Hx as [Hx | (y & -> & Hy & Hs)].
  - rewrite (split_nl_one x Hx). cbn [List.filter app].
    now destruct (startsWith "- " x).
  - change (split_nl (String LF y)) with ("" :: split_nl y).
    rewrite (split_nl_one y Hy). cbn [List.filter]. rewrite Hs. reflexivity.
Qed.

Lemma one_line_false (x : string) : one_line x = true -> contains LF x = false.
Proof. unfold one_line. apply negb_true_iff. Qed.

Lemma forallb_one_line (xs : list string) :
  forallb one_line xs = true -> Forall (fun x => contains LF x = false) xs.
Proof.
  intros H. apply Forall_forall. intros x Hx.
  apply one_line_false. rewrite forallb_forall in H.
  now apply H, list_elem_of_In.
Qed.

Lemma pushed_plain (p x : string) :
  contains LF p = false -> contains LF x = false -> pushed (p +:+ x).
Proof. intros Hp Hx. left. now rewrite contains_app, Hp, Hx. Qed.

Lemma pushed_led (p x : string) :
  contains LF p = false -> startsWith "- " (p +:+ x) = false ->
  contains LF x = false -> pushed (nl +:+ p +:+ x).
Proof.
  intros Hp Hs Hx. right. exists (p +:+ x).
  split; [reflexivity |]. split; [| exact Hs].
  now rewrite contains_app, Hp, Hx.
Qed.

(** What the callback pushes for an item without line feeds. *)
Lemma item_lines_pushed (item : RefinedItem) :
  single_line_item item = true -> Forall pushed (item_lines item).
Proof.
  unfold single_line_item. rewrite !andb_true_iff.
  intros [[[[[[[Ht%one_line_false Hp%one_line_false] He%one_line_false]
                 Hpr%one_line_false] Hus%one_line_false] Hr%one_line_false]
             Hac%forallb_one_line] Htg%forallb_one_line].
  rewrite MarkdownClaims.item_lines_sections.
  unfold user_story_section, rationale_section, criteria_section, tags_section.
  repeat (apply Forall_app; split).
  - apply Forall_cons_2; [| apply Forall_nil_2].
    now apply pushed_plain.
  - destruct (truthy_str (userStory item)); [| apply Forall_nil_2].
    apply Forall_cons_2; [| apply Forall_nil_2].
    now apply pushed_led.
  - apply Forall_cons_2; [now apply pushed_led |].
    apply Forall_cons_2; [| apply Forall_nil_2].
    apply pushed_led; [reflexivity | reflexivity |].
    now rewrite !contains_app, He, Hpr.
  - destruct (truthy_str (rationale item)); [| apply Forall_nil_2].
    apply Forall_cons_2; [| apply Forall_nil_2].
    now apply pushed_plain.
  - destruct (nonempty (acceptanceCriteria item)); [| apply Forall_nil_2].
    apply Forall_cons_2.
    + right. exists "**Acceptance Criteria:**". repeat split.
    + apply Forall_fmap. eapply Forall_impl; [exact Hac |].
      intros ac H. now apply pushed_plain.
  - destruct (nonempty (tags item)); [| apply Forall_nil_2].
    apply Forall_cons_2; [| apply Forall_nil_2].
    apply pushed_led; [reflexivity | reflexivity |].
    now apply contains_join.
Qed.

Lemma item_lines_nonempty (item : RefinedItem) : item_lines item <> [].
Proof. rewrite MarkdownClaims.item_lines_sections. discriminate. Qed.

(** The lines of the rendering of one item that are bullets. *)
Lemma render_item_bullets (item : RefinedItem) :
  single_line_item item = true ->
  List.filter (startsWith "- ") (split_nl (render_item item)) = bullets item.
Proof.
  intros H. unfold render_item.
  rewrite (split_nl_join_concat _ (item_lines_nonempty item)).
  rewrite (filter_pushed _ (item_lines_pushed item H)).
  apply MarkdownExtras.item_lines_bullets.
Qed.

Lemma render_item_heading (item : RefinedItem) :
  single_line_item item = true ->
  head (split_nl (render_item item)) = Some ("## " +:+ title item).
Proof.
  intros H. unfold render_item.
  rewrite (split_nl_join_concat _ (item_lines_nonempty item)).
  rewrite MarkdownClaims.item_lines_sections.
  rewrite fmap_app, concat_app, fmap_cons. cbn [fmap list_fmap concat].
  rewrite split_nl_one; [reflexivity |].
  unfold single_line_item in H. rewrite !andb_true_iff in H.
  destruct H as [[[[[[[Ht%one_line_false _] _] _] _] _] _] _].
  now rewrite contains_app, Ht.
Qed.

Lemma split_nl_separator (a b : string) :
  split_nl (a +:+ separator +:+ b) = split_nl a ++ [""; "---"; ""] ++ split_nl b.
Proof.
  change (a +:+ separator +:+ b)
    with (a +:+ String LF (String LF ("---" +:+ String LF (String LF b)))).
  rewrite split_nl_app. reflexivity.
Qed.

(** In the output for items whose fields hold no line feed, the lines
    that start with a dash and a space are the acceptance criteria of the
    items, one bullet each, item after item and in the order given,
    whatever the other fields hold; the rendering of each item has these
    bullets and starts with the heading line of its title. *)
Theorem rendered_bullets_are_criteria (items : list RefinedItem) :
  forallb single_line_item items = true ->
  List.filter (startsWith "- ") (split_nl (formatMarkdown items))
  = concat (bullets <$> items)
  /\ (forall item, item ∈ items ->
        List.filter (startsWith "- ") (split_nl (render_item item))
        = (fun ac => "- " +:+ ac) <$> elems (acceptanceCriteria item)
        /\ head (split_nl (render_item item)) = Some ("## " +:+ title item)).
Proof.
  intros H. split.
  - induction items as [|x items IH]; [reflexivity |].
    cbn [forallb] in H. apply andb_true_iff in H as [Hx Hitems].
    destruct items as [|y items].
    + change (formatMarkdown [x]) with (render_item x).
      rewrite (render_item_bullets x Hx). simpl. now rewrite app_nil_r.
    + rewrite MarkdownClaims.formatMarkdown_cons, split_nl_separator.
      rewrite !List.filter_app, (render_item_bullets x Hx), (IH Hitems).
      reflexivity.
  - intros item Hin. rewrite forallb_forall in H.
    apply list_elem_of_In, H in Hin.
    split; [now apply render_item_bullets | now apply render_item_heading].
Qed.

Lemma rendered_bullets_are_criteria_witness :
  List.filter (startsWith "- ")
    (split_nl (formatMarkdown [full_item; bare_item; full_item]))
  = ["- Toggle exists"; "- Choice persists"; "- Toggle exists";
     "- Choice persists"].
Proof.
  apply (rendered_bullets_are_criteria [full_item; bare_item; full_item]).
  reflexivity.
Defined.

End RenderingExtras.


(** ** The enforcement flow from the command line to the exit status *)

Module SpeclintExtras.
Import Speclint StringFacts MoreStringFacts Inputs MoreInputs.

(** A property of the state that every branch keeps is kept by the loop
    of [runEnforce]. *)
Lemma enforce_parse_keeps (P : Enforce.flags -> Prop) (args : list string) :
  Forall (fun arg =>
            match Enforce.classify arg with
            | Some assign => forall v st, P st -> P (assign v st)
            | None => True
            end) args ->
  forall st, P st -> P (Enforce.parseArgs st args).
Proof.
  induction args as [args IH] using (induction_ltof1 _ (@length _)).
  unfold ltof in IH. intros Hall st Hst.
  destruct args as [|arg args]; [assumption |].
  apply Forall_cons in Hall as [Harg Hall]. simpl.
  destruct (Enforce.classify arg) as [assign |].
  - destruct args as [|v args]; [now apply Harg |].
    apply Forall_cons in Hall as [_ Hall].
    apply IH; [simpl; lia | assumption | now apply Harg].
  - apply IH; [simpl; lia | assumption | assumption].
Qed.

Ltac enforce_branches :=
  unfold Enforce.classify;
  repeat match goal with
         | |- context [String.eqb ?a ?b] =>
             destruct (String.eqb_spec a b); [subst; try contradiction |]
         end;
  simpl; auto.

Lemma no_issue_flag (GITHUB_TOKEN : option string) (args : list string) :
  "--issue" ∉ args ->
  Enforce.issueNumber (Enforce.parseArgs (Enforce.flags0 GITHUB_TOKEN) args) = None.
Proof.
  intros H.
  apply (enforce_parse_keeps (fun st => Enforce.issueNumber st = None));
    [| reflexivity].
  apply Forall_forall. intros arg Hin.
  assert (arg <> "--issue") as Ha by (intros ->; contradiction).
  enforce_branches.
Qed.

Lemma no_repo_flag (GITHUB_TOKEN : option string) (args : list string) :
  "--repo" ∉ args ->
  Enforce.repo (Enforce.parseArgs (Enforce.flags0 GITHUB_TOKEN) args) = None.
Proof.
  intros H.
  apply (enforce_parse_keeps (fun st => Enforce.repo st = None));
    [| reflexivity].
  apply Forall_forall. intros arg Hin.
  assert (arg <> "--repo") as Ha by (intros ->; contradiction).
  enforce_branches.
Qed.

Lemma no_token_flag (GITHUB_TOKEN : option string) (args : list string) :
  "--github-token" ∉ args ->
  Enforce.githubToken (Enforce.parseArgs (Enforce.flags0 GITHUB_TOKEN) args)
  = GITHUB_TOKEN.
Proof.
  intros H.
  apply (enforce_parse_keeps (fun st => Enforce.githubToken st = GITHUB_TOKEN));
    [| reflexivity].
  apply Forall_forall. intros arg Hin.
  assert (arg <> "--github-token") as Ha by (intros ->; contradiction).
  enforce_branches.
Qed.

(** [--issue] and [--repo] are checked before anything is sent: when
    one of them is not on the command line the process writes the two
    usage lines and exits with status 1 without a request.  That is also
    what [enforce --help] does: with [enforce] first, [main] hands the
    rest to [runEnforce] and shows no help. *)
Theorem enforce_requires_issue_and_repo
  (URL_parse : string -> string + URL) (parse_issue : string -> option Issue)
  (parse_lint : string -> option Enforce.LintApiResponse)
  (parse_message : string -> string) (GITHUB_TOKEN : option string)
  (net : fetch_request -> fetch_reply) (args : list string) :
  "--issue" ∉ args \/ "--repo" ∉ args ->
  runEnforce URL_parse parse_issue parse_lint parse_message GITHUB_TOKEN net args
  = ([], usage_lines, 1%Z)
  /\ main URL_parse parse_issue parse_lint parse_message GITHUB_TOKEN net ("enforce" :: args)
     = Some ([], usage_lines, 1%Z).
Proof.
  intros H.
  assert (Hrun : runEnforce URL_parse parse_issue parse_lint parse_message GITHUB_TOKEN
                   net args = ([], usage_lines, 1%Z)).
  { unfold runEnforce. destruct H as [H | H].
    - now rewrite (no_issue_flag _ _ H).
    - rewrite (no_repo_flag _ _ H).
      now destruct (Enforce.issueNumber _). }
  split; [exact Hrun |]. unfold main. simpl. now rewrite Hrun.
Qed.

Lemma enforce_requires_issue_and_repo_witness :
  main plain_url issue_parse lint_parse syntax_message None both_ok ["enforce"; "--help"]
  = Some ([], usage_lines, 1%Z).
Proof.
  apply (enforce_requires_issue_and_repo plain_url issue_parse lint_parse syntax_message
           None both_ok ["--help"]).
  left. absent.
Defined.

(** [runEnforce] once the two required flags hold non-empty values. *)
Lemma runEnforce_valid (URL_parse : string -> string + URL)
  (parse_issue : string -> option Issue)
  (parse_lint : string -> option Enforce.LintApiResponse)
  (parse_message : string -> string) (GITHUB_TOKEN : option string)
  (net : fetch_request -> fetch_reply) (args : list string)
  (issueNumber repo : string) :
  Enforce.issueNumber (Enforce.parseArgs (Enforce.flags0 GITHUB_TOKEN) args)
  = Some issueNumber ->
  Enforce.repo (Enforce.parseArgs (Enforce.flags0 GITHUB_TOKEN) args) = Some repo ->
  issueNumber <> "" -> repo <> "" ->
  runEnforce URL_parse parse_issue parse_lint parse_message GITHUB_TOKEN net args
  = let st := Enforce.parseArgs (Enforce.flags0 GITHUB_TOKEN) args in
    match fetch_issue URL_parse parse_issue parse_message net
            (Enforce.githubToken st) repo issueNumber with
    | (reqs1, inl line) => (reqs1, [Cli.Err line], 1%Z)
    | (reqs1, inr (issueTitle, issueBody, issueLabels)) =>
        match score_issue URL_parse parse_lint parse_message net
                (Enforce.licenseKey st) issueTitle issueBody issueLabels with
        | (reqs2, inl line) => (reqs1 ++ reqs2, [Cli.Err line], 1%Z)
        | (reqs2, inr lintResult) =>
            (reqs1 ++ reqs2,
             Cli.Out <$> (Enforce.verdict issueNumber repo issueTitle
                            (Enforce.minScore st)
                            (Enforce.normalize lintResult)).1,
             (Enforce.verdict issueNumber repo issueTitle
                (Enforce.minScore st) (Enforce.normalize lintResult)).2)
        end
    end.
Proof.
  intros Hi Hr Hin Hrn. unfold runEnforce. rewrite Hi, Hr.
  destruct issueNumber as [|a i]; [contradiction |].
  destruct repo as [|b r]; [contradiction |].
  cbn [JsString.truthy JsString.falsy negb andb]. cbv zeta.
  destruct (fetch_issue _ _ _ _ _ _ _) as [reqs1 [line | [[t b0] ls]]];
    [reflexivity |].
  destruct (score_issue _ _ _ _ _ _ _ _) as [reqs2 [line | lr]]; [reflexivity |].
  destruct (Enforce.verdict _ _ _ _ _). reflexivity.
Qed.

(** The first [try] block when the URL of the issue parses. *)
Lemma fetch_issue_parsed (URL_parse : string -> string + URL)
  (parse_issue : string -> option Issue)
  (parse_message : string -> string) (net : fetch_request -> fetch_reply)
  (githubToken : option string) (repo issueNumber : string) (u : URL) :
  URL_parse (ghUrl repo issueNumber) = inr u ->
  fetch_issue URL_parse parse_issue parse_message net githubToken repo issueNumber
  = ([FetchRequest (hostname u) (pathname u +:+ search u) "GET"
        (github_headers githubToken) None],
     match net (FetchRequest (hostname u) (pathname u +:+ search u) "GET"
                  (github_headers githubToken) None) with
     | FetchError message => inl ("Error fetching GitHub issue: " +:+ message)
     | FetchEnd statusCode data =>
         if (default 0%N statusCode =? 404)%N then
           inl ("Error: Issue #" +:+ issueNumber +:+ " not found in " +:+ repo)
         else if (400 <=? default 0%N statusCode)%N then
           inl ("Error: GitHub API returned " +:+ pretty (default 0%N statusCode)
                +:+ ": " +:+ slice0 200 data)
         else
           match parse_issue data with
           | None => inl ("Error fetching GitHub issue: " +:+ parse_message data)
           | Some issue =>
               inr (match title issue with
                    | Some t => if JsString.truthy t then t else ""
                    | None => ""
                    end,
                    match issue_body issue with
                    | Some b => if JsString.truthy b then b else ""
                    | None => ""
                    end,
                    default [] (labels issue))
           end
     end).
Proof.
  intros Hu. unfold fetch_issue, fetchUrl. rewrite Hu.
  cbn [method headers body]. destruct (net _); reflexivity.
Qed.

(** The first [try] block when the URL of the issue does not parse. *)
Lemma fetch_issue_unparsed (URL_parse : string -> string + URL)
  (parse_issue : string -> option Issue)
  (parse_message : string -> string) (net : fetch_request -> fetch_reply)
  (githubToken : option string) (repo issueNumber message : string) :
  URL_parse (ghUrl repo issueNumber) = inl message ->
  fetch_issue URL_parse parse_issue parse_message net githubToken repo issueNumber
  = ([], inl ("Error fetching GitHub issue: " +:+ message)).
Proof. intros Hu. unfold fetch_issue, fetchUrl. now rewrite Hu. Qed.

Lemma github_headers_lookup (githubToken : option string) :
  github_headers githubToken !! "Accept" = Some "application/vnd.github.v3+json"
  /\ github_headers githubToken !! "User-Agent" = Some "speclint/1.0.0"
  /\ github_headers githubToken !! "Authorization"
     = match githubToken with
       | Some (String c t) => Some ("Bearer " +:+ String c t)
       | _ => None
       end.
Proof.
  unfold github_headers.
  destruct githubToken as [[|c t]|]; simpl;
    repeat split;
    rewrite ?lookup_insert_ne by discriminate;
    first [apply lookup_insert_eq | apply lookup_empty
          | rewrite lookup_insert_ne by discriminate; apply lookup_insert_eq
          | rewrite !lookup_insert_ne by discriminate; apply lookup_empty ].
Qed.

Lemma lintBody_wire (issueTitle issueBody : string) (issueLabels : list string) :
  lintBody issueTitle issueBody issueLabels
  = "{" +:+ Client.quote "issues" +:+ ":[{" +:+ Client.quote "title" +:+ ":"
    +:+ Client.quote issueTitle +:+ "," +:+ Client.quote "body" +:+ ":"
    +:+ Client.quote issueBody +:+ "," +:+ Client.quote "labels" +:+ ":["
    +:+ join "," (Client.quote <$> issueLabels) +:+ "]}],"
    +:+ Client.quote "preserve_structure" +:+ ":true}".
Proof.
  unfold lintBody.
  rewrite ClientExtras.stringify_object. rewrite !fmap_cons, fmap_nil.
  cbn [fst snd]. rewrite ClientExtras.stringify_array.
  rewrite !fmap_cons, fmap_nil.
  rewrite ClientExtras.stringify_object. rewrite !fmap_cons, fmap_nil.
  cbn [fst snd]. rewrite ClientExtras.stringify_strings.
  cbn [join]. rewrite !string_app_assoc. reflexivity.
Qed.

Lemma lintBody_truthy (issueTitle issueBody : string) (issueLabels : list string) :
  JsString.truthy (lintBody issueTitle issueBody issueLabels) = true.
Proof. rewrite lintBody_wire. reflexivity. Qed.

(** The second [try] block when the address of the scoring endpoint
    parses. *)
Lemma score_issue_parsed (URL_parse : string -> string + URL)
  (parse_lint : string -> option Enforce.LintApiResponse)
  (parse_message : string -> string) (net : fetch_request -> fetch_reply)
  (licenseKey : option string) (issueTitle issueBody : string)
  (issueLabels : list string) (u : URL) :
  URL_parse "https://speclint.ai/api/lint" = inr u ->
  score_issue URL_parse parse_lint parse_message net licenseKey issueTitle
    issueBody issueLabels
  = ([FetchRequest (hostname u) (pathname u +:+ search u) "POST"
        (lint_headers licenseKey (lintBody issueTitle issueBody issueLabels))
        (Some (lintBody issueTitle issueBody issueLabels))],
     match net (FetchRequest (hostname u) (pathname u +:+ search u) "POST"
                  (lint_headers licenseKey
                     (lintBody issueTitle issueBody issueLabels))
                  (Some (lintBody issueTitle issueBody issueLabels))) with
     | FetchError message => inl ("Error calling lint API: " +:+ message)
     | FetchEnd statusCode data =>
         if (400 <=? default 0%N statusCode)%N then
           inl ("Error: Lint API returned " +:+ pretty (default 0%N statusCode)
                +:+ ": " +:+ slice0 200 data)
         else
           match parse_lint data with
           | None => inl ("Error calling lint API: " +:+ parse_message data)
           | Some lintResult => inr lintResult
           end
     end).
Proof.
  intros Hu. unfold score_issue, fetchUrl. rewrite Hu.
  cbn [method headers body]. rewrite lintBody_truthy.
  destruct (net _); reflexivity.
Qed.

(** Each [try] block writes one request at most, and one when it goes
    through. *)
Lemma fetch_issue_length (URL_parse : string -> string + URL)
  (parse_issue : string -> option Issue)
  (parse_message : string -> string) (net : fetch_request -> fetch_reply)
  (githubToken : option string) (repo issueNumber : string) :
  match fetch_issue URL_parse parse_issue parse_message net githubToken repo
          issueNumber with
  | (reqs, inl _) => length reqs <= 1
  | (reqs, inr _) => length reqs = 1
  end.
Proof.
  destruct (URL_parse (ghUrl repo issueNumber)) as [m | u] eqn:Hu.
  - rewrite (fetch_issue_unparsed _ _ _ _ _ _ _ _ Hu). simpl. lia.
  - rewrite (fetch_issue_parsed _ _ _ _ _ _ _ u Hu).
    match goal with
    | |- context [match ?r with inl _ => _ | inr _ => _ end] => destruct r
    end; simpl; lia.
Qed.

Lemma score_issue_length (URL_parse : string -> string + URL)
  (parse_lint : string -> option Enforce.LintApiResponse)
  (parse_message : string -> string) (net : fetch_request -> fetch_reply)
  (licenseKey : option string) (issueTitle issueBody : string)
  (issueLabels : list string) :
  match score_issue URL_parse parse_lint parse_message net licenseKey issueTitle
          issueBody issueLabels with
  | (reqs, inl _) => length reqs <= 1
  | (reqs, inr _) => length reqs = 1
  end.
Proof.
  destruct (URL_parse "https://speclint.ai/api/lint") as [m | u] eqn:Hu.
  - unfold score_issue, fetchUrl. rewrite Hu. simpl. lia.
  - rewrite (score_issue_parsed _ _ _ _ _ _ _ _ u Hu).
    match goal with
    | |- context [match ?r with inl _ => _ | inr _ => _ end] => destruct r
    end; simpl; lia.
Qed.

Lemma lint_headers_lookup (licenseKey : option string) (body : string) :
  lint_headers licenseKey body !! "Content-Type" = Some "application/json"
  /\ lint_headers licenseKey body !! "User-Agent" = Some "speclint/1.0.0"
  /\ lint_headers licenseKey body !! "Content-Length"
     = Some (pretty (Client.byteLength body))
  /\ lint_headers licenseKey body !! "x-license-key"
     = match licenseKey with
       | Some (String c k) => Some (String c k)
       | _ => None
       end.
Proof.
  unfold lint_headers.
  destruct licenseKey as [[|c k]|]; cbn [JsString.truthy JsString.falsy negb];
    repeat split;
    first [ apply lookup_insert_eq
          | rewrite lookup_insert_ne by discriminate; apply lookup_insert_eq
          | rewrite !lookup_insert_ne by discriminate; apply lookup_insert_eq
          | rewrite !lookup_insert_ne by discriminate; apply lookup_empty ].
Qed.

(** With both required flags given non-empty values, the first request
    is a GET to the host and the path (with the query) that the
    runtime's [URL] reads from the address of the issue at the tracker,
    without a body, with the [Accept] and [User-Agent] headers, and with
    [Authorization: Bearer] exactly when the token is a non-empty string;
    the token is that of the environment unless [--github-token] is
    given.  One more request is written at most.  When the address does
    not parse, no request is written and the process ends with status 1
    after one line on the diagnostic stream. *)
Theorem issue_request_shape (URL_parse : string -> string + URL)
  (parse_issue : string -> option Issue)
  (parse_lint : string -> option Enforce.LintApiResponse)
  (parse_message : string -> string) (GITHUB_TOKEN : option string)
  (net : fetch_request -> fetch_reply) (args : list string)
  (issueNumber repo : string) :
  Enforce.issueNumber (Enforce.parseArgs (Enforce.flags0 GITHUB_TOKEN) args)
  = Some issueNumber ->
  Enforce.repo (Enforce.parseArgs (Enforce.flags0 GITHUB_TOKEN) args) = Some repo ->
  issueNumber <> "" -> repo <> "" ->
  (forall u : URL,
      URL_parse ("https://api.github.com/repos/" +:+ repo +:+ "/issues/"
                 +:+ issueNumber) = inr u ->
      exists token more,
        (runEnforce URL_parse parse_issue parse_lint parse_message GITHUB_TOKEN
           net args).1.1
        = FetchRequest (hostname u) (pathname u +:+ search u) "GET"
            (github_headers token) None :: more
        /\ length more <= 1
        /\ token = Enforce.githubToken
                     (Enforce.parseArgs (Enforce.flags0 GITHUB_TOKEN) args)
        /\ ("--github-token" ∉ args -> token = GITHUB_TOKEN)
        /\ github_headers token !! "Accept" = Some "application/vnd.github.v3+json"
        /\ github_headers token !! "User-Agent" = Some "speclint/1.0.0"
        /\ github_headers token !! "Authorization"
           = match token with
             | Some (String c t) => Some ("Bearer " +:+ String c t)
             | _ => None
             end)
  /\ (forall message : string,
        URL_parse ("https://api.github.com/repos/" +:+ repo +:+ "/issues/"
                   +:+ issueNumber) = inl message ->
        runEnforce URL_parse parse_issue parse_lint parse_message GITHUB_TOKEN
          net args
        = ([], [Cli.Err ("Error fetching GitHub issue: " +:+ message)], 1%Z)).
Proof.
  intros Hi Hr Hin Hrn.
  rewrite (runEnforce_valid _ _ _ _ _ _ _ _ _ Hi Hr Hin Hrn). cbv zeta.
  split.
  - intros u Hu.
    rewrite (fetch_issue_parsed _ _ _ _ _ _ _ u Hu).
    destruct (github_headers_lookup
                (Enforce.githubToken
                   (Enforce.parseArgs (Enforce.flags0 GITHUB_TOKEN) args)))
      as (H1 & H2 & H3).
    exists (Enforce.githubToken
              (Enforce.parseArgs (Enforce.flags0 GITHUB_TOKEN) args)).
    match goal with
    | |- context [match ?r with inl _ => _ | inr _ => _ end] =>
        destruct r as [line | [[t b0] ls]]
    end.
    + exists []. cbn [fst length].
      repeat split; try assumption; try lia. apply no_token_flag.
    + pose proof (score_issue_length URL_parse parse_lint parse_message net
                    (Enforce.licenseKey
                       (Enforce.parseArgs (Enforce.flags0 GITHUB_TOKEN) args))
                    t b0 ls) as Hlen.
      destruct (score_issue _ _ _ _ _ _ _ _) as [reqs2 [line | lr]];
        exists reqs2; cbn [fst app];
        repeat split; try assumption; try lia; apply no_token_flag.
  - intros message Hu. now rewrite (fetch_issue_unparsed _ _ _ _ _ _ _ _ Hu).
Qed.

Lemma issue_request_shape_witness :
  exists token more,
    (runEnforce plain_url issue_parse lint_parse syntax_message (Some "ghp_env")
       both_ok enforce_args).1.1
    = FetchRequest "api.github.com" "/repos/acme/backend/issues/42" "GET"
        (github_headers token) None :: more
    /\ length more <= 1
    /\ token = Enforce.githubToken
                 (Enforce.parseArgs (Enforce.flags0 (Some "ghp_env")) enforce_args)
    /\ ("--github-token" ∉ enforce_args -> token = Some "ghp_env")
    /\ github_headers token !! "Accept" = Some "application/vnd.github.v3+json"
    /\ github_headers token !! "User-Agent" = Some "speclint/1.0.0"
    /\ github_headers token !! "Authorization"
       = match token with
         | Some (String c t) => Some ("Bearer " +:+ String c t)
         | _ => None
         end.
Proof.
  apply (proj1 (issue_request_shape plain_url issue_parse lint_parse
                  syntax_message (Some "ghp_env") both_ok enforce_args "42"
                  "acme/backend" eq_refl eq_refl ltac:(discriminate)
                  ltac:(discriminate))
           (MkURL "api.github.com" "/repos/acme/backend/issues/42" "")).
  reflexivity.
Defined.

(** Whatever goes wrong with the first request ends the process with
    status 1 after one line on the diagnostic stream, and the scoring
    endpoint is not called: a transport error, status 404 (issue not
    found), another status from 400 on (with the first 200 characters of
    the body), or a body that does not parse.  The request goes to the
    host and the path that the runtime's [URL] reads from the address of
    the issue. *)
Theorem issue_errors_stop_flow (URL_parse : string -> string + URL)
  (parse_issue : string -> option Issue)
  (parse_lint : string -> option Enforce.LintApiResponse)
  (parse_message : string -> string) (GITHUB_TOKEN : option string)
  (net : fetch_request -> fetch_reply) (args : list string)
  (issueNumber repo line : string) (u : URL) :
  Enforce.issueNumber (Enforce.parseArgs (Enforce.flags0 GITHUB_TOKEN) args)
  = Some issueNumber ->
  Enforce.repo (Enforce.parseArgs (Enforce.flags0 GITHUB_TOKEN) args) = Some repo ->
  issueNumber <> "" -> repo <> "" ->
  URL_parse (ghUrl repo issueNumber) = inr u ->
  match net (FetchRequest (hostname u) (pathname u +:+ search u) "GET"
               (github_headers
                  (Enforce.githubToken
                     (Enforce.parseArgs (Enforce.flags0 GITHUB_TOKEN) args)))
               None) with
  | FetchError message => line = "Error fetching GitHub issue: " +:+ message
  | FetchEnd statusCode data =>
      (statusCode = Some 404%N
       /\ line = "Error: Issue #" +:+ issueNumber +:+ " not found in " +:+ repo)
      \/ (exists n, statusCode = Some n /\ (400 <= n)%N /\ n <> 404%N
                    /\ line = "Error: GitHub API returned " +:+ pretty n +:+ ": "
                              +:+ slice0 200 data)
      \/ ((default 0 statusCode < 400)%N /\ parse_issue data = None
          /\ line = "Error fetching GitHub issue: " +:+ parse_message data)
  end ->
  runEnforce URL_parse parse_issue parse_lint parse_message GITHUB_TOKEN net args
  = ([FetchRequest (hostname u) (pathname u +:+ search u) "GET"
        (github_headers
           (Enforce.githubToken
              (Enforce.parseArgs (Enforce.flags0 GITHUB_TOKEN) args)))
        None],
     [Cli.Err line], 1%Z).
Proof.
  intros Hi Hr Hin Hrn Hu Hnet.
  rewrite (runEnforce_valid _ _ _ _ _ _ _ _ _ Hi Hr Hin Hrn). cbv zeta.
  rewrite (fetch_issue_parsed _ _ _ _ _ _ _ u Hu).
  destruct (net _) as [m | statusCode data].
  - now subst.
  - destruct Hnet as [[-> ->] | [(n & -> & Hn & Hne & ->) | (Hlt & Hp & ->)]].
    + reflexivity.
    + change (default 0%N (Some n)) with n.
      destruct (N.eqb_spec n 404); [contradiction |].
      apply N.leb_le in Hn. now rewrite Hn.
    + destruct (N.eqb_spec (default 0%N statusCode) 404); [lia |].
      destruct (N.leb_spec 400 (default 0%N statusCode)); [lia |].
      now rewrite Hp.
Qed.

Lemma issue_errors_stop_flow_witness :
  runEnforce plain_url issue_parse lint_parse syntax_message None issue_gone
    enforce_args
  = ([FetchRequest "api.github.com" "/repos/acme/backend/issues/42" "GET"
        (github_headers None) None],
     [Cli.Err "Error: Issue #42 not found in acme/backend"], 1%Z).
Proof.
  apply (issue_errors_stop_flow plain_url issue_parse lint_parse syntax_message
           None issue_gone enforce_args "42" "acme/backend"
           "Error: Issue #42 not found in acme/backend"
           (MkURL "api.github.com" "/repos/acme/backend/issues/42" ""));
    try reflexivity; try discriminate.
  left. split; reflexivity.
Defined.

(** When the issue tracker answers below 400 (a response without status
    counts as 0) with a body that parses, the second request is a POST to
    the scoring endpoint (the host and the path that the runtime's [URL]
    reads from its address) whose body holds the title and the body of
    the issue (empty strings when missing), its labels in order, and
    [preserve_structure: true]; its content length is the byte length of
    that body, and the license key is sent exactly when it is a non-empty
    string. *)
Theorem scoring_request_shape (URL_parse : string -> string + URL)
  (parse_issue : string -> option Issue)
  (parse_lint : string -> option Enforce.LintApiResponse)
  (parse_message : string -> string) (GITHUB_TOKEN : option string)
  (net : fetch_request -> fetch_reply) (args : list string)
  (issueNumber repo data : string) (statusCode : option N) (issue : Issue)
  (u1 u2 : URL) :
  Enforce.issueNumber (Enforce.parseArgs (Enforce.flags0 GITHUB_TOKEN) args)
  = Some issueNumber ->
  Enforce.repo (Enforce.parseArgs (Enforce.flags0 GITHUB_TOKEN) args) = Some repo ->
  issueNumber <> "" -> repo <> "" ->
  URL_parse (ghUrl repo issueNumber) = inr u1 ->
  URL_parse "https://speclint.ai/api/lint" = inr u2 ->
  net (FetchRequest (hostname u1) (pathname u1 +:+ search u1) "GET"
         (github_headers
            (Enforce.githubToken
               (Enforce.parseArgs (Enforce.flags0 GITHUB_TOKEN) args)))
         None)
  = FetchEnd statusCode data ->
  (default 0 statusCode < 400)%N ->
  parse_issue data = Some issue ->
  exists req1 req2 sent,
    (runEnforce URL_parse parse_issue parse_lint parse_message GITHUB_TOKEN net
       args).1.1
    = [req1; req2]
    /\ req_hostname req2 = hostname u2
    /\ req_path req2 = pathname u2 +:+ search u2
    /\ req_method req2 = "POST"
    /\ req_body req2 = Some sent
    /\ sent
       = "{" +:+ Client.quote "issues" +:+ ":[{" +:+ Client.quote "title" +:+ ":"
         +:+ Client.quote (default "" (title issue)) +:+ ","
         +:+ Client.quote "body" +:+ ":"
         +:+ Client.quote (default "" (issue_body issue)) +:+ ","
         +:+ Client.quote "labels" +:+ ":["
         +:+ join "," (Client.quote <$> default [] (labels issue)) +:+ "]}],"
         +:+ Client.quote "preserve_structure" +:+ ":true}"
    /\ req_headers req2 !! "Content-Type" = Some "application/json"
    /\ req_headers req2 !! "Content-Length" = Some (pretty (Client.byteLength sent))
    /\ req_headers req2 !! "x-license-key"
       = match Enforce.licenseKey
                 (Enforce.parseArgs (Enforce.flags0 GITHUB_TOKEN) args) with
         | Some (String c k) => Some (String c k)
         | _ => None
         end.
Proof.
  intros Hi Hr Hin Hrn Hu1 Hu2 Hnet Hlt Hp.
  rewrite (runEnforce_valid _ _ _ _ _ _ _ _ _ Hi Hr Hin Hrn). cbv zeta.
  rewrite (fetch_issue_parsed _ _ _ _ _ _ _ u1 Hu1), Hnet.
  destruct (N.eqb_spec (default 0%N statusCode) 404); [lia |].
  destruct (N.leb_spec 400 (default 0%N statusCode)); [lia |].
  rewrite Hp.
  assert (Ht : match title issue with
               | Some t => if JsString.truthy t then t else ""
               | None => ""
               end = default "" (title issue))
    by (destruct (title issue) as [[|c t]|]; reflexivity).
  assert (Hb : match issue_body issue with
               | Some b => if JsString.truthy b then b else ""
               | None => ""
               end = default "" (issue_body issue))
    by (destruct (issue_body issue) as [[|c t]|]; reflexivity).
  rewrite Ht, Hb.
  set (key := Enforce.licenseKey
                (Enforce.parseArgs (Enforce.flags0 GITHUB_TOKEN) args)).
  set (t := default "" (title issue)). set (b := default "" (issue_body issue)).
  set (ls := default [] (labels issue)).
  rewrite (score_issue_parsed _ _ _ _ _ _ _ _ u2 Hu2).
  destruct (lint_headers_lookup key (lintBody t b ls)) as (H1 & H2 & H3 & H4).
  eexists _, _, (lintBody t b ls).
  split.
  { match goal with
    | |- context [match ?r with inl _ => _ | inr _ => _ end] => destruct r
    end; reflexivity. }
  cbn [req_hostname req_path req_method req_body req_headers].
  repeat (split; [first [reflexivity | assumption | apply lintBody_wire] |]).
  exact H4.
Qed.

Lemma scoring_request_shape_witness :
  exists req1 req2 sent,
    (runEnforce plain_url issue_parse lint_parse syntax_message None scoring_down
       enforce_args).1.1 = [req1; req2]
    /\ req_hostname req2 = "speclint.ai"
    /\ req_path req2 = "/api/lint"
    /\ req_method req2 = "POST"
    /\ req_body req2 = Some sent
    /\ sent
       = "{" +:+ Client.quote "issues" +:+ ":[{" +:+ Client.quote "title" +:+ ":"
         +:+ Client.quote "Add login" +:+ ","
         +:+ Client.quote "body" +:+ ":" +:+ Client.quote "" +:+ ","
         +:+ Client.quote "labels" +:+ ":["
         +:+ join "," (Client.quote <$> ["bug"; "auth"]) +:+ "]}],"
         +:+ Client.quote "preserve_structure" +:+ ":true}"
    /\ req_headers req2 !! "Content-Type" = Some "application/json"
    /\ req_headers req2 !! "Content-Length" = Some (pretty (Client.byteLength sent))
    /\ req_headers req2 !! "x-license-key" = None.
Proof.
  apply (scoring_request_shape plain_url issue_parse lint_parse syntax_message
           None scoring_down enforce_args "42" "acme/backend" "{issue}" None
           (MkIssue (Some "Add login") None (Some ["bug"; "auth"]))
           (MkURL "api.github.com" "/repos/acme/backend/issues/42" "")
           (MkURL "speclint.ai" "/api/lint" ""));
    try reflexivity; try discriminate.
Defined.

(** The exit status of the enforcement flow is 0 or 1.  It is 0 only
    when two requests were written and the lines printed are the success
    summary of a response whose score meets the threshold; with a
    threshold that is not a number ([--min-score] without digits) it is
    1 whatever the score. *)
Theorem enforce_exit_status (URL_parse : string -> string + URL)
  (parse_issue : string -> option Issue)
  (parse_lint : string -> option Enforce.LintApiResponse)
  (parse_message : string -> string) (GITHUB_TOKEN : option string)
  (net : fetch_request -> fetch_reply) (args : list string) :
  ((runEnforce URL_parse parse_issue parse_lint parse_message GITHUB_TOKEN net
      args).2 = 0%Z
   \/ (runEnforce URL_parse parse_issue parse_lint parse_message GITHUB_TOKEN net
         args).2 = 1%Z)
  /\ ((runEnforce URL_parse parse_issue parse_lint parse_message GITHUB_TOKEN net
         args).2 = 0%Z ->
      length (runEnforce URL_parse parse_issue parse_lint parse_message
                GITHUB_TOKEN net args).1.1 = 2
      /\ exists issueNumber issueTitle lintResult,
          (runEnforce URL_parse parse_issue parse_lint parse_message GITHUB_TOKEN
             net args).1.2
          = Cli.Out <$> Enforce.passed_lines issueNumber issueTitle
                          (Enforce.normalize lintResult)
          /\ Enforce.meets (Enforce.score (Enforce.normalize lintResult))
               (Enforce.minScore
                  (Enforce.parseArgs (Enforce.flags0 GITHUB_TOKEN) args))
             = true)
  /\ (Enforce.minScore (Enforce.parseArgs (Enforce.flags0 GITHUB_TOKEN) args)
      = None ->
      (runEnforce URL_parse parse_issue parse_lint parse_message GITHUB_TOKEN net
         args).2 = 1%Z).
Proof.
  unfold runEnforce.
  set (st := Enforce.parseArgs (Enforce.flags0 GITHUB_TOKEN) args).
  destruct (Enforce.issueNumber st) as [i|];
    [| repeat split; auto; discriminate].
  destruct (Enforce.repo st) as [r|]; [| repeat split; auto; discriminate].
  destruct (JsString.truthy i && JsString.truthy r);
    [| repeat split; auto; discriminate].
  pose proof (fetch_issue_length URL_parse parse_issue parse_message net
                (Enforce.githubToken st) r i) as Hlen1.
  destruct (fetch_issue _ _ _ _ _ _ _) as [reqs1 [line | [[t b] ls]]];
    [repeat split; auto; discriminate |].
  pose proof (score_issue_length URL_parse parse_lint parse_message net
                (Enforce.licenseKey st) t b ls) as Hlen2.
  destruct (score_issue _ _ _ _ _ _ _ _) as [reqs2 [line | lr]];
    [repeat split; auto; discriminate |].
  unfold Enforce.verdict.
  destruct (Enforce.meets _ _) eqn:Hm; cbn [fst snd].
  - split; [now left |]. split.
    + intros _. split; [rewrite length_app; lia |].
      exists i, t, lr. split; [reflexivity | exact Hm].
    + intros Hnan. rewrite Hnan in Hm. discriminate.
  - split; [now right |]. split; [discriminate | reflexivity].
Qed.

Lemma enforce_exit_status_witness :
  (runEnforce plain_url issue_parse lint_parse syntax_message None both_ok
     (enforce_args ++ ["--min-score"; "high"])).2 = 1%Z
  /\ (runEnforce plain_url issue_parse lint_parse syntax_message None both_ok
        (enforce_args ++ ["--min-score"; "79"])).2 = 0%Z
  /\ length (runEnforce plain_url issue_parse lint_parse syntax_message None
               both_ok (enforce_args ++ ["--min-score"; "79"])).1.1 = 2.
Proof.
  destruct (enforce_exit_status plain_url issue_parse lint_parse syntax_message
              None both_ok (enforce_args ++ ["--min-score"; "high"]))
    as (_ & _ & Hnan).
  destruct (enforce_exit_status plain_url issue_parse lint_parse syntax_message
              None both_ok (enforce_args ++ ["--min-score"; "79"]))
    as (_ & Hzero & _).
  split; [apply Hnan; reflexivity |].
  split; [vm_compute; reflexivity |].
  apply Hzero. vm_compute. reflexivity.
Defined.

(** Whatever goes wrong with the second request ends the process with
    status 1 after one line on the diagnostic stream, both requests
    having been written: a transport error, a status from 400 on (with
    the first 200 characters of the body), or a body that does not
    parse.  The requests go to the hosts and the paths that the
    runtime's [URL] reads from the two addresses. *)
Theorem scoring_errors_exit_1 (URL_parse : string -> string + URL)
  (parse_issue : string -> option Issue)
  (parse_lint : string -> option Enforce.LintApiResponse)
  (parse_message : string -> string) (GITHUB_TOKEN : option string)
  (net : fetch_request -> fetch_reply) (args : list string)
  (issueNumber repo data line : string) (statusCode : option N) (issue : Issue)
  (u1 u2 : URL) :
  Enforce.issueNumber (Enforce.parseArgs (Enforce.flags0 GITHUB_TOKEN) args)
  = Some issueNumber ->
  Enforce.repo (Enforce.parseArgs (Enforce.flags0 GITHUB_TOKEN) args) = Some repo ->
  issueNumber <> "" -> repo <> "" ->
  URL_parse (ghUrl repo issueNumber) = inr u1 ->
  URL_parse "https://speclint.ai/api/lint" = inr u2 ->
  net (FetchRequest (hostname u1) (pathname u1 +:+ search u1) "GET"
         (github_headers
            (Enforce.githubToken
               (Enforce.parseArgs (Enforce.flags0 GITHUB_TOKEN) args)))
         None)
  = FetchEnd statusCode data ->
  (default 0 statusCode < 400)%N ->
  parse_issue data = Some issue ->
  match net (FetchRequest (hostname u2) (pathname u2 +:+ search u2) "POST"
               (lint_headers
                  (Enforce.licenseKey
                     (Enforce.parseArgs (Enforce.flags0 GITHUB_TOKEN) args))
                  (lintBody (default "" (title issue))
                     (default "" (issue_body issue)) (default [] (labels issue))))
               (Some (lintBody (default "" (title issue))
                        (default "" (issue_body issue))
                        (default [] (labels issue))))) with
  | FetchError message => line = "Error calling lint API: " +:+ message
  | FetchEnd status2 data2 =>
      (exists n, status2 = Some n /\ (400 <= n)%N
                 /\ line = "Error: Lint API returned " +:+ pretty n +:+ ": "
                           +:+ slice0 200 data2)
      \/ ((default 0 status2 < 400)%N /\ parse_lint data2 = None
          /\ line = "Error calling lint API: " +:+ parse_message data2)
  end ->
  (runEnforce URL_parse parse_issue parse_lint parse_message GITHUB_TOKEN net
     args).2 = 1%Z
  /\ (runEnforce URL_parse parse_issue parse_lint parse_message GITHUB_TOKEN net
        args).1.2
     = [Cli.Err line]
  /\ length (runEnforce URL_parse parse_issue parse_lint parse_message
               GITHUB_TOKEN net args).1.1 = 2.
Proof.
  intros Hi Hr Hin Hrn Hu1 Hu2 Hnet Hlt Hp Hnet2.
  rewrite (runEnforce_valid _ _ _ _ _ _ _ _ _ Hi Hr Hin Hrn). cbv zeta.
  rewrite (fetch_issue_parsed _ _ _ _ _ _ _ u1 Hu1), Hnet.
  destruct (N.eqb_spec (default 0%N statusCode) 404); [lia |].
  destruct (N.leb_spec 400 (default 0%N statusCode)); [lia |].
  rewrite Hp.
  assert (Ht : match title issue with
               | Some t => if JsString.truthy t then t else ""
               | None => ""
               end = default "" (title issue))
    by (destruct (title issue) as [[|c t]|]; reflexivity).
  assert (Hb : match issue_body issue with
               | Some b => if JsString.truthy b then b else ""
               | None => ""
               end = default "" (issue_body issue))
    by (destruct (issue_body issue) as [[|c t]|]; reflexivity).
  rewrite Ht, Hb.
  rewrite (score_issue_parsed _ _ _ _ _ _ _ _ u2 Hu2).
  destruct (net (FetchRequest (hostname u2) _ "POST" _ _))
    as [m | status2 data2].
  - subst. repeat split.
  - destruct Hnet2 as [(n2 & -> & Hn2 & ->) | (Hlt2 & Hp2 & ->)].
    + change (default 0%N (Some n2)) with n2.
      apply N.leb_le in Hn2. rewrite Hn2. repeat split.
    + destruct (N.leb_spec 400 (default 0%N status2)); [lia |].
      rewrite Hp2. repeat split.
Qed.

Lemma scoring_errors_exit_1_witness :
  (runEnforce plain_url issue_parse lint_parse syntax_message None scoring_down
     enforce_args).1.2
  = [Cli.Err "Error: Lint API returned 503: busy"].
Proof.
  apply (scoring_errors_exit_1 plain_url issue_parse lint_parse syntax_message
           None scoring_down enforce_args "42" "acme/backend" "{issue}"
           "Error: Lint API returned 503: busy" None
           (MkIssue (Some "Add login") None (Some ["bug"; "auth"]))
           (MkURL "api.github.com" "/repos/acme/backend/issues/42" "")
           (MkURL "speclint.ai" "/api/lint" ""));
    try reflexivity; try discriminate.
  left. exists 503%N. repeat split. lia.
Defined.

End SpeclintExtras.
